(** * Luna-AI: model routing, local responder and status cache

    A shallow embedding of [ai_api.py] (the local conversation engine,
    the OpenRouter client, the intent dispatch and the fallback router
    of [call_ai_api]) and of [SettingsManager] in [app.py], with the
    reset of the settings dialog, and the properties the specification
    states about them.

    Conventions.  Python [str] is [string] (text is taken to be ASCII,
    so [lower] only moves [A-Z]); Python [int] is [Z]; a [float] that is
    only compared against literals is a rational [Q]; a [dict] is an
    association list in insertion order; values whose type the code
    inspects at run time ([isinstance], [int(...)], truthiness) are
    [Json] values, and [str] of one that is a float, a list or a dict
    is left to the world.  [print] calls are not modelled.

    Effects.  What the program gets from outside (HTTP replies, the
    [.env] file, the clock, the random generator, the platform, process
    launches, the weather and search services) is a [World] of oracles;
    the module globals, the process environment and a log of the
    requests, sleeps, token reloads and launches performed are a
    [State], threaded by a monad in which a raised exception keeps the
    state reached.  A name the module never defines raises [NameError]
    where Python evaluates it.

    Layout.  The embedding comes first, then the vocabulary of the
    statements and sample worlds, then the lemmas and the theorems, each
    theorem under the identifier of the claim it settles.  The
    properties numbered X1 onwards go beyond the claims: they cover the
    rest of the module interface ([load_from_disk], the token and
    settings setters, [set_current_model], the status probe) and say
    more about the code the claims are about. *)

From Stdlib Require Import String Ascii List ZArith QArith Lia Bool Arith DecimalString.
Import ListNotations.
Close Scope Q_scope.
Open Scope string_scope.

(** ** Python string primitives *)

Module PyStr.

(** [str.isspace] on ASCII: TAB..CR, FS..US and the blank. *)
Definition is_space (c : ascii) : bool :=
  let n := nat_of_ascii c in
  ((9 <=? n)%nat && (n <=? 13)%nat) || ((28 <=? n)%nat && (n <=? 32)%nat).

Definition lower_char (c : ascii) : ascii :=
  let n := nat_of_ascii c in
  if (65 <=? n)%nat && (n <=? 90)%nat then ascii_of_nat (n + 32) else c.

Definition upper_char (c : ascii) : ascii :=
  let n := nat_of_ascii c in
  if (97 <=? n)%nat && (n <=? 122)%nat then ascii_of_nat (n - 32) else c.

Definition is_alpha (c : ascii) : bool :=
  let n := nat_of_ascii c in
  ((65 <=? n)%nat && (n <=? 90)%nat) || ((97 <=? n)%nat && (n <=? 122)%nat).

Fixpoint smap (f : ascii -> ascii) (s : string) : string :=
  match s with
  | EmptyString => EmptyString
  | String c t => String (f c) (smap f t)
  end.

(** [s.lower()] *)
Definition lower (s : string) : string := smap lower_char s.

Fixpoint lstrip_by (p : ascii -> bool) (s : string) : string :=
  match s with
  | EmptyString => EmptyString
  | String c t => if p c then lstrip_by p t else s
  end.

Fixpoint rstrip_by (p : ascii -> bool) (s : string) : string :=
  match s with
  | EmptyString => EmptyString
  | String c t =>
      match rstrip_by p t with
      | EmptyString => if p c then EmptyString else String c EmptyString
      | t' => String c t'
      end
  end.

(** [s.strip()] *)
Definition strip (s : string) : string := rstrip_by is_space (lstrip_by is_space s).

Fixpoint mem_char (c : ascii) (chars : string) : bool :=
  match chars with
  | EmptyString => false
  | String d t => Ascii.eqb c d || mem_char c t
  end.

(** [s.lstrip(chars)]: drops leading characters that belong to [chars]. *)
Definition lstrip_chars (chars s : string) : string :=
  lstrip_by (fun c => mem_char c chars) s.

(** [s.strip(chars)] *)
Definition strip_chars (chars s : string) : string :=
  rstrip_by (fun c => mem_char c chars) (lstrip_by (fun c => mem_char c chars) s).

(** [needle in hay] *)
Fixpoint str_in (needle hay : string) : bool :=
  String.prefix needle hay ||
  match hay with
  | EmptyString => false
  | String _ t => str_in needle t
  end.

(** [any(k in s for k in ks)] *)
Definition any_in (ks : list string) (s : string) : bool :=
  existsb (fun k => str_in k s) ks.

Fixpoint drop (n : nat) (s : string) : string :=
  match n, s with
  | O, _ => s
  | S k, EmptyString => EmptyString
  | S k, String _ t => drop k t
  end.

Fixpoint srev_app (acc s : string) : string :=
  match s with
  | EmptyString => acc
  | String c t => srev_app (String c acc) t
  end.

Definition srev (s : string) : string := srev_app EmptyString s.

(** [s.split(sep)] for a non-empty [sep]: [skip] counts the characters of
    a separator occurrence still to be passed over, [acc] holds the
    current piece reversed. *)
Fixpoint split_go (sep : string) (skip : nat) (acc : string) (s : string) : list string :=
  match s with
  | EmptyString => [srev acc]
  | String c t =>
      match skip with
      | S k => split_go sep k acc t
      | O =>
          if String.prefix sep s
          then srev acc :: split_go sep (String.length sep - 1) EmptyString t
          else split_go sep 0 (String c acc) t
      end
  end.

Definition split (sep s : string) : list string := split_go sep 0 EmptyString s.

(** [s.split(sep, 1)]: at most one cut, at the first occurrence. *)
Fixpoint split1_go (sep : string) (acc : string) (s : string) : list string :=
  if String.prefix sep s
  then [srev acc; drop (String.length sep) s]
  else
    match s with
    | EmptyString => [srev acc]
    | String c t => split1_go sep (String c acc) t
    end.

Definition split1 (sep s : string) : list string := split1_go sep EmptyString s.

(** [sep.join(parts)] *)
Definition join (sep : string) (parts : list string) : string := String.concat sep parts.

(** [s.replace(old, new)] for a non-empty [old]. *)
Definition replace (old new s : string) : string := join new (split old s).

(** [s.rsplit(sep, 1)[0]]: the text before the last occurrence of the
    single character [sep], the whole text when there is none. *)
Fixpoint before_last (sep : ascii) (s : string) : option string :=
  match s with
  | EmptyString => None
  | String c t =>
      match before_last sep t with
      | Some r => Some (String c r)
      | None => if Ascii.eqb c sep then Some EmptyString else None
      end
  end.

Definition rsplit1_head (sep : ascii) (s : string) : string :=
  match before_last sep s with
  | Some r => r
  | None => s
  end.

(** [s[:n]] for [n >= 0] *)
Fixpoint take (n : nat) (s : string) : string :=
  match n, s with
  | O, _ => EmptyString
  | S k, EmptyString => EmptyString
  | S k, String c t => String c (take k t)
  end.

(** [s.title()]: a letter is upper-cased after a non-letter and
    lower-cased after a letter. *)
Fixpoint title_go (prev_alpha : bool) (s : string) : string :=
  match s with
  | EmptyString => EmptyString
  | String c t =>
      String (if prev_alpha then lower_char c else upper_char c)
             (title_go (is_alpha c) t)
  end.

Definition title (s : string) : string := title_go false s.

(** Truthiness of a [str]. *)
Definition nonempty (s : string) : bool :=
  match s with
  | EmptyString => false
  | _ => true
  end.

Definition newline : string := String (ascii_of_nat 10) EmptyString.

(** [str(n)] for an [int]. *)
Definition str_of_Z (z : Z) : string :=
  match z with
  | Z0 => "0"
  | Zpos p => DecimalString.NilZero.string_of_uint (Pos.to_uint p)
  | Zneg p => "-" ++ DecimalString.NilZero.string_of_uint (Pos.to_uint p)
  end.

Definition is_digit (c : ascii) : bool :=
  let n := nat_of_ascii c in (48 <=? n)%nat && (n <=? 57)%nat.

Definition digit_val (c : ascii) : Z := Z.of_nat (nat_of_ascii c - 48).

(** Digits of an [int] literal as [int(str)] reads them: decimal digits,
    single underscores allowed between digits only.  [prev_digit] tells
    whether the previous character was a digit. *)
Fixpoint parse_digits (acc : Z) (prev_digit : bool) (s : string) : option Z :=
  match s with
  | EmptyString => if prev_digit then Some acc else None
  | String c t =>
      if is_digit c then parse_digits (10 * acc + digit_val c)%Z true t
      else if Ascii.eqb c "_" then
        (if prev_digit then
           match t with
           | EmptyString => None
           | String d _ => if is_digit d then parse_digits acc false t else None
           end
         else None)
      else None
  end.

(** [int(s)] for a [str]: [None] stands for [ValueError]. *)
Definition int_of_str (s : string) : option Z :=
  match strip s with
  | String "-" t => option_map Z.opp (parse_digits 0 false t)
  | String "+" t => parse_digits 0 false t
  | t => parse_digits 0 false t
  end.

End PyStr.

(** ** Dynamically typed values and dictionaries *)

#[local] Unset Elimination Schemes.
Inductive Json : Type :=
| JNull
| JBool (b : bool)
| JInt (z : Z)
| JFloat (q : Q)
| JStr (s : string)
| JList (l : list Json)
| JDict (d : list (string * Json)).
#[local] Set Elimination Schemes.

Module PyDict.
Section Dict.
Context {V : Type}.

(** [d.get(k)] *)
Fixpoint get (k : string) (d : list (string * V)) : option V :=
  match d with
  | [] => None
  | (k', v) :: t => if String.eqb k k' then Some v else get k t
  end.

(** [k in d] *)
Definition mem (k : string) (d : list (string * V)) : bool :=
  match get k d with
  | Some _ => true
  | None => false
  end.

(** [d[k] = v]: an existing key keeps its place, a new one goes last. *)
Fixpoint set (k : string) (v : V) (d : list (string * V)) : list (string * V) :=
  match d with
  | [] => [(k, v)]
  | (k', v') :: t => if String.eqb k k' then (k, v) :: t else (k', v') :: set k v t
  end.

(** [del d[k]] when [k in d] *)
Fixpoint del (k : string) (d : list (string * V)) : list (string * V) :=
  match d with
  | [] => []
  | (k', v') :: t => if String.eqb k k' then t else (k', v') :: del k t
  end.

End Dict.
End PyDict.

Module PyVal.

(** Truthiness of a value ([bool(v)]). *)
Definition truthy (v : Json) : bool :=
  match v with
  | JNull => false
  | JBool b => b
  | JInt z => negb (Z.eqb z 0)
  | JFloat q => negb (Qeq_bool q 0)
  | JStr s => PyStr.nonempty s
  | JList l => match l with [] => false | _ => true end
  | JDict d => match d with [] => false | _ => true end
  end.

(** [int(v)]: [None] stands for the [TypeError] or [ValueError] raised.
    A float is truncated toward zero. *)
Definition py_int (v : Json) : option Z :=
  match v with
  | JInt z => Some z
  | JBool b => Some (if b then 1 else 0)%Z
  | JFloat q => Some (Z.quot (Qnum q) (Zpos (Qden q)))
  | JStr s => PyStr.int_of_str s
  | JNull | JList _ | JDict _ => None
  end.

(** [lst[-k:]] *)
Definition last_slice {A : Type} (k : Z) (l : list A) : list A :=
  if (k =? 0)%Z then l
  else if (0 <? k)%Z then skipn (List.length l - Z.to_nat k) l
  else skipn (Z.to_nat (- k)) l.

End PyVal.

(** ** The local conversation engine: state and memory *)

(** [LocalConversationEngine]: [conversation_history] is never read or
    written after construction and [response_patterns] is the constant
    table below, so neither is a field. *)
Record LocalConversationEngine : Type := mkEngine {
  creativity_level : Q;
  context_memory : list Json;
  max_memory : Z;
  user_profile : list (string * Json)
}.

(** [LocalConversationEngine.__init__] with the default creativity. *)
Definition engine_init (level : Q) : LocalConversationEngine :=
  {| creativity_level := level;
     context_memory := [];
     max_memory := 10;
     user_profile := [] |}.

Definition Qmax (a b : Q) : Q := if Qle_bool a b then b else a.
Definition Qmin (a b : Q) : Q := if Qle_bool a b then a else b.

(** [set_creativity]: [max(0.1, min(1.0, level))]. *)
Definition set_creativity (e : LocalConversationEngine) (level : Q) : LocalConversationEngine :=
  {| creativity_level := Qmax (1 # 10) (Qmin 1 level);
     context_memory := context_memory e;
     max_memory := max_memory e;
     user_profile := user_profile e |}.

Definition with_memory (e : LocalConversationEngine) (m : list Json) : LocalConversationEngine :=
  {| creativity_level := creativity_level e;
     context_memory := m;
     max_memory := max_memory e;
     user_profile := user_profile e |}.

(** The trimming both [set_memory_size] and [load_from_dict] end with. *)
Definition trim_memory (e : LocalConversationEngine) : LocalConversationEngine :=
  if (max_memory e <? Z.of_nat (List.length (context_memory e)))%Z
  then with_memory e (PyVal.last_slice (max_memory e) (context_memory e))
  else e.

(** [set_memory_size] *)
Definition set_memory_size (e : LocalConversationEngine) (size : Z) : LocalConversationEngine :=
  trim_memory
    {| creativity_level := creativity_level e;
       context_memory := context_memory e;
       max_memory := Z.max 5 (Z.min 50 size);
       user_profile := user_profile e |}.

(** The record [add_to_memory] appends; [now] is
    [datetime.now().isoformat()]. *)
Definition memory_entry (user_input response now : string) : Json :=
  JDict [("user", JStr (PyStr.strip (PyStr.lower user_input)));
         ("response", JStr response);
         ("timestamp", JStr now)].

(** [add_to_memory]: append, then [pop(0)] once when over the bound. *)
Definition add_to_memory (e : LocalConversationEngine) (user_input response now : string)
  : LocalConversationEngine :=
  let m := (context_memory e ++ [memory_entry user_input response now])%list in
  with_memory e
    (if (max_memory e <? Z.of_nat (List.length m))%Z then List.tl m else m).

(** [to_dict]: none of the three conversions can raise on this state. *)
Definition to_dict (e : LocalConversationEngine) : Json :=
  JDict [("context_memory", JList (context_memory e));
         ("user_profile", JDict (user_profile e));
         ("max_memory", JInt (max_memory e))].

(** [data.get(key, default) if isinstance(data, dict) else default] *)
Definition field_or (data : Json) (key : string) (default : Json) : Json :=
  match data with
  | JDict d => match PyDict.get key d with Some v => v | None => default end
  | _ => default
  end.

(** [load_from_dict] *)
Definition load_from_dict (e : LocalConversationEngine) (data : Json) : LocalConversationEngine :=
  let mem := field_or data "context_memory" (JList []) in
  let e1 := match mem with JList l => with_memory e l | _ => e end in
  let prof := field_or data "user_profile" (JDict []) in
  let e2 :=
    match prof with
    | JDict p =>
        {| creativity_level := creativity_level e1;
           context_memory := context_memory e1;
           max_memory := max_memory e1;
           user_profile := p |}
    | _ => e1
    end in
  let max_mem := field_or data "max_memory" (JInt (max_memory e2)) in
  let e3 :=
    match PyVal.py_int max_mem with
    | Some n =>
        {| creativity_level := creativity_level e2;
           context_memory := context_memory e2;
           max_memory := Z.max 5 (Z.min 50 n);
           user_profile := user_profile e2 |}
    | None => e2
    end in
  trim_memory e3.

(** ** The local conversation engine: response generation *)

(** [load_response_patterns]: intent -> tier -> candidates. *)
Definition response_patterns : list (string * list (string * list string)) :=
  [("greetings",
    [("conservative",
      ["Hello! How can I assist you today?";
       "Hi there! What can I help you with?";
       "Good day! How may I help you?"]);
     ("balanced",
      ["Hello! How can I assist you today?";
       "Hi there! What can I help you with?";
       "Good to see you! What's on your mind?";
       "Hey! Ready to help with whatever you need.";
       "Greetings! How may I be of service?"]);
     ("creative",
      ["Hello there, wonderful human! What adventure shall we embark on today?";
       "Greetings, my friend! What fascinating topic can we explore together?";
       "Hey there! I'm buzzing with excitement to help you with anything!";
       "Well hello! What delightful challenge can I tackle for you today?";
       "Salutations! Ready to dive into whatever's on your brilliant mind!"])]);
   ("how_are_you",
    [("conservative",
      ["I'm functioning well, thank you. How are you?";
       "All systems operational. How can I help?";
       "I'm doing fine. What can I do for you?"]);
     ("balanced",
      ["I'm doing great, thank you for asking! How are you?";
       "All systems running smoothly! How's your day going?";
       "Fantastic, thanks! What can I help you accomplish today?";
       "I'm here and ready to help! What's new with you?"]);
     ("creative",
      ["I'm absolutely fantastic! My circuits are practically humming with joy! How's your day treating you?";
       "Couldn't be better! I'm like a digital ray of sunshine today! What's got you curious?";
       "I'm thriving in the digital realm! Every conversation energizes me. How are you doing, my friend?";
       "Spectacular! I'm feeling particularly clever today. What puzzle can we solve together?"])]);
   ("thanks",
    [("conservative",
      ["You're welcome. Anything else I can help with?";
       "Glad to help. Is there anything else?";
       "No problem. What else can I do?"]);
     ("balanced",
      ["You're very welcome! Anything else I can help with?";
       "Happy to help! Is there anything else you need?";
       "My pleasure! Let me know if you need anything else.";
       "Glad I could assist! What else can I do for you?"]);
     ("creative",
      ["Absolutely my pleasure! Helping you brightens my entire digital day!";
       "You're so welcome! It's like digital dopamine when I can be useful!";
       "Aww, you're too kind! I live for moments like these. What's next on our agenda?";
       "The pleasure was all mine! I'm practically glowing with satisfaction right now!"])]);
   ("capabilities",
    [("conservative",
      ["I can help with weather, web searches, system commands, and conversation.";
       "My functions include weather information, internet searches, and system operations.";
       "I provide weather data, search results, system commands, and general assistance."]);
     ("balanced",
      ["I can help with weather, web searches, system commands, and general conversation!";
       "I'm great at finding information, controlling your system, checking weather, and chatting!";
       "Weather updates, web searches, opening programs, and friendly conversation are my specialties!"]);
     ("creative",
      ["Oh, I'm like a digital Swiss Army knife! Weather wizardry, web search sorcery, system command mastery, and conversation that'll knock your socks off!";
       "I'm your personal digital genie! I grant wishes for weather info, conjure search results from the internet, command your system like magic, and chat with the enthusiasm of a thousand coffee shots!";
       "Think of me as your AI sidekick! I can forecast weather like a meteorologist, search the web faster than you can blink, control your computer like a digital puppeteer, and chat with more personality than a talk show host!"])]);
   ("confused",
    [("conservative",
      ["I don't understand. Please clarify.";
       "Could you rephrase that?";
       "Please provide more information."]);
     ("balanced",
      ["I'm not quite sure I understand. Could you rephrase that?";
       "Could you clarify what you're looking for?";
       "I want to help, but I need a bit more information."]);
     ("creative",
      ["Hmm, you've got me scratching my digital head! Could you paint that picture a bit clearer for me?";
       "Oops, my understanding circuits are a bit tangled! Mind rewording that masterpiece?";
       "I'm drawing a delightful blank here! Help me connect the dots with a little more detail?"])]);
   ("default_responses",
    [("conservative",
      ["I see. What would you like to know about that?";
       "That's interesting. How can I help?";
       "Please tell me more about what you need."]);
     ("balanced",
      ["That's interesting! Tell me more about that.";
       "I see! What would you like to know about it?";
       "Fascinating! How can I help you with that?";
       "That sounds intriguing! What specifically interests you about it?"]);
     ("creative",
      ["Ooh, that's got my curiosity circuits firing on all cylinders! Spill the details!";
       "Now THAT sounds like an adventure waiting to happen! What's the scoop?";
       "My interest is officially piqued! Let's dive deep into this rabbit hole together!";
       "You've struck digital gold with that topic! I'm all ears (well, all sensors)!"])])].

(** [a <= b] and [a > b] on the levels the code compares. *)
Definition Qleb (a b : Q) : bool := Qle_bool a b.
Definition Qgtb (a b : Q) : bool := negb (Qle_bool a b).
Definition Qltb (a b : Q) : bool := negb (Qle_bool b a).

(** [get_creativity_tier] *)
Definition get_creativity_tier (e : LocalConversationEngine) : string :=
  if Qleb (creativity_level e) (3 # 10) then "conservative"
  else if Qleb (creativity_level e) (7 # 10) then "balanced"
  else "creative".

(** [analyze_intent]; [recent_context] is computed and never used. *)
Definition analyze_intent (e : LocalConversationEngine) (message : string) : string :=
  let message_lower := PyStr.strip (PyStr.lower message) in
  if PyStr.any_in ["hello"; "hi"; "hey"; "good morning"; "good afternoon"; "greetings"] message_lower
  then "greetings"
  else if PyStr.any_in ["how are you"; "how's it going"; "how do you feel"] message_lower
  then "how_are_you"
  else if PyStr.any_in ["thanks"; "thank you"; "appreciate"; "grateful"] message_lower
  then "thanks"
  else if PyStr.any_in ["good job"; "excellent"; "amazing"; "awesome"; "brilliant"] message_lower
  then "compliments"
  else if PyStr.any_in ["what can you do"; "your abilities"; "your capabilities"; "help me"] message_lower
  then "capabilities"
  else if PyStr.any_in ["bye"; "goodbye"; "see you"; "farewell"; "exit"] message_lower
  then "farewells"
  else if (String.length message_lower <? 15)%nat && PyStr.str_in "?" message_lower
  then "confused"
  else "default".

(** The [random] module: the [k]-th draw of [random.random()] and of the
    uniform index below a bound that [choice] and [sample] use. *)
Record Rng : Type := mkRng {
  rng_random : nat -> Q;
  rng_below : nat -> nat -> nat
}.

Definition randbelow (rng : Rng) (k bound : nat) : nat := rng_below rng k bound mod bound.

Fixpoint accumulate (acc : Z) (ws : list Z) : list Z :=
  match ws with
  | [] => []
  | w :: t => (acc + w)%Z :: accumulate (acc + w)%Z t
  end.

(** [bisect(cum, x, 0, hi)] on the ascending [cum]: how many of its
    first [hi] entries are [<= x]. *)
Definition bisect (cum : list Z) (x : Q) (hi : nat) : nat :=
  List.length (filter (fun c => Qleb (inject_Z c) x) (firstn hi cum)).

(** [random.choices(population, weights=weights)[0]] *)
Definition choices (rng : Rng) (k : nat) (population : list string) (weights : list Z) : string :=
  let cum := accumulate 0 weights in
  let total := last cum 0%Z in
  let x := Qmult (rng_random rng k) (inject_Z total) in
  nth (bisect cum x (List.length population - 1)) population "".

(** [(base + [pad] * (n - len(base)))[:n]] *)
Definition weights_for (base : list Z) (pad : Z) (n : nat) : list Z :=
  firstn n (base ++ repeat pad (n - List.length base))%list.

Fixpoint list_set {A : Type} (i : nat) (x : A) (l : list A) : list A :=
  match l, i with
  | [], _ => []
  | _ :: t, O => x :: t
  | h :: t, S j => h :: list_set j x t
  end.

(** [random.sample(population, 2)] by the pool algorithm [sample] uses
    for populations of at most 21 elements. *)
Definition sample2 (rng : Rng) (k : nat) (population : list string) : string * string :=
  let n := List.length population in
  let j0 := randbelow rng k n in
  let first := nth j0 population "" in
  let pool := list_set j0 (nth (n - 1) population "") population in
  let j1 := randbelow rng (S k) (n - 1) in
  (first, nth j1 pool "").

(** [select_response]: returns the choice and the number of draws taken
    from the generator so far. *)
Definition select_response (rng : Rng) (k : nat) (e : LocalConversationEngine)
    (responses : list string) : string * nat :=
  match responses with
  | [] => ("I'm here to help!", k)
  | first :: _ =>
      let n := List.length responses in
      let level := creativity_level e in
      if Qleb level (3 # 10) then (first, k)
      else if Qleb level (5 # 10) then
        (choices rng k responses (weights_for [3; 2; 1]%Z 1 n), S k)
      else if Qleb level (7 # 10) then
        (choices rng k responses (weights_for [2; 2; 2; 1; 1]%Z 1 n), S k)
      else if Qleb level (8 # 10) then
        (choices rng k responses (weights_for [1; 1; 2; 2; 3]%Z 2 n), S k)
      else if (1 <? n)%nat then
        if Qltb (rng_random rng k) (1 # 10) then
          let '(a, b) := sample2 rng (S k) responses in
          (a ++ " " ++ PyStr.lower b, S (S (S k)))
        else (nth (randbelow rng (S k) n) responses "", S (S k))
      else (nth (randbelow rng k n) responses "", S k)
  end.

(** The candidate list [generate_response] hands to [select_response]. *)
Definition candidate_responses (intent creativity_tier : string) : list string :=
  let tiers_of name :=
    match PyDict.get name response_patterns with
    | Some tiers => tiers
    | None => []
    end in
  let pick tiers :=
    match PyDict.get creativity_tier tiers with
    | Some l => l
    | None => match PyDict.get "balanced" tiers with Some l => l | None => [] end
    end in
  if PyDict.mem intent response_patterns
  then pick (tiers_of intent)
  else pick (tiers_of "default_responses").

Definition flourishes : list string :=
  [" amazing"; " spectacular"; " fantastic"; " wonderful"; " brilliant";
   " awesome"; " incredible"; " extraordinary"].

(** ** Exceptions *)

Inductive PyExc : Type :=
| HFRequestError (status_code : Z) (message : string)
| RequestsTimeout (message : string)
| PyException (message : string)
| NameError (name : string)
| AttributeError (message : string)
| OSError (message : string)
| KeyError (key : string).

(** [str(e)] *)
Definition exc_str (e : PyExc) : string :=
  match e with
  | HFRequestError _ m => m
  | RequestsTimeout m => m
  | PyException m => m
  | NameError n => "name '" ++ n ++ "' is not defined"
  | AttributeError m => m
  | OSError m => m
  | KeyError k => "'" ++ k ++ "'"
  end.

(** ** The model status cache ([SettingsManager] in [app.py]) *)

(** [{'error': ..., 'timestamp': ...}] *)
Record ErrorRecord : Type := mkErrorRecord {
  er_error : string;
  er_timestamp : Q
}.

(** [self.settings] is split in two: the entry ['model_errors'] and all
    other keys.  [__init__] creates the entry, but the dict can lose it:
    the settings dialog replaces [self.settings] by a copy of the
    defaults, which have no such key; [None] is the dict without the
    key.  [save_settings] only writes the settings file, swallowing
    failures, and is left out. *)
Record SettingsManager : Type := mkSettingsManager {
  settings : list (string * Json);
  settings_model_errors : option (list (string * ErrorRecord));
  model_errors : list (string * ErrorRecord);
  model_status : list (string * string)
}.

Module Settings.

(** [get(key, default)] *)
Definition get (sm : SettingsManager) (key : string) (default : Json) : Json :=
  match PyDict.get key (settings sm) with
  | Some v => v
  | None => default
  end.

(** [set(key, value)] *)
Definition set (sm : SettingsManager) (key : string) (value : Json) : SettingsManager :=
  {| settings := PyDict.set key value (settings sm);
     settings_model_errors := settings_model_errors sm;
     model_errors := model_errors sm;
     model_status := model_status sm |}.

(** What a method of the manager gives: what it returns or the
    exception it raises, and the manager as the call leaves it. *)
Definition Outcome : Type := ((PyExc + unit) * SettingsManager)%type.

(** [set_model_error]; [t1] and [t2] are its two readings of
    [time.time()].  The cache in memory is written first; the last
    assignment, to [self.settings['model_errors'][model_id]], raises
    [KeyError] when the settings have no ['model_errors']. *)
Definition set_model_error (sm : SettingsManager) (model_id error : string) (t1 t2 : Q)
  : Outcome :=
  let cached (stored : option (list (string * ErrorRecord))) :=
    {| settings := settings sm;
       settings_model_errors := stored;
       model_errors := PyDict.set model_id (mkErrorRecord error t1) (model_errors sm);
       model_status :=
         PyDict.set model_id
           (if PyStr.str_in "paused" (PyStr.lower error) then "paused" else "error")
           (model_status sm) |} in
  match settings_model_errors sm with
  | Some stored =>
      (inr tt, cached (Some (PyDict.set model_id (mkErrorRecord error t2) stored)))
  | None => (inl (KeyError "model_errors"), cached None)
  end.

(** [set_model_status]; [error = None] is the omitted argument.  Both
    branches create the entry ['model_errors'] of the settings when it
    is missing. *)
Definition set_model_status (sm : SettingsManager) (model_id : string)
    (status : option string) (error : option string) (t1 t2 : Q) : SettingsManager :=
  let status' :=
    PyStr.lower (match status with
                 | Some s => if PyStr.nonempty s then s else "error"
                 | None => "error"
                 end) in
  let stored :=
    match settings_model_errors sm with
    | Some stored => stored
    | None => []
    end in
  if String.eqb status' "available" then
    {| settings := settings sm;
       settings_model_errors := Some (PyDict.del model_id stored);
       model_errors := PyDict.del model_id (model_errors sm);
       model_status := PyDict.set model_id status' (model_status sm) |}
  else
    let fallback := if String.eqb status' "paused" then "Paused" else "Unavailable" in
    let msg :=
      match error with
      | Some m => if PyStr.nonempty m then m else fallback
      | None => fallback
      end in
    {| settings := settings sm;
       settings_model_errors := Some (PyDict.set model_id (mkErrorRecord msg t2) stored);
       model_errors := PyDict.set model_id (mkErrorRecord msg t1) (model_errors sm);
       model_status := PyDict.set model_id status' (model_status sm) |}.

(** [get_model_error] *)
Definition get_model_error (sm : SettingsManager) (model_id : string) : option ErrorRecord :=
  PyDict.get model_id (model_errors sm).

(** [get_model_status] *)
Definition get_model_status (sm : SettingsManager) (model_id : string) : string :=
  match PyDict.get model_id (model_status sm) with
  | Some s => s
  | None => "available"
  end.

(** [check_model_availability] *)
Definition check_model_availability (sm : SettingsManager) (model_id : string) : bool :=
  String.eqb (get_model_status sm model_id) "available".

(** [clear_model_error]: the cache in memory is cleared first; the
    test on [self.settings['model_errors']] then raises [KeyError] when
    the settings have no ['model_errors']. *)
Definition clear_model_error (sm : SettingsManager) (model_id : string) : Outcome :=
  let cleared (stored : option (list (string * ErrorRecord))) :=
    {| settings := settings sm;
       settings_model_errors := stored;
       model_errors := PyDict.del model_id (model_errors sm);
       model_status :=
         if PyDict.mem model_id (model_status sm)
         then PyDict.set model_id "available" (model_status sm)
         else model_status sm |} in
  match settings_model_errors sm with
  | Some stored => (inr tt, cleared (Some (PyDict.del model_id stored)))
  | None => (inl (KeyError "model_errors"), cleared None)
  end.

End Settings.

(** ** The outside world and the program state *)

(** What [requests.post] gave [query_model].  For a reply the fields are
    what the method reads off it: the value found as the content of the
    first choice of a 200 body, whatever JSON value it is (or the text
    of the exception raised while reading the body), the error text of
    a non-200 body ([response.text], replaced by
    [str(err_json['error'])] for a JSON object that has it), and the
    [error]/[message] text the 400 branch extracts (empty when absent
    or unreadable). *)
Record HttpBody : Type := mkHttpBody {
  body_content : Json + string;
  body_err_text : string;
  body_err_txt400 : string
}.

Inductive HttpOutcome : Type :=
| HttpReply (status : Z) (body : HttpBody)
| HttpTimeout (e : string)
| HttpFailure (e : string).

(** A JSON number with its rendering in an f-string. *)
Record Num : Type := mkNum {
  num_val : Q;
  num_str : string
}.

(** What the weather request gave [get_weather]. *)
Inductive WeatherOutcome : Type :=
| WeatherReport (temp feels_like humidity : Num) (desc : string)
| WeatherRefused (error_msg : string)
| WeatherRequestException (e : string)
| WeatherOtherException (e : string).

(** One search hit; an absent key reads as the empty text. *)
Record Hit : Type := mkHit {
  hit_title : string;
  hit_body : string;
  hit_href : string;
  hit_url : string;
  hit_date : string
}.

Inductive DdgsCall : Type :=
| DdgsText (query : string) (region : option string) (max_results : Z)
| DdgsNews (query : string) (max_results : Z).

(** Processes the system commands start. *)
Inductive Launch : Type :=
| Popen (argv : list string)
| Run (argv : list string)
| WebOpen (url : string).

Record World : Type := mkWorld {
  (** the [n]-th POST of the process: bearer token, model id, prompt *)
  w_http_post : nat -> option string -> string -> string -> HttpOutcome;
  (** lines of the [.env] file; [None] when missing or unreadable *)
  w_dotenv : option (list string);
  (** [time.time()] and [datetime.now().isoformat()] at the [n]-th reading *)
  w_time : nat -> Q;
  w_now_iso : nat -> string;
  w_rng : Rng;
  (** [platform.system()] *)
  w_platform : string;
  (** starting a process: [Some e] when it raises [OSError(e)] *)
  w_launch : Launch -> option string;
  (** city, API key *)
  w_weather_get : string -> string -> WeatherOutcome;
  (** a search call: the hits, or the text of the exception raised *)
  w_ddgs : DdgsCall -> list Hit + string;
  (** instant answers: the [text] of each *)
  w_ddgs_chat : string -> list string + string;
  (** whether the local profile file can be written *)
  w_profile_writable : bool;
  (** [str(v)] of a float, a list or a dict, whose rendering is not
      computed here *)
  w_str : Json -> string
}.

(** [advanced_settings]: the module initialises every key and the
    callers overwrite them with values of the same type. *)
Record AdvancedSettings : Type := mkAdvancedSettings {
  enable_search : bool;
  enable_system_commands : bool;
  search_results_limit : Z;
  conversation_memory : Z;
  response_delay : Q;
  current_model : string;
  remember_local_profile : bool
}.

Inductive Event : Type :=
| EvSleep (seconds : Q)
| EvQuery (model_id : string)
| EvReloadToken
| EvLaunch (l : Launch).

(** The module globals of [ai_api], the process environment, the local
    profile file, the counters of the readings taken from the world and
    the log of the effects performed. *)
Record State : Type := mkState {
  conversation_engine : LocalConversationEngine;
  advanced_settings : AdvancedSettings;
  settings_manager : option SettingsManager;
  openrouter_api_key : option string;
  environ : list (string * string);
  profile_file : option Json;
  n_posts : nat;
  n_ticks : nat;
  n_draws : nat;
  trace : list Event
}.

Definition with_engine (s : State) (e : LocalConversationEngine) : State :=
  mkState e (advanced_settings s) (settings_manager s) (openrouter_api_key s)
          (environ s) (profile_file s) (n_posts s) (n_ticks s) (n_draws s) (trace s).

Definition with_advanced (s : State) (a : AdvancedSettings) : State :=
  mkState (conversation_engine s) a (settings_manager s) (openrouter_api_key s)
          (environ s) (profile_file s) (n_posts s) (n_ticks s) (n_draws s) (trace s).

Definition with_manager (s : State) (m : option SettingsManager) : State :=
  mkState (conversation_engine s) (advanced_settings s) m (openrouter_api_key s)
          (environ s) (profile_file s) (n_posts s) (n_ticks s) (n_draws s) (trace s).

Definition with_api_key (s : State) (k : option string) : State :=
  mkState (conversation_engine s) (advanced_settings s) (settings_manager s) k
          (environ s) (profile_file s) (n_posts s) (n_ticks s) (n_draws s) (trace s).

Definition with_environ (s : State) (env : list (string * string)) : State :=
  mkState (conversation_engine s) (advanced_settings s) (settings_manager s)
          (openrouter_api_key s) env (profile_file s) (n_posts s) (n_ticks s)
          (n_draws s) (trace s).

Definition with_profile_file (s : State) (f : option Json) : State :=
  mkState (conversation_engine s) (advanced_settings s) (settings_manager s)
          (openrouter_api_key s) (environ s) f (n_posts s) (n_ticks s)
          (n_draws s) (trace s).

Definition with_posts (s : State) (n : nat) : State :=
  mkState (conversation_engine s) (advanced_settings s) (settings_manager s)
          (openrouter_api_key s) (environ s) (profile_file s) n (n_ticks s)
          (n_draws s) (trace s).

Definition with_ticks (s : State) (n : nat) : State :=
  mkState (conversation_engine s) (advanced_settings s) (settings_manager s)
          (openrouter_api_key s) (environ s) (profile_file s) (n_posts s) n
          (n_draws s) (trace s).

Definition with_draws (s : State) (n : nat) : State :=
  mkState (conversation_engine s) (advanced_settings s) (settings_manager s)
          (openrouter_api_key s) (environ s) (profile_file s) (n_posts s)
          (n_ticks s) n (trace s).

Definition with_trace (s : State) (t : list Event) : State :=
  mkState (conversation_engine s) (advanced_settings s) (settings_manager s)
          (openrouter_api_key s) (environ s) (profile_file s) (n_posts s)
          (n_ticks s) (n_draws s) t.

(** ** A state monad in which an exception keeps the state reached *)

Definition M (A : Type) : Type := State -> (PyExc + A) * State.

Definition ret {A : Type} (a : A) : M A := fun s => (inr a, s).

Definition raise {A : Type} (e : PyExc) : M A := fun s => (inl e, s).

Definition bind {A B : Type} (m : M A) (f : A -> M B) : M B :=
  fun s =>
    match m s with
    | (inr a, s') => f a s'
    | (inl e, s') => (inl e, s')
    end.

(** [try: m except Exception as e: h e] *)
Definition catch {A : Type} (m : M A) (h : PyExc -> M A) : M A :=
  fun s =>
    match m s with
    | (inl e, s') => h e s'
    | (inr a, s') => (inr a, s')
    end.

Definition gets {A : Type} (f : State -> A) : M A := fun s => (inr (f s), s).

Definition modify (f : State -> State) : M unit := fun s => (inr tt, f s).

Declare Scope py_scope.
Delimit Scope py_scope with py.
Notation "x <- m ;; k" := (bind m (fun x => k))
  (at level 61, m at next level, right associativity) : py_scope.
Notation "m ;;; k" := (bind m (fun _ => k))
  (at level 61, right associativity) : py_scope.
Open Scope py_scope.

Definition log (ev : Event) : M unit :=
  modify (fun s => with_trace s (trace s ++ [ev])%list).

(** [time.sleep] *)
Definition sleep (seconds : Q) : M unit := log (EvSleep seconds).

(** ** The program, relative to a world *)

Section Program.

Variable w : World.

(** [str(v)], as in [str(response)] and in an f-string. *)
Definition py_str (v : Json) : string :=
  match v with
  | JStr t => t
  | JNull => "None"
  | JBool true => "True"
  | JBool false => "False"
  | JInt z => PyStr.str_of_Z z
  | JFloat _ | JList _ | JDict _ => w_str w v
  end.

(** [datetime.now().isoformat()] *)
Definition now_iso : M string :=
  fun s => (inr (w_now_iso w (n_ticks s)), with_ticks s (S (n_ticks s))).

(** [time.time()] *)
Definition time_time : M Q :=
  fun s => (inr (w_time w (n_ticks s)), with_ticks s (S (n_ticks s))).

(** [save_to_disk]: a failed write is swallowed. *)
Definition save_to_disk : M unit :=
  modify (fun s =>
    if w_profile_writable w
    then with_profile_file s (Some (to_dict (conversation_engine s)))
    else s).

(** [generate_response] *)
Definition generate_response (message : string) : M string :=
  e <- gets conversation_engine ;;
  let intent := analyze_intent e message in
  let creativity_tier := get_creativity_tier e in
  let responses := candidate_responses intent creativity_tier in
  k <- gets n_draws ;;
  let '(response, k') := select_response (w_rng w) k e responses in
  modify (fun s => with_draws s k') ;;;
  now <- now_iso ;;
  modify (fun s =>
    with_engine s (add_to_memory (conversation_engine s) message response now)) ;;;
  remember <- gets (fun s => remember_local_profile (advanced_settings s)) ;;
  (if remember then save_to_disk else ret tt) ;;;
  if Qgtb (creativity_level e) (8 # 10) then
    if Qltb (rng_random (w_rng w) k') (15 # 100) then
      modify (fun s => with_draws s (S (S k'))) ;;;
      ret (response ++ nth (randbelow (w_rng w) (S k') (List.length flourishes)) flourishes "")
    else
      modify (fun s => with_draws s (S k')) ;;;
      ret response
  else ret response.

Definition double_quote : string := String (ascii_of_nat 34) EmptyString.

(** One line of [.env] as [_load_env_from_dotenv] treats it. *)
Definition load_env_line (env : list (string * string)) (raw : string) : list (string * string) :=
  let line := PyStr.strip raw in
  if negb (PyStr.nonempty line) || String.prefix "#" line then env
  else if negb (PyStr.str_in "=" line) then env
  else
    match PyStr.split1 "=" line with
    | [key; val] =>
        let key := PyStr.strip key in
        let val := PyStr.strip_chars "'" (PyStr.strip_chars double_quote (PyStr.strip val)) in
        if PyStr.nonempty key && PyStr.nonempty val && negb (PyDict.mem key env)
        then PyDict.set key val env
        else env
    | _ => env
    end.

(** [_load_env_from_dotenv] *)
Definition _load_env_from_dotenv : M unit :=
  match w_dotenv w with
  | None => ret tt
  | Some lines => modify (fun s => with_environ s (fold_left load_env_line lines (environ s)))
  end.

(** [reload_openrouter_token_from_env] *)
Definition reload_openrouter_token_from_env : M bool :=
  log EvReloadToken ;;;
  _load_env_from_dotenv ;;;
  env <- gets environ ;;
  match PyDict.get "OPENROUTER_API_KEY" env with
  | Some tok =>
      if PyStr.nonempty tok && PyStr.nonempty (PyStr.strip tok)
      then modify (fun s => with_api_key s (Some (PyStr.strip tok))) ;;; ret true
      else ret false
  | None => ret false
  end.

(** What [OpenRouterAPI.query_model] (the second definition of the
    class, which replaces the first) makes of the outcome of its
    request: the value it returns, which it does not check to be a
    text, or the exception it raises. *)
Definition classify_outcome (o : HttpOutcome) : PyExc + Json :=
  match o with
  | HttpTimeout e => inl (RequestsTimeout e)
  | HttpFailure e => inl (HFRequestError (-1) e)
  | HttpReply status body =>
      if (status =? 200)%Z then
        match body_content body with
        | inl content => inr content
        | inr e => inl (HFRequestError (-1) ("Failed to parse OpenRouter response: " ++ e))
        end
      else
        let lower_err := PyStr.lower (body_err_text body) in
        if PyStr.str_in "paused" lower_err || PyStr.str_in "space is paused" lower_err
        then inl (HFRequestError (-1) "HF endpoint paused")
        else if PyStr.str_in "loading" lower_err || (status =? 503)%Z || (status =? 524)%Z
        then inl (HFRequestError (-1) "HF endpoint loading")
        else if (status =? 401)%Z || (status =? 403)%Z
        then inl (HFRequestError status "HF authentication/authorization error")
        else if (status =? 429)%Z
        then inl (HFRequestError status "HF rate limit exceeded")
        else if (status =? 400)%Z
        then inl (HFRequestError 400
                    (if PyStr.nonempty (body_err_txt400 body)
                     then "Bad Request: " ++ body_err_txt400 body
                     else "Bad Request"))
        else if (status =? 404)%Z
        then inl (HFRequestError 404 "Model not found or endpoint removed")
        else inl (HFRequestError status ("HF request failed: " ++ PyStr.str_of_Z status))
  end.

(** [OpenRouterAPI.query_model]: one POST, then the classification.  The
    endpoint override read from the environment only changes the URL,
    which is part of the world. *)
Definition query_model (model_id inputs : string) : M Json :=
  n <- gets n_posts ;;
  token <- gets openrouter_api_key ;;
  modify (fun s => with_posts s (S n)) ;;;
  log (EvQuery model_id) ;;;
  match classify_outcome (w_http_post w n token model_id inputs) with
  | inl e => raise e
  | inr content => ret content
  end.

(** [hf_api.query_model]: the module defines no [hf_api], so evaluating
    the name raises [NameError] before any request is made. *)
Definition hf_api_query_model (model_id inputs : string) : M Json :=
  raise (NameError "hf_api").

Definition model_info (name type provider description : string)
    (features : list string) (status : string) (extra : list (string * Json)) : Json :=
  JDict ([("name", JStr name); ("type", JStr type); ("provider", JStr provider);
          ("description", JStr description);
          ("features", JList (map JStr features));
          ("status", JStr status)] ++ extra)%list.

(** [get_available_models] *)
Definition get_available_models : list (string * Json) :=
  [("local_engine",
    model_info "Local Conversation Engine" "local" "local"
      "Fast local responses with advanced pattern matching and creativity controls"
      ["instant_response"; "offline"; "privacy"; "creativity_control";
       "weather_integration"; "web_search"; "system_commands"]
      "active" []);
   ("local/mistral-7b-instruct",
    model_info "Mistral 7B" "local" "local"
      "Local 7B parameter model with excellent performance, runs entirely on your hardware"
      ["conversation"; "reasoning"; "instruction_following"; "code_generation";
       "offline"; "privacy"]
      "not_downloaded" [("download_command", JStr "ollama pull mistral")]);
   ("local/llama-3.1-8b-instruct",
    model_info "Llama 3.1 8B" "local" "local"
      "Latest local 8B model with strong reasoning capabilities, runs entirely on your hardware"
      ["reasoning"; "conversation"; "instruction_following"; "knowledge_retrieval";
       "offline"; "privacy"]
      "not_downloaded" [("download_command", JStr "ollama pull llama3.1")]);
   ("local/qwen-2.5-7b-instruct",
    model_info "Qwen 2.5 7B" "local" "local"
      "Local 7B model with strong multilingual capabilities, runs entirely on your hardware"
      ["multilingual"; "conversation"; "reasoning"; "instruction_following";
       "offline"; "privacy"]
      "not_downloaded" [("download_command", JStr "ollama pull qwen2.5:7b")]);
   ("local/deepseek-coder-6.7b",
    model_info "DeepSeek Coder 6.7B" "local" "local"
      "Local 6.7B model optimized for coding and programming tasks, runs entirely on your hardware"
      ["code_generation"; "programming_assistance"; "debugging"; "offline"; "privacy"]
      "not_downloaded" [("download_command", JStr "ollama pull deepseek-coder:6.7b")]);
   ("deepseek/deepseek-r1-0528:free",
    model_info "DeepSeek R1" "openrouter" "openrouter"
      "DeepSeek's latest conversational model optimized for chat interactions and instruction following"
      ["conversation"; "instruction_following"; "reasoning"; "multilingual"]
      "available" []);
   ("openai/gpt-oss-20b:free",
    model_info "OpenAI GPT-OSS 20B" "openrouter" "openrouter"
      "Open-source 20B parameter language model based on GPT architecture with strong general-purpose capabilities"
      ["conversation"; "reasoning"; "code_generation"; "knowledge_retrieval"; "multilingual"]
      "available" []);
   ("openai/gpt-oss-120b:free",
    model_info "OpenAI GPT-OSS 120B" "openrouter" "openrouter"
      "Larger GPT-OSS 120B parameter model for more demanding reasoning and generation tasks"
      ["conversation"; "reasoning"; "code_generation"; "knowledge_retrieval"; "multilingual"]
      "available" [])].

(** [info.get(key)] on a descriptor known to be a dict. *)
Definition info_get (info : Json) (key : string) : option Json :=
  match info with
  | JDict fields => PyDict.get key fields
  | _ => None
  end.

(** The text a field of a built-in descriptor holds; every built-in
    field read this way is a [str]. *)
Definition info_text (info : Json) (key default : string) : string :=
  match info_get info key with
  | Some (JStr t) => t
  | _ => default
  end.

Definition local_engine_info : Json :=
  match PyDict.get "local_engine" get_available_models with
  | Some i => i
  | None => JNull
  end.

(** [available_models.get(current_model, available_models['local_engine'])] *)
Definition lookup_model_info (current_model : string) : Json :=
  match PyDict.get current_model get_available_models with
  | Some i => i
  | None => local_engine_info
  end.

(** [get_current_model_info] *)
Definition get_current_model_info : M Json :=
  adv <- gets advanced_settings ;;
  ret (lookup_model_info (current_model adv)).

(** [current_model_info['name']] *)
Definition model_name_of (current_model : string) : string :=
  info_text (lookup_model_info current_model) "name" "".

(** *** The weather, search and system-command executors *)

(** The text [get_weather] returns, from what it reads of the state:
    the environment, the settings and the creativity level.  Every
    exception of the request and of the reading of its reply is caught
    inside the function. *)
Definition weather_text (env : list (string * string)) (sm : option SettingsManager)
    (creativity : Q) (city : string) : string :=
  let env_key :=
    match PyDict.get "OPENWEATHERMAP_API_KEY" env with
    | Some k => k
    | None => ""
    end in
  let api_key :=
    if PyStr.nonempty env_key then env_key
    else
      match sm with
      | None => env_key
      | Some m =>
          match Settings.get m "openweathermap_api_key" (JStr "") with
          | JStr k => PyStr.strip k
          | v => if PyVal.truthy v then env_key else ""
          end
      end in
  if negb (PyStr.nonempty api_key) then
    if Qgtb creativity (7 # 10)
    then "I can't fetch live weather yet because no OpenWeatherMap API key is configured. Add your key in the Settings or .env file to enable real-time weather."
    else "Weather is currently disabled because no OpenWeatherMap API key is configured. Please add your key in Settings or the .env file to enable weather."
  else
    match w_weather_get w city api_key with
    | WeatherReport temp feels_like humidity desc =>
        if Qleb creativity (3 # 10) then
          "Weather in " ++ city ++ ": " ++ PyStr.title desc ++ ", " ++ num_str temp
          ++ "°F (feels like " ++ num_str feels_like ++ "°F), humidity "
          ++ num_str humidity ++ "%"
        else if Qleb creativity (7 # 10) then
          "🌤️ Weather in " ++ city ++ ": " ++ PyStr.title desc ++ ", " ++ num_str temp
          ++ "°F (feels like " ++ num_str feels_like ++ "°F), humidity "
          ++ num_str humidity ++ "%"
        else
          let temp_comment :=
            if Qgtb (num_val temp) 80 then " (toasty!)"
            else if Qltb (num_val temp) 32 then " (brrr!)"
            else if Qltb (num_val temp) 50 then " (cozy sweater weather!)"
            else "" in
          "Weather report for " ++ city ++ "! It's " ++ PyStr.lower desc ++ " with "
          ++ num_str temp ++ "°F" ++ temp_comment ++ " (feels like "
          ++ num_str feels_like ++ "°F). Humidity is hanging out at "
          ++ num_str humidity
          ++ "%. Perfect for whatever adventure you're planning!"
    | WeatherRefused error_msg =>
        if Qgtb creativity (7 # 10)
        then "Oops! The weather spirits aren't cooperating for " ++ city
             ++ " right now. Error: " ++ error_msg
        else "Sorry, couldn't fetch weather data for " ++ city ++ ". Error: " ++ error_msg
    | WeatherRequestException err =>
        if Qgtb creativity (7 # 10)
        then "The weather service is having a digital hiccup! Error: " ++ err
        else "Error fetching weather data: " ++ err
    | WeatherOtherException err => "Weather service error: " ++ err
    end.

(** [get_weather] *)
Definition get_weather (city : string) : M string :=
  env <- gets environ ;;
  sm <- gets settings_manager ;;
  e <- gets conversation_engine ;;
  ret (weather_text env sm (creativity_level e) city).

(** The text [enhanced_web_search] makes of one hit; [None] when the hit
    has no title. *)
Definition format_hit (h : Hit) : option string :=
  let title := PyStr.strip (hit_title h) in
  let body := PyStr.strip (hit_body h) in
  let url := if PyStr.nonempty (hit_href h) then hit_href h else hit_url h in
  let date := hit_date h in
  if PyStr.nonempty title then
    let t1 := "**" ++ title ++ "**" in
    let t2 := if PyStr.nonempty date then t1 ++ " (" ++ date ++ ")" else t1 in
    let t3 :=
      if PyStr.nonempty body then
        let body' :=
          if (150 <? String.length body)%nat
          then PyStr.rsplit1_head " " (PyStr.take 150 body) ++ "..."
          else body in
        t2 ++ PyStr.newline ++ body'
      else t2 in
    Some (if PyStr.nonempty url then t3 ++ PyStr.newline ++ "[View source](" ++ url ++ ")" else t3)
  else None.

Fixpoint filter_map {A B : Type} (f : A -> option B) (l : list A) : list B :=
  match l with
  | [] => []
  | x :: t => match f x with Some y => y :: filter_map f t | None => filter_map f t end
  end.

Definition search_header (query : string) (search_results : list string) : string :=
  "Search results for '" ++ query ++ "':" ++ PyStr.newline ++ PyStr.newline
  ++ PyStr.join (PyStr.newline ++ PyStr.newline) search_results.

(** The four search methods, in order: the hits of each or the text of
    the exception its call raised. *)
Definition search_methods (query : string) (num_results : Z) : list (list Hit + string) :=
  [w_ddgs w (DdgsText query None num_results);
   (if PyStr.any_in ["news"; "nfl"; "sports"; "score"; "game"; "today"; "latest"; "breaking"]
         (PyStr.lower query)
    then w_ddgs w (DdgsNews query num_results)
    else inl []);
   w_ddgs w (DdgsText query (Some "us-en") num_results);
   w_ddgs w (DdgsText (double_quote ++ query ++ double_quote) None num_results)].

(** The loop over the methods: the first one with a titled hit answers. *)
Fixpoint first_search_results (methods : list (list Hit + string)) : option (list string) :=
  match methods with
  | [] => None
  | inl hits :: rest =>
      match filter_map format_hit hits with
      | [] => first_search_results rest
      | found => Some found
      end
  | inr _ :: rest => first_search_results rest
  end.

(** [enhanced_web_search] *)
Definition enhanced_web_search (query : string) (num_results : Z) : string :=
  let query := PyStr.strip query in
  if negb (PyStr.nonempty query) || (String.length query <? 2)%nat
  then "Please provide a more specific search query."
  else
    match first_search_results (search_methods query num_results) with
    | Some found => search_header query found
    | None =>
        let answers :=
          match w_ddgs_chat w query with
          | inl texts =>
              map (fun t => "**Quick Answer:**" ++ PyStr.newline ++ t)
                  (filter (fun t => PyStr.nonempty t && (10 <? String.length t)%nat)
                          (map PyStr.strip (firstn 2 texts)))
          | inr _ => []
          end in
        match answers with
        | [] => "Sorry, I'm having trouble accessing search results for '" ++ query
                ++ "' right now."
        | _ => search_header query answers
        end
    end.

(** Starting a process, opening the browser: logged, and an [OSError]
    when the world refuses. *)
Definition launch (l : Launch) : M unit :=
  log (EvLaunch l) ;;;
  match w_launch w l with
  | Some err => raise (OSError err)
  | None => ret tt
  end.

Definition by_creativity (creativity : Q) (high mid low : string) : string :=
  if Qgtb creativity (7 # 10) then high
  else if Qgtb creativity (3 # 10) then mid
  else low.

Definition send_keys (code : string) : Launch :=
  Run ["powershell"; "-c";
       "(New-Object -comObject WScript.Shell).SendKeys([char]" ++ code ++ ")"].

(** A command that starts a process and then reports it. *)
Definition launched (l : Launch) (report : string) : M (option string) :=
  launch l ;;;
  ret (Some report).

(** [execute_system_command]: [None] is Python's [None]. *)
Definition execute_system_command (command : string) : M (option string) :=
  adv <- gets advanced_settings ;;
  e <- gets conversation_engine ;;
  let creativity := creativity_level e in
  let windows := String.eqb (w_platform w) "Windows" in
  if negb (enable_system_commands adv) then
    ret (Some (if Qgtb creativity (7 # 10)
               then "System commands are taking a break right now! You can enable them in the advanced settings."
               else "System commands are currently disabled. Please enable them in the advanced settings."))
  else
    let command := PyStr.lower command in
    if PyStr.str_in "open" command then
      if PyStr.str_in "notepad" command then
        if windows then
          launched (Popen ["notepad.exe"])
            (by_creativity creativity
               "Notepad is now ready for your brilliant thoughts! Time to write something amazing!"
               "Opening Notepad for you..."
               "Opening Notepad...")
        else
          launched (Popen ["gedit"])
            (if Qleb creativity (3 # 10) then "Opening text editor..."
             else "Text editor at your service!")
      else if PyStr.str_in "calculator" command then
        if windows then
          launched (Popen ["calc.exe"])
            (by_creativity creativity
               "Calculator is ready to crunch some numbers! Let's solve the mysteries of mathematics!"
               "Opening Calculator for you..."
               "Opening Calculator...")
        else
          launched (Popen ["gnome-calculator"])
            (if Qleb creativity (3 # 10) then "Opening Calculator..."
             else "Calculator ready for action!")
      else if PyStr.str_in "browser" command || PyStr.str_in "chrome" command then
        launched (WebOpen "https://www.google.com")
          (by_creativity creativity
             "Your digital gateway to the internet is now open! Happy browsing, explorer!"
             "Opening your web browser..."
             "Opening web browser...")
      else if PyStr.str_in "file manager" command || PyStr.str_in "explorer" command then
        let response := if windows then "Opening File Explorer..." else "Opening File Manager..." in
        launched (if windows then Popen ["explorer.exe"] else Popen ["nautilus"])
          (by_creativity creativity
             ("📁 " ++ PyStr.replace "..." "" response ++ " Time to organize those digital treasures!")
             ("📁 " ++ response)
             response)
      else ret None
    else if PyStr.str_in "volume" command && windows then
      if PyStr.str_in "up" command then
        launched (send_keys "175")
          (by_creativity creativity
             "🔊 Volume boosted! Hope your ears are ready for this!"
             "🔊 Volume increased."
             "Volume increased.")
      else if PyStr.str_in "down" command then
        launched (send_keys "174")
          (by_creativity creativity
             "🔉 Toned it down a notch! Your neighbors will thank you."
             "🔉 Volume decreased."
             "Volume decreased.")
      else if PyStr.str_in "mute" command then
        launched (send_keys "173")
          (by_creativity creativity
             "🔇 Silence is golden! Volume has been muted/unmuted."
             "🔇 Volume muted/unmuted."
             "Volume muted/unmuted.")
      else ret None
    else if PyStr.str_in "screenshot" command then
      catch
        (if windows then
           launched
             (Run ["powershell"; "-c";
                   "Add-Type -AssemblyName System.Windows.Forms; [System.Windows.Forms.SendKeys]::SendWait('%{PRTSC}')"])
             (by_creativity creativity
                "📸 Say cheese! Screenshot captured and saved to your clipboard. Picture perfect!"
                "📸 Screenshot taken and saved to clipboard."
                "Screenshot taken and saved to clipboard.")
         else
           launched (Run ["gnome-screenshot"; "-f"; "screenshot.png"])
             (if Qgtb creativity (7 # 10)
              then "📸 Snapshot saved as screenshot.png! Another moment preserved in digital amber!"
              else "Screenshot saved as screenshot.png"))
        (fun _ =>
           ret (Some (if Qgtb creativity (7 # 10)
                      then "📸 Oops! My camera skills need some work. Screenshot failed to capture."
                      else "Unable to take screenshot.")))
    else ret None.

(** *** Intent dispatch *)

Definition is_newline (c : ascii) : bool := Ascii.eqb c (ascii_of_nat 10).

(** [.*(?:alts)] anchored at the start of [s]; [.] is any character but
    the newline. *)
Fixpoint gap_then (alts : list string) (s : string) : bool :=
  existsb (fun a => String.prefix a s) alts ||
  match s with
  | EmptyString => false
  | String c t => negb (is_newline c) && gap_then alts t
  end.

(** [re.search(r"(?:pres).+(?:alts)", s)] *)
Fixpoint re_search (pres alts : list string) (s : string) : bool :=
  existsb
    (fun p =>
       String.prefix p s &&
       match PyStr.drop (String.length p) s with
       | EmptyString => false
       | String c t => negb (is_newline c) && gap_then alts t
       end) pres ||
  match s with
  | EmptyString => false
  | String _ t => re_search pres alts t
  end.

Definition model_questions : list string :=
  ["what model are you"; "which model are you"; "what ai model"; "which ai model";
   "what model do you use"; "which model do you use"; "what are you using";
   "tell me your model"; "identify your model"; "current model"].

Definition identity_questions : list string :=
  ["who are you"; "what are you"; "tell me about yourself"; "introduce yourself";
   "who is luna"; "what is luna"].

Definition search_keywords : list string :=
  ["search"; "look up"; "find"; "google"; "what is"; "who is"; "when is"; "where is";
   "tell me about"; "information about"; "search for"; "find out"; "lookup";
   "nfl"; "football"; "sports"; "baseball"; "basketball"; "soccer"; "hockey";
   "news"; "latest"; "recent"; "current"; "today"; "update"; "score"; "game";
   "how to"; "tutorial"; "guide"; "learn"; "explain"; "define"; "meaning of"].

Definition question_patterns : list (list string * list string) :=
  [(["what"], ["is"; "are"; "was"; "were"; "will be"; "does"; "do"; "did"]);
   (["who"], ["is"; "are"; "was"; "were"; "will be"]);
   (["when"], ["is"; "are"; "was"; "were"; "will be"; "did"; "does"; "do"]);
   (["where"], ["is"; "are"; "was"; "were"; "will be"]);
   (["how"], ["is"; "are"; "was"; "were"; "will be"; "do"; "does"; "did"; "to"]);
   (["why"], ["is"; "are"; "was"; "were"; "will be"; "do"; "does"; "did"]);
   (["nfl"; "football"; "sports"; "baseball"; "basketball"],
    ["score"; "game"; "news"; "update"; "today"; "latest"])].

Definition sports_terms : list string :=
  ["nfl"; "football"; "baseball"; "basketball"; "soccer"; "hockey"; "sports"].

Definition mem_str (x : string) (l : list string) : bool := existsb (String.eqb x) l.

(** The text after the first [keyword], stripped, when it is not blank
    ([parts = message_lower.split(keyword, 1)]). *)
Definition text_after (keyword message_lower : string) : option string :=
  match PyStr.split1 keyword message_lower with
  | [_; rest] => if PyStr.nonempty (PyStr.strip rest) then Some (PyStr.strip rest) else None
  | _ => None
  end.

(** The search detection of [call_ai_api] with search enabled: whether
    the message is a search query, and the query text before the final
    [lstrip]. *)
Definition detect_search (message_lower : string) : bool * string :=
  let '(is1, q1) :=
    match find (fun k => PyStr.str_in k message_lower) search_keywords with
    | Some keyword =>
        if mem_str keyword ["search for"; "search"; "look up"; "find"; "google"]
           || mem_str keyword ["what is"; "who is"; "when is"; "where is";
                               "tell me about"; "information about"]
        then (true, match text_after keyword message_lower with
                    | Some q => q
                    | None => message_lower
                    end)
        else (true, message_lower)
    | None => (false, message_lower)
    end in
  let is2 :=
    is1 || existsb (fun p => re_search (fst p) (snd p) message_lower) question_patterns in
  if PyStr.any_in sports_terms message_lower then
    (true,
     if PyStr.str_in "search the nfl" message_lower then "NFL news today latest scores"
     else if PyStr.str_in "nfl" message_lower
             && negb (PyStr.any_in ["score"; "news"; "game"; "today"] message_lower)
     then "NFL " ++ PyStr.strip (PyStr.replace "nfl" "" message_lower) ++ " latest news"
     else q1)
  else (is2, q1).

Definition using_suffix (text model_name : string) : string :=
  text ++ PyStr.newline ++ PyStr.newline ++ "[Using: " ++ model_name ++ "]".

(** The web-search stage: [Some] is the response returned from it. *)
Definition search_stage (search_enabled : bool) (search_limit : Z)
    (message_lower model_name : string) : M (option string) :=
  if search_enabled then
    let '(is_search_query, search_query) := detect_search message_lower in
    if is_search_query then
      let search_query := PyStr.strip (PyStr.lstrip_chars "about for the" search_query) in
      if PyStr.nonempty search_query && (2 <? String.length search_query)%nat
      then ret (Some (using_suffix (enhanced_web_search search_query search_limit) model_name))
      else ret None
    else ret None
  else if PyStr.any_in ["search"; "google"; "find"; "look up"] message_lower then
    e <- gets conversation_engine ;;
    if Qgtb (creativity_level e) (7 # 10)
    then ret (Some (using_suffix "Web search is currently taking a digital vacation! You can re-enable it in the advanced settings if you'd like to explore the internet together." model_name))
    else ret (Some (using_suffix "Web search is currently disabled. You can enable it in the advanced settings." model_name))
  else ret None.

(** The system-command stage. *)
Definition system_stage (system_enabled : bool) (message_lower model_name : string)
  : M (option string) :=
  if system_enabled then
    system_result <- execute_system_command message_lower ;;
    match system_result with
    | Some r => if PyStr.nonempty r then ret (Some (using_suffix r model_name)) else ret None
    | None => ret None
    end
  else if PyStr.any_in ["open "; "volume"; "screenshot"; "notepad"; "calculator";
                        "browser"; "chrome"; "explorer"; "file manager"] message_lower then
    e <- gets conversation_engine ;;
    ret (Some (using_suffix (if Qgtb (creativity_level e) (7 # 10)
                      then "System commands are currently disabled for safety. You can re-enable them in the advanced settings if you want me to control apps or volume."
                      else "System commands are disabled. You can enable them in the advanced settings.")
                     model_name))
  else ret None.

(** The city of a weather request: the text after the first [" in "],
    blanks turned into commas, or the default. *)
Definition weather_city (message_lower : string) : string :=
  if PyStr.str_in " in " message_lower then
    let city_part := PyStr.strip (nth 1 (PyStr.split " in " message_lower) "") in
    if PyStr.nonempty city_part then PyStr.replace " " "," city_part
    else "Beavercreek,Ohio"
  else "Beavercreek,Ohio".

(** The part of [call_ai_api] before the model is called: identity
    questions, weather, search, system commands, in this order.  [Some]
    is the response the function returns from there, [None] means the
    message goes on to the model. *)
Definition dispatch (search_enabled system_enabled : bool) (search_limit : Z)
    (current_model message_lower : string) : M (option string) :=
  let info := lookup_model_info current_model in
  let model_name := info_text info "name" "" in
  if PyStr.any_in model_questions message_lower
     || PyStr.any_in identity_questions message_lower then
    e <- gets conversation_engine ;;
    let model_type := info_text info "type" "unknown" in
    let description := info_text info "description" "No description available" in
    let response :=
      if Qgtb (creativity_level e) (7 # 10)
      then "I'm currently running on " ++ model_name ++ "! It's a " ++ model_type
           ++ " model. " ++ description ++ " I'm ready to help you with whatever you need!"
      else "I am currently using " ++ model_name ++ ", which is a " ++ model_type
           ++ " model. " ++ description in
    ret (Some (using_suffix response model_name))
  else if PyStr.str_in "weather" message_lower then
    weather_response <- get_weather (weather_city message_lower) ;;
    ret (Some (using_suffix weather_response model_name))
  else
    r <- search_stage search_enabled search_limit message_lower model_name ;;
    match r with
    | Some text => ret (Some text)
    | None => system_stage system_enabled message_lower model_name
    end.

(** *** The fallback router *)

(** [str(v)] where it can be one of the words [_to_bool] looks for: the
    rendering of a float or of a container never is. *)
Definition word_of (v : Json) : option string :=
  match v with
  | JStr t => Some t
  | JInt z => Some (PyStr.str_of_Z z)
  | _ => None
  end.

(** [_to_bool], the local helper of [call_ai_api]. *)
Definition _to_bool (v : Json) (default : bool) : bool :=
  match v with
  | JNull => default
  | JBool b => b
  | _ =>
      match word_of v with
      | Some t =>
          let t := PyStr.lower (PyStr.strip t) in
          if mem_str t ["1"; "true"; "yes"; "on"] then true
          else if mem_str t ["0"; "false"; "no"; "off"] then false
          else PyVal.truthy v
      | None => PyVal.truthy v
      end
  end.

(** [attempts]: 2 unless the settings give a positive [retry_attempts]. *)
Definition retry_attempts_of (sm : option SettingsManager) : Z :=
  match sm with
  | None => 2
  | Some m =>
      match PyVal.py_int (Settings.get m "retry_attempts" (JInt 2)) with
      | Some cfg_attempts => if (0 <? cfg_attempts)%Z then cfg_attempts else 2
      | None => 2
      end
  end%Z.

(** The recovery settings [(auto_fb, cap, ignore_pings, priority_raw)]:
    when [int(...)] raises, the assignments after it keep their
    defaults. *)
Definition recovery_settings (sm : option SettingsManager) : bool * Z * bool * Json :=
  match sm with
  | None => (true, 3%Z, false, JStr "")
  | Some m =>
      let auto_fb := _to_bool (Settings.get m "auto_fallback" (JBool true)) true in
      match PyVal.py_int (Settings.get m "alt_attempt_cap" (JInt 3)) with
      | None => (auto_fb, 3%Z, false, JStr "")
      | Some cap =>
          let ignore_pings :=
            _to_bool (Settings.get m "ignore_status_pings" (JBool false)) false in
          let raw := Settings.get m "alternate_priority" (JStr "") in
          (auto_fb, cap, ignore_pings, if PyVal.truthy raw then raw else JStr "")
      end
  end.

(** [[p.strip() for p in text.split(',') if p.strip()]] *)
Definition comma_list (text : string) : list string :=
  filter PyStr.nonempty (map PyStr.strip (PyStr.split "," text)).

(** The priority list; [None] when [priority_raw] is no [str] and
    [.split] raises. *)
Definition priority_of (priority_raw : Json) : option (list string) :=
  match priority_raw with
  | JStr t => Some (comma_list t)
  | _ => None
  end.

(** [_get_env_alt_models] *)
Definition _get_env_alt_models (env : list (string * string)) : list string :=
  match PyDict.get "HF_ALT_MODELS" env with
  | Some raw => if PyStr.nonempty raw then comma_list raw else []
  | None => []
  end.

(** [_get_ui_available_models] *)
Definition _get_ui_available_models (sm : option SettingsManager) : list (string * Json) :=
  match sm with
  | Some m =>
      match Settings.get m "available_models" JNull with
      | JDict (entry :: rest) => entry :: rest
      | _ => get_available_models
      end
  | None => get_available_models
  end.

Definition is_text (v : option Json) (t : string) : bool :=
  match v with
  | Some (JStr u) => String.eqb u t
  | _ => false
  end.

(** [mid != current_model and info.get('type') == 'openrouter' and
    info.get('provider') == 'openrouter']; [None] when [info] is no dict
    and [.get] raises. *)
Definition is_alternate (current_model mid : string) (info : Json) : option bool :=
  if String.eqb mid current_model then Some false
  else
    match info with
    | JDict fields =>
        Some (is_text (PyDict.get "type" fields) "openrouter"
              && is_text (PyDict.get "provider" fields) "openrouter")
    | _ => None
    end.

(** The first loop building [alt_models]: the entries kept, and whether
    the loop ran to its end. *)
Fixpoint collect_alternates (current_model : string) (ui_models : list (string * Json))
  : list (string * Json) * bool :=
  match ui_models with
  | [] => ([], true)
  | (mid, info) :: rest =>
      match is_alternate current_model mid info with
      | None => ([], false)
      | Some keep =>
          let '(more, finished) := collect_alternates current_model rest in
          (if keep then (mid, info) :: more else more, finished)
      end
  end.

Fixpoint insert_by {A : Type} (key : A -> nat) (x : A) (l : list A) : list A :=
  match l with
  | [] => [x]
  | y :: t => if (key x <=? key y)%nat then x :: l else y :: insert_by key x t
  end.

(** [l.sort(key=key)]: stable. *)
Fixpoint sort_by {A : Type} (key : A -> nat) (l : list A) : list A :=
  match l with
  | [] => []
  | x :: t => insert_by key x (sort_by key t)
  end.

(** [priority.index(mid)], [None] when absent. *)
Fixpoint first_index (mid : string) (priority : list string) : option nat :=
  match priority with
  | [] => None
  | p :: t => if String.eqb mid p then Some O else option_map S (first_index mid t)
  end.

(** [pr_index.get(mid)] for [pr_index = {mid: i for i, mid in
    enumerate(priority)}]: the last position wins. *)
Fixpoint last_index (mid : string) (priority : list string) : option nat :=
  match priority with
  | [] => None
  | p :: t =>
      match last_index mid t with
      | Some i => Some (S i)
      | None => if String.eqb mid p then Some O else None
      end
  end.

Definition rank (index : string -> list string -> option nat) (priority : list string)
    (mid : string) : nat :=
  match index mid priority with
  | Some i => i
  | None => List.length priority
  end.

(** [alt_models] as the first [try] block leaves it. *)
Definition build_alt_models (sm : option SettingsManager) (current_model : string)
    (priority_raw : Json) : list (string * Json) :=
  let '(alts, finished) := collect_alternates current_model (_get_ui_available_models sm) in
  if finished then
    match priority_of priority_raw with
    | Some (p :: ps) => sort_by (fun t => rank last_index (p :: ps) (fst t)) alts
    | _ => alts
    end
  else alts.

(** [update_advanced_settings({'current_model': alt_id})] *)
Definition set_current_model_setting (alt_id : string) : M unit :=
  modify (fun s =>
    let a := advanced_settings s in
    with_advanced s
      (mkAdvancedSettings (enable_search a) (enable_system_commands a)
         (search_results_limit a) (conversation_memory a) (response_delay a)
         alt_id (remember_local_profile a))).

(** The auto-switch after an alternate answered. *)
Definition switch_to (alt_id : string) : M unit :=
  sm <- gets settings_manager ;;
  match sm with
  | Some m =>
      modify (fun s => with_manager s (Some (Settings.set m "current_ai_model" (JStr alt_id))))
  | None => ret tt
  end ;;;
  set_current_model_setting alt_id.

Definition auto_switched (alt_resp alt_name : string) : string :=
  alt_resp ++ PyStr.newline ++ PyStr.newline ++ "[Using: " ++ alt_name ++ " (Auto-switched)]".

(** [info.get('name', alt_id)] rendered in the f-string. *)
Definition alt_name_of (info : option Json) (alt_id : string) : string :=
  match info with
  | Some (JDict fields) =>
      match PyDict.get "name" fields with
      | Some v => py_str v
      | None => alt_id
      end
  | _ => alt_id
  end.

(** One turn of the first walk over [alt_models]: [inl] is the response
    returned, [inr counted] a failure, counted against the cap unless it
    is a 404. *)
Definition alternate_attempt (original_message alt_id : string) (alt_info : Json)
  : M (string + bool) :=
  catch
    (alt_resp <- hf_api_query_model alt_id original_message ;;
     switch_to alt_id ;;;
     ret (inl (auto_switched (py_str alt_resp) (alt_name_of (Some alt_info) alt_id))))
    (fun alt_e =>
       match alt_e with
       | HFRequestError status_code _ => ret (inr (negb (status_code =? 404)%Z))
       | _ => ret (inr true)
       end).

(** The first walk: [inl] is the response returned, [inr] the value of
    [tried] when the loop ends. *)
Fixpoint alternates_walk (cap : Z) (original_message : string)
    (alt_models : list (string * Json)) (tried : Z) : M (string + Z) :=
  match alt_models with
  | [] => ret (inr tried)
  | (alt_id, alt_info) :: rest =>
      if (cap <=? tried)%Z then ret (inr tried)
      else
        r <- alternate_attempt original_message alt_id alt_info ;;
        match r with
        | inl text => ret (inl text)
        | inr counted =>
            alternates_walk cap original_message rest
              (if counted then tried + 1 else tried)%Z
        end
  end.

Fixpoint all_some {A : Type} (l : list (option A)) : option (list A) :=
  match l with
  | [] => Some []
  | None :: _ => None
  | Some x :: t => option_map (cons x) (all_some t)
  end.

(** [direct_list] before its sort; an entry that is no dict raises
    [AttributeError]. *)
Definition build_direct_list (env : list (string * string)) (ui_models : list (string * Json))
    (current_model : string) : option (list string) :=
  let from_env :=
    all_some
      (map (fun alt =>
              if String.eqb alt current_model then Some (alt, false)
              else
                match PyDict.get alt ui_models with
                | None => Some (alt, false)
                | Some info => option_map (pair alt) (is_alternate current_model alt info)
                end)
           (_get_env_alt_models env)) in
  match from_env with
  | None => None
  | Some marked =>
      match map fst (filter snd marked) with
      | [] =>
          option_map (fun l => map fst (filter snd l))
            (all_some
               (map (fun entry =>
                       option_map (pair (fst entry))
                         (is_alternate current_model (fst entry) (snd entry)))
                    ui_models))
      | direct => Some direct
      end
  end.

(** One turn of the second walk.  Its handler clause names
    [OpenRouterRequestError], which the module does not define: when the
    call raises, matching the clause raises [NameError] and no handler
    body runs. *)
Definition direct_attempt (original_message : string) (ui_models : list (string * Json))
    (alt_id : string) : M string :=
  catch
    (alt_resp <- query_model alt_id original_message ;;
     switch_to alt_id ;;;
     ret (auto_switched (py_str alt_resp) (alt_name_of (PyDict.get alt_id ui_models) alt_id)))
    (fun _ => raise (NameError "OpenRouterRequestError")).

(** The second walk: [Some] is the response returned. *)
Fixpoint direct_walk (cap : Z) (current_model original_message : string)
    (ui_models : list (string * Json)) (direct_list : list string) (tried : Z)
  : M (option string) :=
  match direct_list with
  | [] => ret None
  | alt_id :: rest =>
      if String.eqb alt_id current_model || (cap <=? tried)%Z
      then direct_walk cap current_model original_message ui_models rest tried
      else
        text <- direct_attempt original_message ui_models alt_id ;;
        ret (Some text)
  end.

(** The alternates block between the primary attempts and the local
    fallback: [Some] is the response returned from it. *)
Definition try_alternates (current_model original_message : string)
    (last_err : option string) : M (option string) :=
  catch
    (let lower := PyStr.lower (match last_err with Some t => t | None => "" end) in
     sm <- gets settings_manager ;;
     let '(auto_fb, cap, ignore_pings, priority_raw) := recovery_settings sm in
     let proceed_to_alts :=
       if ignore_pings then true
       else PyStr.str_in "paused" lower || PyStr.str_in "loading" lower in
     if auto_fb && (0 <? cap)%Z && proceed_to_alts then
       r <- alternates_walk cap original_message
              (build_alt_models sm current_model priority_raw) 0%Z ;;
       match r with
       | inl text => ret (Some text)
       | inr tried =>
           if (tried <? cap)%Z then
             env <- gets environ ;;
             sm <- gets settings_manager ;;
             let ui_models := _get_ui_available_models sm in
             match build_direct_list env ui_models current_model with
             | None => raise (AttributeError "object has no attribute 'get'")
             | Some direct_list =>
                 match priority_of priority_raw with
                 | None => raise (AttributeError "object has no attribute 'split'")
                 | Some priority =>
                     direct_walk cap current_model original_message ui_models
                       (match priority with
                        | [] => direct_list
                        | _ => sort_by (rank first_index priority) direct_list
                        end) tried
                 end
             end
           else ret None
       end
     else ret None)
    (fun _ => ret None).

(** [settings_manager.set_model_error(...)] inside its [try]: with no
    manager the attribute access raises and is swallowed, and so is the
    [KeyError] of settings without ['model_errors'], raised once the
    cache in memory is written. *)
Definition record_error (current_model last_err : string) : M unit :=
  sm <- gets settings_manager ;;
  match sm with
  | None => ret tt
  | Some m =>
      t1 <- time_time ;;
      t2 <- time_time ;;
      modify (fun s =>
        with_manager s
          (Some (snd (Settings.set_model_error m current_model last_err t1 t2))))
  end.

(** [if settings_manager is not None:
    settings_manager.clear_model_error(current_model)]: the [KeyError]
    of the method is not caught here. *)
Definition clear_error (current_model : string) : M unit :=
  sm <- gets settings_manager ;;
  match sm with
  | Some m =>
      modify (fun s =>
        with_manager s (Some (snd (Settings.clear_model_error m current_model)))) ;;;
      match fst (Settings.clear_model_error m current_model) with
      | inl e => raise e
      | inr _ => ret tt
      end
  | None => ret tt
  end.

Definition is_auth_error (lower : string) : bool :=
  PyStr.str_in "authentication" lower || PyStr.str_in "authorization" lower
  || PyStr.str_in "401" lower || PyStr.str_in "403" lower.

Definition is_transient (lower : string) : bool :=
  PyStr.str_in "paused" lower || PyStr.str_in "loading" lower
  || PyStr.str_in "rate limit" lower || PyStr.str_in "429" lower.

(** How an iteration of the retry loop that did not return leaves it. *)
Inductive Control : Type :=
| Continue
| Break.

(** The [except Exception as e] clause of the retry loop: the error is
    recorded, the token reloaded once for an authentication error, and
    the loop goes on after a reload that applied a token or a transient
    error.  The result is never a response. *)
Definition attempt_failed (current_model : string) (did_reload_token : bool) (e : PyExc)
  : M (string + Control * bool * string) :=
  let last_err := exc_str e in
  record_error current_model last_err ;;;
  let lower := PyStr.lower last_err in
  reloaded <-
    (if is_auth_error lower && negb did_reload_token
     then reload_openrouter_token_from_env
     else ret false) ;;
  if reloaded then ret (inr (Continue, true, last_err))
  else if negb (is_transient lower) then ret (inr (Break, did_reload_token, last_err))
  else ret (inr (Continue, did_reload_token, last_err)).

(** One iteration of [for attempt in range(attempts)]: [inl] is the
    response returned; otherwise how the loop goes on, the value of
    [did_reload_token] and the new [last_err]. *)
Definition primary_attempt (current_model original_message model_name : string)
    (attempt : nat) (did_reload_token : bool) : M (string + Control * bool * string) :=
  catch
    ((if (0 <? attempt)%nat then sleep (inject_Z (2 * Z.of_nat attempt)) else ret tt) ;;;
     response <- query_model current_model original_message ;;
     if negb (PyStr.nonempty (PyStr.strip (py_str response)))
     then raise (PyException "Empty response from OpenRouter model")
     else
       clear_error current_model ;;;
       ret (inl (using_suffix (py_str response) model_name)))
    (attempt_failed current_model did_reload_token).

(** The retry loop over the primary model, from the attempts still to
    run: [inl] is the response returned, [inr] the value of [last_err]
    when the loop is left. *)
Fixpoint primary_attempts (current_model original_message model_name : string)
    (attempts : list nat) (did_reload_token : bool) (last_err : option string)
  : M (string + option string) :=
  match attempts with
  | [] => ret (inr last_err)
  | attempt :: rest =>
      r <- primary_attempt current_model original_message model_name attempt
             did_reload_token ;;
      match r with
      | inl text => ret (inl text)
      | inr (Continue, did_reload_token, err) =>
          primary_attempts current_model original_message model_name rest
            did_reload_token (Some err)
      | inr (Break, _, err) => ret (inr (Some err))
      end
  end.

(** [current_model_info.get('type') == 'openrouter'] *)
Definition is_openrouter_model (info : Json) : bool :=
  is_text (info_get info "type") "openrouter".

(** The part of [call_ai_api] from the lookup of the model descriptor to
    the end: the primary attempts, the alternates, the local fallback,
    or the local engine itself, all under the function's last
    [except Exception]. *)
Definition route (current_model original_message : string) : M string :=
  let current_model_info := lookup_model_info current_model in
  let model_name := info_text current_model_info "name" "" in
  catch
    (if is_openrouter_model current_model_info then
       sm <- gets settings_manager ;;
       let attempts := retry_attempts_of sm in
       r <- primary_attempts current_model original_message model_name
              (seq 0 (Z.to_nat attempts)) false None ;;
       match r with
       | inl text => ret text
       | inr last_err =>
           alt <- try_alternates current_model original_message last_err ;;
           match alt with
           | Some text => ret text
           | None =>
               let fallback_msg :=
                 "OpenRouter model error: " ++
                 match last_err with
                 | Some t => if PyStr.nonempty t then nth 0 (PyStr.split PyStr.newline t) ""
                             else "unknown error"
                 | None => "unknown error"
                 end in
               fallback_response <-
                 generate_response ("[SYSTEM: " ++ fallback_msg ++ "] " ++ original_message) ;;
               ret (fallback_response ++ PyStr.newline ++ PyStr.newline
                    ++ "[Using: Local Conversation Engine (Fallback)]")
           end
       end
     else
       response <- generate_response original_message ;;
       clear_error current_model ;;;
       ret (using_suffix response model_name))
    (fun _ =>
       ret (using_suffix
              "I'm having trouble connecting to any AI models right now. Please try again later."
              model_name)).

(** The delay [call_ai_api] starts with. *)
Definition response_delay_stage : M unit :=
  adv <- gets advanced_settings ;;
  if Qgtb (response_delay adv) 0 then sleep (response_delay adv) else ret tt.

(** [call_ai_api] *)
Definition call_ai_api (message : string) (enable_search_arg : option bool)
    (enable_system_commands_arg : option bool) (search_results_limit_arg : option Z)
    (model_id : option string) : M string :=
  response_delay_stage ;;;
  adv <- gets advanced_settings ;;
  let search_enabled :=
    match enable_search_arg with Some b => b | None => enable_search adv end in
  let system_enabled :=
    match enable_system_commands_arg with
    | Some b => b
    | None => enable_system_commands adv
    end in
  let search_limit :=
    match search_results_limit_arg with
    | Some n => if (n =? 0)%Z then search_results_limit adv else n
    | None => search_results_limit adv
    end in
  let current_model :=
    match model_id with
    | Some m => if PyStr.nonempty m then m else current_model adv
    | None => current_model adv
    end in
  let original_message := message in
  let message_lower := PyStr.strip (PyStr.lower message) in
  early <- dispatch search_enabled system_enabled search_limit current_model message_lower ;;
  match early with
  | Some text => ret text
  | None => route current_model original_message
  end.

End Program.

(** ** Vocabulary of the statements *)

(** A conversation turn as [add_to_memory] receives it: the user's text,
    the response, the timestamp read. *)
Definition Turn : Type := (string * string * string)%type.

Definition turn_entry (t : Turn) : Json :=
  let '(user_input, response, now) := t in memory_entry user_input response now.

Definition add_turn (e : LocalConversationEngine) (t : Turn) : LocalConversationEngine :=
  let '(user_input, response, now) := t in add_to_memory e user_input response now.

(** The engine after a sequence of turns, oldest first. *)
Definition run_turns (e : LocalConversationEngine) (turns : list Turn) : LocalConversationEngine :=
  fold_left add_turn turns e.

(** The last [n] elements of a list. *)
Definition keep_last {A : Type} (n : nat) (l : list A) : list A :=
  skipn (List.length l - n) l.

(** The key of [response_patterns] whose candidates [generate_response]
    uses for an intent. *)
Definition matched_category (intent : string) : string :=
  if PyDict.mem intent response_patterns then intent else "default_responses".

(** The model ids of the requests in a log, in order. *)
Definition queries_of (t : list Event) : list string :=
  filter_map (fun ev => match ev with EvQuery m => Some m | _ => None end) t.

(** The number of token reloads in a log. *)
Definition reloads_of (t : list Event) : nat :=
  List.length (filter (fun ev => match ev with EvReloadToken => true | _ => false end) t).

(** [text] ends with a ["[Using: ...]"] line after a blank line. *)
Definition has_using_suffix (text : string) : Prop :=
  exists body label,
    text = body ++ PyStr.newline ++ PyStr.newline ++ "[Using: " ++ label ++ "]".

(** A reply that [query_model] turns into the rate-limit error: status
    429 whose error text announces neither a pause nor a loading. *)
Definition rate_limited (o : HttpOutcome) : Prop :=
  exists body,
    o = HttpReply 429 body /\
    PyStr.str_in "paused" (PyStr.lower (body_err_text body)) = false /\
    PyStr.str_in "loading" (PyStr.lower (body_err_text body)) = false.

(** A reply that [query_model] turns into the authentication error:
    status 401 or 403, again with no pause or loading announced. *)
Definition auth_refused (o : HttpOutcome) : Prop :=
  exists status body,
    o = HttpReply status body /\
    (status = 401 \/ status = 403)%Z /\
    PyStr.str_in "paused" (PyStr.lower (body_err_text body)) = false /\
    PyStr.str_in "loading" (PyStr.lower (body_err_text body)) = false.

(** The state [call_ai_api] is in when it starts its dispatch. *)
Definition after_delay (s : State) : State :=
  snd (response_delay_stage s).

(** The model [call_ai_api] works with. *)
Definition resolve_model (model_id : option string) (s : State) : string :=
  match model_id with
  | Some m => if PyStr.nonempty m then m else current_model (advanced_settings s)
  | None => current_model (advanced_settings s)
  end.

(** The message goes on to the model: none of the identity, weather,
    search and system-command stages answers it. *)
Definition reaches_model (w : World) (message : string)
    (enable_search_arg enable_system_commands_arg : option bool)
    (search_results_limit_arg : option Z) (model_id : option string) (s : State) : Prop :=
  let adv := advanced_settings s in
  fst (dispatch w
         (match enable_search_arg with Some b => b | None => enable_search adv end)
         (match enable_system_commands_arg with
          | Some b => b
          | None => enable_system_commands adv
          end)
         (match search_results_limit_arg with
          | Some n => if (n =? 0)%Z then search_results_limit adv else n
          | None => search_results_limit adv
          end)
         (resolve_model model_id s)
         (PyStr.strip (PyStr.lower message))
         (after_delay s))
  = inr None.

(** The parts of the state the router's decisions read: they are left
    alone by the effects that only log, count or record errors. *)
Definition same_setup (s s' : State) : Prop :=
  conversation_engine s' = conversation_engine s /\
  advanced_settings s' = advanced_settings s /\
  option_map settings (settings_manager s') = option_map settings (settings_manager s) /\
  environ s' = environ s /\
  n_draws s' = n_draws s.

(** What [execute_system_command] can do from a state [s]: return
    [None] without touching anything, return a non-empty text, or raise
    the [OSError] of a process that could not be started. *)
Definition command_outcome (w : World) (r : (PyExc + option string) * State) (s : State)
  : Prop :=
  r = (inr None, s) \/
  (exists text s', r = (inr (Some text), s') /\ PyStr.nonempty text = true) \/
  (exists l e s', w_launch w l = Some e /\ r = (inl (OSError e), s')).

(** The needle starts with a character that is no space. *)
Definition starts_solid (n : string) : bool :=
  match n with
  | EmptyString => false
  | String a _ => negb (PyStr.is_space a)
  end.

(** The needle ends with a character that is no space. *)
Fixpoint ends_solid (n : string) : bool :=
  match n with
  | EmptyString => false
  | String a EmptyString => negb (PyStr.is_space a)
  | String _ n' => ends_solid n'
  end.


(** ** Sample worlds and states *)

Module Sample.

Definition primary_id : string := "deepseek/deepseek-r1-0528:free".

Definition no_body : HttpBody := mkHttpBody (inr "no body") "" "".

Definition reply_429 : HttpOutcome :=
  HttpReply 429 (mkHttpBody (inr "no body") "Too Many Requests" "").

Definition reply_401 : HttpOutcome :=
  HttpReply 401 (mkHttpBody (inr "no body") "No auth credentials found" "").

Definition reply_paused : HttpOutcome :=
  HttpReply 400 (mkHttpBody (inr "no body") "This endpoint is paused" "This endpoint is paused").

Definition reply_404 : HttpOutcome :=
  HttpReply 404 (mkHttpBody (inr "no body") "No endpoints found" "").

Definition reply_story : HttpOutcome :=
  HttpReply 200 (mkHttpBody (inl (JStr "Once upon a time.")) "" "").

(** [str] of the contents that are neither a text, [None], a boolean
    nor an integer; no sample reply carries one that is not empty. *)
Definition sample_str (v : Json) : string :=
  match v with
  | JList [] => "[]"
  | JDict [] => "{}"
  | _ => "..."
  end.

(** A world that only differs from the others by its HTTP replies, its
    [.env] file and whether processes can be started. *)
Definition world_of (post : string -> HttpOutcome) (dotenv : option (list string))
    (launch_error : option string) : World :=
  {| w_http_post := fun _ _ model_id _ => post model_id;
     w_dotenv := dotenv;
     w_time := fun n => inject_Z (Z.of_nat n);
     w_now_iso := fun _ => "2025-01-01T00:00:00";
     w_rng := mkRng (fun _ => 0%Q) (fun _ _ => 0%nat);
     w_platform := "Linux";
     w_launch := fun _ => launch_error;
     w_weather_get := fun _ _ => WeatherRefused "city not found";
     w_ddgs := fun _ => inl [];
     w_ddgs_chat := fun _ => inl [];
     w_profile_writable := true;
     w_str := sample_str |}.

(** Every request is rate limited. *)
Definition world_rate_limited : World := world_of (fun _ => reply_429) None None.

(** Every request is refused for lack of credentials; the [.env] file
    holds a token. *)
Definition world_unauthorized : World :=
  world_of (fun _ => reply_401) (Some ["OPENROUTER_API_KEY=sk-or-v1-fresh"]) None.

(** The primary model is paused, one alternate is gone (404), every
    other model answers. *)
Definition world_alternates : World :=
  world_of
    (fun model_id =>
       if String.eqb model_id primary_id then reply_paused
       else if String.eqb model_id "openai/gpt-oss-20b:free" then reply_404
       else reply_story)
    None None.

(** The weather service answers; everything else as in the rate-limited
    world. *)
Definition world_sunny : World :=
  {| w_http_post := w_http_post world_rate_limited;
     w_dotenv := None;
     w_time := w_time world_rate_limited;
     w_now_iso := w_now_iso world_rate_limited;
     w_rng := w_rng world_rate_limited;
     w_platform := "Linux";
     w_launch := fun _ => None;
     w_weather_get := fun _ _ =>
       WeatherReport (mkNum (72 # 1) "72") (mkNum (70 # 1) "70") (mkNum (40 # 1) "40")
                     "clear sky";
     w_ddgs := fun _ => inl [];
     w_ddgs_chat := fun _ => inl [];
     w_profile_writable := true;
     w_str := sample_str |}.

(** Every request times out, the exception carrying no message. *)
Definition world_silent_timeout : World := world_of (fun _ => HttpTimeout "") None None.

(** No program can be started. *)
Definition world_no_programs : World :=
  world_of (fun _ => reply_story) None (Some "[Errno 2] No such file or directory").

Definition default_advanced : AdvancedSettings :=
  {| enable_search := true;
     enable_system_commands := true;
     search_results_limit := 3;
     conversation_memory := 10;
     response_delay := 1 # 10;
     current_model := "local_engine";
     remember_local_profile := true |}.

Definition manager_of (entries : list (string * Json)) : SettingsManager :=
  {| settings := entries;
     settings_model_errors := Some [];
     model_errors := [];
     model_status := [] |}.

Definition state_of (level : Q) (manager : option SettingsManager) : State :=
  {| conversation_engine := engine_init level;
     advanced_settings := default_advanced;
     settings_manager := manager;
     openrouter_api_key := Some "sk-or-v1-stale";
     environ := [];
     profile_file := None;
     n_posts := 0;
     n_ticks := 0;
     n_draws := 0;
     trace := [] |}.

(** The state of a process that has a weather key in its environment. *)
Definition state_with_weather_key : State :=
  {| conversation_engine := engine_init (2 # 10);
     advanced_settings := default_advanced;
     settings_manager := None;
     openrouter_api_key := None;
     environ := [("OPENWEATHERMAP_API_KEY", "owm-key")];
     profile_file := None;
     n_posts := 0;
     n_ticks := 0;
     n_draws := 0;
     trace := [] |}.

(** Three retries, no automatic fallback. *)
Definition manager_three_retries : SettingsManager :=
  manager_of [("retry_attempts", JInt 3); ("auto_fallback", JBool false)].

Definition remote_entry (name : string) : Json :=
  JDict [("name", JStr name); ("type", JStr "openrouter"); ("provider", JStr "openrouter")].

(** A catalog with three alternates to the primary model, a cap of two
    alternate attempts, one attempt on the primary. *)
Definition manager_cap_two : SettingsManager :=
  manager_of
    [("retry_attempts", JInt 1);
     ("alt_attempt_cap", JInt 2);
     ("available_models",
      JDict [(primary_id, remote_entry "DeepSeek R1");
             ("openai/gpt-oss-20b:free", remote_entry "OpenAI GPT-OSS 20B");
             ("openai/gpt-oss-120b:free", remote_entry "OpenAI GPT-OSS 120B");
             ("extra/model:free", remote_entry "Extra")])].

(** An engine bounded to five entries, and six turns. *)
Definition engine_of_five : LocalConversationEngine :=
  set_memory_size (engine_init (7 # 10)) 5.

Definition six_turns : list Turn :=
  [("One", "r1", "t1"); ("Two", "r2", "t2"); ("Three", "r3", "t3");
   ("Four", "r4", "t4"); ("Five", "r5", "t5"); ("Six", "r6", "t6")].

(** An engine with a profile and two remembered turns. *)
Definition engine_with_profile : LocalConversationEngine :=
  {| creativity_level := 7 # 10;
     context_memory := [memory_entry "Hi" "Hello!" "t1"; memory_entry "Thanks" "Welcome." "t2"];
     max_memory := 10;
     user_profile := [("name", JStr "Ada")] |}.

End Sample.

(** ** The module interface the application calls *)

(** [LocalConversationEngine.load_from_disk] on the module's engine:
    nothing happens unless the profile file exists and holds a JSON
    object. *)
Definition load_from_disk : M unit :=
  modify (fun s =>
    match profile_file s with
    | Some (JDict d) => with_engine s (load_from_dict (conversation_engine s) (JDict d))
    | _ => s
    end).

(** [set_openrouter_api_token]; [None] is Python's [None]. *)
Definition set_openrouter_api_token (token : option string) : M bool :=
  match token with
  | Some t =>
      if PyStr.nonempty t && PyStr.nonempty (PyStr.strip t)
      then modify (fun s => with_api_key s (Some (PyStr.strip t))) ;;; ret true
      else ret false
  | None => ret false
  end.

(** [set_ai_creativity] *)
Definition set_ai_creativity (level : Q) : M unit :=
  modify (fun s => with_engine s (set_creativity (conversation_engine s) level)).

(** The dict handed to [update_advanced_settings]: the keys it carries,
    each with a value of the type the module initialises the key with. *)
Record SettingsUpdate : Type := mkSettingsUpdate {
  upd_enable_search : option bool;
  upd_enable_system_commands : option bool;
  upd_search_results_limit : option Z;
  upd_conversation_memory : option Z;
  upd_response_delay : option Q;
  upd_current_model : option string;
  upd_remember_local_profile : option bool
}.

(** [{'current_model': model_id}] *)
Definition current_model_update (model_id : string) : SettingsUpdate :=
  mkSettingsUpdate None None None None None (Some model_id) None.

(** [{'conversation_memory': size}] *)
Definition conversation_memory_update (size : Z) : SettingsUpdate :=
  mkSettingsUpdate None None None (Some size) None None None.

Definition or_else {A : Type} (o : option A) (default : A) : A :=
  match o with
  | Some a => a
  | None => default
  end.

(** [advanced_settings.update(settings_dict)] *)
Definition dict_update (a : AdvancedSettings) (u : SettingsUpdate) : AdvancedSettings :=
  {| enable_search := or_else (upd_enable_search u) (enable_search a);
     enable_system_commands :=
       or_else (upd_enable_system_commands u) (enable_system_commands a);
     search_results_limit := or_else (upd_search_results_limit u) (search_results_limit a);
     conversation_memory := or_else (upd_conversation_memory u) (conversation_memory a);
     response_delay := or_else (upd_response_delay u) (response_delay a);
     current_model := or_else (upd_current_model u) (current_model a);
     remember_local_profile :=
       or_else (upd_remember_local_profile u) (remember_local_profile a) |}.

(** [update_advanced_settings]: the engine's memory bound follows the
    key ['conversation_memory'] when the dict carries it. *)
Definition update_advanced_settings (settings_dict : SettingsUpdate) : M unit :=
  modify (fun s => with_advanced s (dict_update (advanced_settings s) settings_dict)) ;;;
  match upd_conversation_memory settings_dict with
  | Some size =>
      modify (fun s => with_engine s (set_memory_size (conversation_engine s) size))
  | None => ret tt
  end.

(** [ch.isalnum()] on ASCII *)
Definition is_alnum (c : ascii) : bool := PyStr.is_alpha c || PyStr.is_digit c.

Fixpoint sfilter (p : ascii -> bool) (s : string) : string :=
  match s with
  | EmptyString => EmptyString
  | String c t => if p c then String c (sfilter p t) else sfilter p t
  end.

(** [_norm], the local helper of [set_current_model]. *)
Definition _norm (s : string) : string := sfilter is_alnum (PyStr.lower s).

(** [s.endswith(suffix)] *)
Definition ends_with (s suffix : string) : bool :=
  (String.length suffix <=? String.length s)%nat
  && String.eqb (PyStr.drop (String.length s - String.length suffix) s) suffix.

Definition legacy_map : list (string * string) :=
  [("deepseek/deepseek-chat-v3-0324:free", "deepseek/deepseek-r1-0528:free");
   ("nex-agi/deepseek-v3.1-nex-n1:free", "deepseek/deepseek-r1-0528:free")].

(** Whether [set_current_model] takes the catalog entry [key] for a
    model id normalised to [target]. *)
Definition alias_match (target key : string) (info : Json) : bool :=
  let norm_key := _norm key in
  let norm_name := _norm (info_text info "name" key) in
  String.eqb target norm_key || String.eqb target norm_name
  || ends_with target
       (if PyStr.str_in "/" key then last (PyStr.split "/" norm_key) "" else norm_key).

(** [candidates] of [set_current_model] *)
Definition model_candidates (target : string) (available_models : list (string * Json))
  : list string :=
  map fst (filter (fun entry => alias_match target (fst entry) (snd entry)) available_models).

(** [set_current_model]: one candidate or several, the first is taken. *)
Definition set_current_model (model_id : string) : M bool :=
  let model_id :=
    match PyDict.get model_id legacy_map with
    | Some slug => slug
    | None => model_id
    end in
  if PyDict.mem model_id get_available_models then
    set_current_model_setting model_id ;;; ret true
  else
    match model_candidates (_norm model_id) get_available_models with
    | mapped :: _ => set_current_model_setting mapped ;;; ret true
    | [] => ret false
    end.

(** *** The status probe *)

(** [{'status': ..., 'error': ...}] *)
Record StatusResult : Type := mkStatusResult {
  sr_status : string;
  sr_error : option string
}.

(** What the request of [check_openrouter_model_status] gave: a reply
    with its status code and its body read as JSON ([None] when it is
    not JSON), a timeout, or another exception with its text. *)
Inductive ProbeOutcome : Type :=
| ProbeReply (status_code : Z) (data : option Json)
| ProbeTimeout
| ProbeException (e : string).

(** [(data.get('error') or data.get('message') or '').strip()] under its
    [try]: a value that is no [str] has no [strip] and leaves [''] . *)
Definition probe_err_text (data : option Json) : string :=
  match data with
  | Some (JDict d) =>
      let error := match PyDict.get "error" d with Some v => v | None => JNull end in
      let message := match PyDict.get "message" d with Some v => v | None => JNull end in
      match (if PyVal.truthy error then error
             else if PyVal.truthy message then message
             else JStr "") with
      | JStr t => PyStr.strip t
      | _ => ""
      end
  | _ => ""
  end.

Definition paused_guidance : string :=
  "Endpoint paused. See how pause works: https://openrouter.ai/docs".

Definition not_found_guidance : string :=
  "Check OpenRouter documentation: https://openrouter.ai/docs and model availability: https://openrouter.ai/models".

(** [check_openrouter_model_status]; [probe] is the outcome of the
    request it sends for a model. *)
Definition check_openrouter_model_status (probe : string -> ProbeOutcome) (model_id : string)
  : StatusResult :=
  if String.eqb model_id "local_engine" then mkStatusResult "available" None
  else
    match probe model_id with
    | ProbeTimeout => mkStatusResult "error" (Some "timeout")
    | ProbeException e => mkStatusResult "error" (Some e)
    | ProbeReply status_code data =>
        if (status_code =? 200)%Z then mkStatusResult "available" None
        else
          let err_text := probe_err_text data in
          if PyStr.str_in "paused"
               (if PyStr.nonempty err_text then PyStr.lower err_text else "")
             || (status_code =? 400)%Z
          then
            mkStatusResult "paused"
              (Some ((if PyStr.nonempty err_text then err_text else "endpoint paused")
                     ++ ". " ++ paused_guidance))
          else if PyStr.str_in "loading" (PyStr.lower err_text)
                  || (status_code =? 503)%Z || (status_code =? 524)%Z
          then
            mkStatusResult "loading"
              (Some (if PyStr.nonempty err_text then err_text else "endpoint loading"))
          else if (status_code =? 401)%Z || (status_code =? 403)%Z
          then mkStatusResult "error" (Some "authentication/authorization error")
          else if (status_code =? 429)%Z
          then mkStatusResult "error" (Some "rate limit exceeded")
          else if (status_code =? 404)%Z
          then mkStatusResult "error" (Some not_found_guidance)
          else
            mkStatusResult "error"
              (Some ("OpenRouter request failed: " ++ PyStr.str_of_Z status_code
                     ++ ": " ++ err_text))
    end.

(** [ai_api.check_hf_model_status(model_id)] as [ModelStatusWorker.run]
    writes it: the module [ai_api] has no attribute of this name, so the
    access raises [AttributeError]. *)
Definition check_hf_model_status (model_id : string) : PyExc + StatusResult :=
  inl (AttributeError "module 'ai_api' has no attribute 'check_hf_model_status'").

(** [ModelStatusWorker.run]: the results it emits. *)
Definition status_worker_run (model_ids : list string) : list (string * StatusResult) :=
  fold_left
    (fun results model_id =>
       PyDict.set model_id
         (match check_hf_model_status model_id with
          | inr res => mkStatusResult (sr_status res) (sr_error res)
          | inl e => mkStatusResult "error" (Some (exc_str e))
          end)
         results)
    model_ids [].

(** The status [on_model_status_results] hands to [set_model_status]. *)
Definition normalised_status (data : StatusResult) : string :=
  let status :=
    if mem_str (sr_status data) ["available"; "paused"; "loading"; "error"]
    then sr_status data
    else "error" in
  if String.eqb status "error"
     && match sr_error data with
        | Some error => PyStr.nonempty error && PyStr.str_in "paused" (PyStr.lower error)
        | None => false
        end
  then "paused"
  else status.

(** [on_model_status_results], up to the refresh of the window: the loop
    over the results on the application's manager.  [clock] gives the
    readings of [time.time()], [n] counts those taken; [set_model_status]
    takes two for a status that is not ['available']. *)
Fixpoint on_model_status_results (clock : nat -> Q) (n : nat)
    (results : list (string * StatusResult)) (sm : SettingsManager) : SettingsManager :=
  match results with
  | [] => sm
  | (model_id, data) :: rest =>
      let status := normalised_status data in
      on_model_status_results clock
        (if String.eqb (PyStr.lower status) "available" then n else S (S n))
        rest
        (Settings.set_model_status sm model_id (Some status) (sr_error data)
           (clock n) (clock (S n)))
  end.

(** [SettingsManager.default_settings['available_models']]: the catalog
    of the application, whose entries carry no ['provider']. *)
Definition ui_model_info (name type description : string) (features : list string)
    (status : string) : Json :=
  JDict [("name", JStr name); ("type", JStr type); ("description", JStr description);
         ("features", JList (map JStr features)); ("status", JStr status)].

Definition default_available_models : list (string * Json) :=
  [("local_engine",
    ui_model_info "Conversation Engine" "local"
      "Fast local responses with advanced pattern matching and creativity controls"
      ["instant_response"; "offline"; "privacy"; "creativity_control";
       "weather_integration"; "web_search"; "system_commands"]
      "active");
   ("local/mistral-7b-instruct",
    ui_model_info "Mistral 7B" "local"
      "Local 7B parameter model with excellent performance, runs entirely on your hardware"
      ["conversation"; "reasoning"; "instruction_following"; "code_generation";
       "offline"; "privacy"]
      "available");
   ("local/llama-3.1-8b-instruct",
    ui_model_info "Llama 3.1 8B" "local"
      "Latest local 8B model with strong reasoning capabilities, runs entirely on your hardware"
      ["reasoning"; "conversation"; "instruction_following"; "knowledge_retrieval";
       "offline"; "privacy"]
      "available");
   ("local/qwen-2.5-7b-instruct",
    ui_model_info "Qwen 2.5 7B" "local"
      "Local 7B model with strong multilingual capabilities, runs entirely on your hardware"
      ["multilingual"; "conversation"; "reasoning"; "instruction_following";
       "offline"; "privacy"]
      "available");
   ("local/deepseek-coder-6.7b",
    ui_model_info "DeepSeek Coder 6.7B" "local"
      "Local 6.7B model optimized for coding and programming tasks, runs entirely on your hardware"
      ["code_generation"; "programming_assistance"; "debugging"; "offline"; "privacy"]
      "available");
   ("deepseek/deepseek-r1-0528:free",
    ui_model_info "DeepSeek R1" "openrouter"
      "DeepSeek's latest conversational model optimized for chat interactions and instruction following"
      ["conversation"; "instruction_following"; "reasoning"; "multilingual"]
      "available");
   ("openai/gpt-oss-20b:free",
    ui_model_info "OpenAI GPT-OSS 20B" "openrouter"
      "Open-source 20B parameter language model based on GPT architecture with strong general-purpose capabilities"
      ["conversation"; "reasoning"; "code_generation"; "knowledge_retrieval"; "multilingual"]
      "available");
   ("openai/gpt-oss-120b:free",
    ui_model_info "OpenAI GPT-OSS 120B" "openrouter"
      "Larger GPT-OSS 120B parameter model for more demanding reasoning and generation tasks"
      ["conversation"; "reasoning"; "code_generation"; "knowledge_retrieval"; "multilingual"]
      "available")].

(** [SettingsManager.default_settings]: it has no ['model_errors']. *)
Definition default_settings : list (string * Json) :=
  [("default_city", JStr "");
   ("ai_creativity", JFloat (7 # 10));
   ("chat_font_size", JInt 14);
   ("theme", JStr "dark");
   ("auto_scroll", JBool true);
   ("save_chat_history", JBool true);
   ("response_delay", JFloat (1 # 10));
   ("search_results_limit", JInt 3);
   ("conversation_memory", JInt 10);
   ("current_ai_model", JStr "local_engine");
   ("api_timeout", JInt 30);
   ("auto_fallback", JBool true);
   ("retry_attempts", JInt 2);
   ("alt_attempt_cap", JInt 3);
   ("ignore_status_pings", JBool false);
   ("alternate_priority", JStr "");
   ("status_check_interval", JInt 300);
   ("enable_web_search", JBool true);
   ("enable_system_commands", JBool true);
   ("available_models", JDict default_available_models)].

(** What [SettingsDialog.reset_to_defaults] does to the manager once
    the question is answered with yes:
    [settings_manager.settings = default_settings.copy()].  The new
    settings have no ['model_errors'], and the two caches are left as
    they are. *)
Definition reset_settings (sm : SettingsManager) : SettingsManager :=
  {| settings := default_settings;
     settings_model_errors := None;
     model_errors := model_errors sm;
     model_status := model_status sm |}.

(** [SettingsDialog.reset_to_defaults], answered with yes, on the
    manager that [ai_api] shares with the dialog: the settings are
    reset, the memory and the profile of the engine are emptied and
    [clear_disk_data] removes the profile file, a failure to do so
    being swallowed. *)
Definition reset_to_defaults (w : World) : M unit :=
  modify (fun s =>
    let e := conversation_engine s in
    with_profile_file
      (with_engine
         (with_manager s (option_map reset_settings (settings_manager s)))
         {| creativity_level := creativity_level e;
            context_memory := [];
            max_memory := max_memory e;
            user_profile := [] |})
      (if w_profile_writable w then None else profile_file s)).

(** ** More vocabulary *)

(** The settings of the manager, when there is one, have their
    ['model_errors'] entry, as [SettingsManager.__init__] leaves them. *)
Definition errors_key_present (s : State) : bool :=
  match settings_manager s with
  | Some m => match settings_model_errors m with Some _ => true | None => false end
  | None => true
  end.


(** The processes started in a log, in order. *)
Definition launches_of (t : list Event) : list Launch :=
  filter_map (fun ev => match ev with EvLaunch l => Some l | _ => None end) t.


(** No key occurs twice, as in every [dict]. *)
Definition unique_keys {V : Type} (d : list (string * V)) : Prop := NoDup (map fst d).

(** The engine's memory is within a bound that [set_memory_size] or
    [load_from_dict] can have set. *)
Definition memory_in_bound (e : LocalConversationEngine) : Prop :=
  (5 <= max_memory e <= 50)%Z /\
  (Z.of_nat (List.length (context_memory e)) <= max_memory e)%Z.


(** The client holds a token that is not empty. *)
Definition token_in_use (s : State) : Prop :=
  exists k, openrouter_api_key s = Some k /\ PyStr.nonempty k = true.


(** The status cache of the manager, when there is one, shows a model
    as available. *)
Definition cache_clear (s : State) (mid : string) : Prop :=
  match settings_manager s with
  | Some m => Settings.check_model_availability m mid = true
  | None => True
  end.




(** The events of the attempts [l] of the retry loop when none reloads
    the token: a pause before every attempt but the first, then the
    request. *)
Definition attempts_trace (mid : string) (l : list nat) : list Event :=
  flat_map
    (fun attempt =>
       (if (0 <? attempt)%nat then [EvSleep (inject_Z (2 * Z.of_nat attempt))] else [])
       ++ [EvQuery mid])%list
    l.

(** The status cache of the manager is the same in two states. *)
Definition cache_kept (s s' : State) : Prop :=
  option_map model_errors (settings_manager s') = option_map model_errors (settings_manager s) /\
  option_map model_status (settings_manager s') = option_map model_status (settings_manager s).

(** The settings of the manager are the same in two states. *)
Definition settings_kept (s s' : State) : Prop :=
  option_map settings (settings_manager s') = option_map settings (settings_manager s).

(** No entry of a catalog names OpenRouter as its provider; every entry
    is a dict. *)
Definition no_provider (ui_models : list (string * Json)) : Prop :=
  forall mid info,
    In (mid, info) ui_models ->
    exists fields,
      info = JDict fields /\ is_text (PyDict.get "provider" fields) "openrouter" = false.

(** Whether [call_ai_api] runs system commands. *)
Definition commands_enabled (enable_system_commands_arg : option bool) (s : State) : bool :=
  match enable_system_commands_arg with
  | Some b => b
  | None => enable_system_commands (advanced_settings s)
  end.

(** The text of the [AttributeError] that [ModelStatusWorker.run]
    catches for every model. *)
Definition missing_probe_text : string :=
  "module 'ai_api' has no attribute 'check_hf_model_status'".

(** The two calls the application makes at every switch of model:
    [ai_api.set_current_model(model_id)], then
    [ai_api.update_advanced_settings({'current_model': model_id})]. *)
Definition sync_model (model_id : string) : M unit :=
  set_current_model model_id ;;;
  update_advanced_settings (current_model_update model_id).

(** The cache entry of a model that the status check reported. *)
Definition reported_failed (sm : SettingsManager) (id : string) : Prop :=
  Settings.get_model_status sm id = "error" /\
  option_map er_error (Settings.get_model_error sm id) = Some missing_probe_text.

(** ** More sample worlds and states *)

Module Cases.

Definition story : string := "tell me a story".


(** Every request is answered with a text. *)
Definition world_answers : World :=
  Sample.world_of (fun _ => Sample.reply_story) None None.



(** Four attempts on the primary model, every other setting at its
    default. *)
Definition manager_four_retries : SettingsManager :=
  Sample.manager_of [("retry_attempts", JInt 4)].

(** The manager of the application with its default catalog. *)
Definition manager_app : SettingsManager :=
  Sample.manager_of [("available_models", JDict default_available_models)].

(** A process that has a token in its environment, with blanks around
    it. *)
Definition state_env_token : State :=
  {| conversation_engine := engine_init (7 # 10);
     advanced_settings := Sample.default_advanced;
     settings_manager := None;
     openrouter_api_key := None;
     environ := [("OPENROUTER_API_KEY", " sk-or-v1-env ")];
     profile_file := None;
     n_posts := 0;
     n_ticks := 0;
     n_draws := 0;
     trace := [] |}.

(** A 401 whose text announces a pause. *)
Definition body_paused_401 : HttpBody :=
  mkHttpBody (inr "no body") "This endpoint is paused" "".

(** A profile file with seven remembered texts and a bound of three. *)
Definition oversized_profile : Json :=
  JDict [("context_memory",
          JList [JStr "a"; JStr "b"; JStr "c"; JStr "d"; JStr "e"; JStr "f"; JStr "g"]);
         ("max_memory", JStr "3")].

(** A probe answered by a 400 whose error is a JSON object. *)
Definition probe_bad_request (model_id : string) : ProbeOutcome :=
  ProbeReply 400 (Some (JDict [("error", JDict [("message", JStr "Invalid model")])])).

(** A reply with status 200 whose first choice has [null] for its
    content. *)
Definition body_null : HttpBody := mkHttpBody (inl JNull) "" "".

Definition reply_null : HttpOutcome := HttpReply 200 body_null.

(** Every request is answered by that reply. *)
Definition world_null : World := Sample.world_of (fun _ => reply_null) None None.

(** A reply with status 400 and the body
    [{"error": "upstream 401: rate limit reached"}]. *)
Definition body_upstream : HttpBody :=
  mkHttpBody (inr "no body") "upstream 401: rate limit reached"
    "upstream 401: rate limit reached".

(** Every request is answered by that reply; there is no [.env] file. *)
Definition world_upstream : World :=
  Sample.world_of (fun _ => HttpReply 400 body_upstream) None None.

(** Five attempts on the primary model. *)
Definition manager_five_retries : SettingsManager :=
  Sample.manager_of [("retry_attempts", JInt 5)].

(** The application after its settings were reset to the defaults. *)
Definition state_after_reset : State :=
  snd (reset_to_defaults Sample.world_rate_limited
         (Sample.state_of (2 # 10) (Some manager_app))).

Definition legacy_id : string := "deepseek/deepseek-chat-v3-0324:free".

Definition checked_models : list string :=
  ["deepseek/deepseek-r1-0528:free"; "openai/gpt-oss-20b:free"; "openai/gpt-oss-120b:free"].

End Cases.

(** ** Conversation memory *)

Section Memory.

Lemma keep_last_short {A : Type} (n : nat) (l : list A) :
  (List.length l <= n)%nat -> keep_last n l = l.
Proof.
  intros H. unfold keep_last.
  replace (List.length l - n)%nat with 0%nat by lia. reflexivity.
Qed.

Lemma keep_last_length {A : Type} (n : nat) (l : list A) :
  (n <= List.length l)%nat -> List.length (keep_last n l) = n.
Proof.
  intros H. unfold keep_last. rewrite length_skipn. lia.
Qed.

Lemma keep_last_app {A : Type} (n : nat) (a b : list A) :
  keep_last n (keep_last n a ++ b) = keep_last n (a ++ b).
Proof.
  destruct (Nat.le_gt_cases (List.length a) n) as [Hle | Hgt].
  - now rewrite (keep_last_short n a Hle).
  - unfold keep_last at 1 3.
    rewrite !length_app, (keep_last_length n a) by lia.
    unfold keep_last. rewrite !skipn_app, skipn_skipn, length_skipn.
    f_equal; f_equal; lia.
Qed.

Lemma keep_last_beyond {A : Type} (n : nat) (a b : list A) :
  (n <= List.length b)%nat -> keep_last n (a ++ b) = skipn (List.length b - n) b.
Proof.
  intros H. unfold keep_last.
  rewrite skipn_app, length_app, skipn_all2 by lia.
  simpl. f_equal. lia.
Qed.

(** One [add_to_memory] on a memory within its bound keeps the last
    [max_memory] entries of the extended memory. *)
Lemma add_to_memory_keep_last (e : LocalConversationEngine) (u r now : string) :
  (Z.of_nat (List.length (context_memory e)) <= max_memory e)%Z ->
  context_memory (add_to_memory e u r now)
  = keep_last (Z.to_nat (max_memory e)) (context_memory e ++ [memory_entry u r now]).
Proof.
  intros H. unfold add_to_memory. simpl.
  set (m := (context_memory e ++ [memory_entry u r now])%list).
  assert (Hm : List.length m = S (List.length (context_memory e))).
  { unfold m. rewrite length_app. simpl. lia. }
  destruct (max_memory e <? Z.of_nat (List.length m))%Z eqn:E.
  - apply Z.ltb_lt in E. unfold keep_last.
    replace (List.length m - Z.to_nat (max_memory e))%nat with 1%nat by lia.
    now destruct m.
  - apply Z.ltb_ge in E. symmetry. apply keep_last_short. lia.
Qed.

Lemma add_to_memory_max (e : LocalConversationEngine) (u r now : string) :
  max_memory (add_to_memory e u r now) = max_memory e.
Proof. reflexivity. Qed.

Lemma add_to_memory_bounded (e : LocalConversationEngine) (u r now : string) :
  (Z.of_nat (List.length (context_memory e)) <= max_memory e)%Z ->
  (Z.of_nat (List.length (context_memory (add_to_memory e u r now)))
   <= max_memory (add_to_memory e u r now))%Z.
Proof.
  intros H. rewrite add_to_memory_keep_last, add_to_memory_max by assumption.
  unfold keep_last. rewrite length_skipn, length_app. simpl. lia.
Qed.

Lemma run_turns_keep_last (turns : list Turn) :
  forall e : LocalConversationEngine,
    (Z.of_nat (List.length (context_memory e)) <= max_memory e)%Z ->
    max_memory (run_turns e turns) = max_memory e /\
    context_memory (run_turns e turns)
    = keep_last (Z.to_nat (max_memory e)) (context_memory e ++ map turn_entry turns).
Proof.
  induction turns as [| [[u r] now] turns IH]; intros e H.
  - simpl. split; [reflexivity |].
    rewrite app_nil_r. symmetry. apply keep_last_short. lia.
  - change (run_turns e ((u, r, now) :: turns))
      with (run_turns (add_to_memory e u r now) turns).
    destruct (IH (add_to_memory e u r now) (add_to_memory_bounded e u r now H)) as [Hmax Hmem].
    rewrite add_to_memory_max in Hmax, Hmem.
    split; [exact Hmax |].
    rewrite Hmem, add_to_memory_keep_last by assumption.
    rewrite keep_last_app, <- app_assoc. reflexivity.
Qed.

(** C6. After any sequence of more than [max_memory] turns, from an
    engine whose memory is within its bound, the conversation memory has
    exactly [max_memory] entries, and they are the most recent
    [max_memory] turns in their order: the oldest were evicted first. *)
Theorem memory_bound_fifo (e : LocalConversationEngine) (turns : list Turn) :
  (Z.of_nat (List.length (context_memory e)) <= max_memory e)%Z ->
  (max_memory e < Z.of_nat (List.length turns))%Z ->
  Z.of_nat (List.length (context_memory (run_turns e turns))) = max_memory e /\
  context_memory (run_turns e turns)
  = skipn (List.length turns - Z.to_nat (max_memory e)) (map turn_entry turns) /\
  max_memory (run_turns e turns) = max_memory e.
Proof.
  intros Hbound Hmore.
  destruct (run_turns_keep_last turns e Hbound) as [Hmax Hmem].
  assert (Hlen : (Z.to_nat (max_memory e) <= List.length (map turn_entry turns))%nat).
  { rewrite length_map. lia. }
  rewrite keep_last_beyond in Hmem by exact Hlen.
  rewrite length_map in Hmem.
  split; [| split; [exact Hmem | exact Hmax]].
  rewrite Hmem, length_skipn, length_map. lia.
Qed.

(** C7. [load_from_dict] applied to the [to_dict] snapshot of an engine
    whose [max_memory] is in [5, 50] and whose memory is within that
    bound restores its memory, profile and bound, whatever engine the
    snapshot is loaded into. *)
Theorem save_load_round_trip (e0 e : LocalConversationEngine) :
  (5 <= max_memory e <= 50)%Z ->
  (Z.of_nat (List.length (context_memory e)) <= max_memory e)%Z ->
  context_memory (load_from_dict e0 (to_dict e)) = context_memory e /\
  user_profile (load_from_dict e0 (to_dict e)) = user_profile e /\
  max_memory (load_from_dict e0 (to_dict e)) = max_memory e.
Proof.
  intros Hrange Hbound.
  unfold load_from_dict, to_dict, field_or, trim_memory. simpl.
  replace (Z.max 5 (Z.min 50 (max_memory e))) with (max_memory e) by lia.
  destruct (max_memory e <? Z.of_nat (List.length (context_memory e)))%Z eqn:E.
  - apply Z.ltb_lt in E. lia.
  - simpl. auto.
Qed.

End Memory.

(** ** The local responder at low creativity *)

Section Conservative.

Lemma Qleb_true_iff (a b : Q) : Qleb a b = true <-> (a <= b)%Q.
Proof. apply Qle_bool_iff. Qed.

Lemma Qgtb_false_of_le (a b : Q) : (a <= b)%Q -> Qgtb a b = false.
Proof.
  intros H. unfold Qgtb. apply Qle_bool_iff in H. now rewrite H.
Qed.

Lemma conservative_tier (e : LocalConversationEngine) :
  (creativity_level e <= 3 # 10)%Q -> get_creativity_tier e = "conservative".
Proof.
  intros H. unfold get_creativity_tier.
  apply Qleb_true_iff in H. now rewrite H.
Qed.

Lemma select_response_conservative (rng : Rng) (k : nat) (e : LocalConversationEngine)
    (first : string) (others : list string) :
  (creativity_level e <= 3 # 10)%Q ->
  select_response rng k e (first :: others) = (first, k).
Proof.
  intros H. unfold select_response.
  apply Qleb_true_iff in H. now rewrite H.
Qed.

(** The intents [analyze_intent] can return. *)
Lemma analyze_intent_range (e : LocalConversationEngine) (message : string) :
  In (analyze_intent e message)
     ["greetings"; "how_are_you"; "thanks"; "compliments"; "capabilities";
      "farewells"; "confused"; "default"].
Proof.
  unfold analyze_intent.
  repeat match goal with
         | |- context [if ?c then _ else _] => destruct c
         end; simpl; auto 10.
Qed.

(** At every intent the conservative candidates are those of the matched
    category and there is a first one. *)
Lemma conservative_candidates (intent : string) :
  In intent ["greetings"; "how_are_you"; "thanks"; "compliments"; "capabilities";
             "farewells"; "confused"; "default"] ->
  exists tiers first others,
    PyDict.get (matched_category intent) response_patterns = Some tiers /\
    PyDict.get "conservative" tiers = Some (first :: others) /\
    candidate_responses intent "conservative" = first :: others.
Proof.
  intros H. simpl in H.
  repeat (destruct H as [H | H]; [subst intent; do 3 eexists; repeat split; reflexivity |]).
  contradiction.
Qed.

(** With creativity at most 0.3, [generate_response] returns the first
    candidate handed to [select_response], in any world. *)
Lemma generate_response_first (w : World) (s : State) (message first : string)
    (others : list string) :
  (creativity_level (conversation_engine s) <= 3 # 10)%Q ->
  candidate_responses (analyze_intent (conversation_engine s) message) "conservative"
  = first :: others ->
  fst (generate_response w message s) = inr first.
Proof.
  intros Hlevel Hcands.
  assert (Hhigh : Qgtb (creativity_level (conversation_engine s)) (8 # 10) = false).
  { apply Qgtb_false_of_le. eapply Qle_trans; [exact Hlevel | discriminate]. }
  unfold generate_response, bind, gets, modify, now_iso, save_to_disk, ret.
  rewrite (conservative_tier _ Hlevel), Hcands.
  rewrite (select_response_conservative _ _ _ _ _ Hlevel).
  cbn [fst snd conversation_engine advanced_settings with_draws with_ticks with_engine].
  rewrite Hhigh.
  destruct (remember_local_profile (advanced_settings s)); reflexivity.
Qed.

(** C8. With creativity at most 0.3 the response to a message is the
    first candidate of the conservative list of the category its intent
    matches, whatever the random draws, the clock or the rest of the
    world: two runs from the same state give the same response, with no
    mixing and no flourish. *)
Theorem low_creativity_deterministic (s : State) (message : string) :
  (creativity_level (conversation_engine s) <= 3 # 10)%Q ->
  exists tiers candidates first,
    PyDict.get (matched_category (analyze_intent (conversation_engine s) message))
               response_patterns = Some tiers /\
    PyDict.get "conservative" tiers = Some candidates /\
    nth_error candidates 0 = Some first /\
    forall w : World, fst (generate_response w message s) = inr first.
Proof.
  intros Hlevel.
  destruct (conservative_candidates _ (analyze_intent_range (conversation_engine s) message))
    as (tiers & first & others & Htiers & Hcons & Hcands).
  exists tiers, (first :: others), first.
  repeat split; try assumption.
  intros w. eapply generate_response_first; eassumption.
Qed.

End Conservative.

(** ** The status cache setters *)

Section StatusCache.

Lemma dict_get_set_same {V : Type} (k : string) (v : V) (d : list (string * V)) :
  PyDict.get k (PyDict.set k v d) = Some v.
Proof.
  induction d as [| [k' v'] d IH]; simpl.
  - now rewrite String.eqb_refl.
  - destruct (String.eqb k k') eqn:E; simpl; rewrite ?E, ?String.eqb_refl; auto.
Qed.

(** The cache in memory after [set_model_error], whether the call
    returns or raises. *)
Lemma set_model_error_cache (sm : SettingsManager) (model_id error : string) (t1 t2 : Q) :
  settings (snd (Settings.set_model_error sm model_id error t1 t2)) = settings sm /\
  model_errors (snd (Settings.set_model_error sm model_id error t1 t2))
  = PyDict.set model_id (mkErrorRecord error t1) (model_errors sm) /\
  model_status (snd (Settings.set_model_error sm model_id error t1 t2))
  = PyDict.set model_id
      (if PyStr.str_in "paused" (PyStr.lower error) then "paused" else "error")
      (model_status sm).
Proof.
  unfold Settings.set_model_error.
  destruct (settings_model_errors sm); repeat split.
Qed.

(** The cache in memory after [clear_model_error], whether the call
    returns or raises. *)
Lemma clear_model_error_cache (sm : SettingsManager) (model_id : string) :
  settings (snd (Settings.clear_model_error sm model_id)) = settings sm /\
  model_errors (snd (Settings.clear_model_error sm model_id))
  = PyDict.del model_id (model_errors sm) /\
  model_status (snd (Settings.clear_model_error sm model_id))
  = (if PyDict.mem model_id (model_status sm)
     then PyDict.set model_id "available" (model_status sm)
     else model_status sm).
Proof.
  unfold Settings.clear_model_error.
  destruct (settings_model_errors sm); repeat split.
Qed.


(** The sibling setter [set_model_status] does default the message: a
    status other than ['available'] is stored with a non-empty one. *)
Lemma set_model_status_message (sm : SettingsManager) (model_id : string)
    (status error : option string) (t1 t2 : Q) :
  let sm' := Settings.set_model_status sm model_id status error t1 t2 in
  Settings.get_model_status sm' model_id <> "available" ->
  exists r, Settings.get_model_error sm' model_id = Some r /\ er_error r <> "".
Proof.
  unfold Settings.set_model_status, Settings.get_model_status, Settings.get_model_error.
  set (status' := PyStr.lower _).
  destruct (String.eqb status' "available") eqn:E; simpl.
  - rewrite dict_get_set_same. apply String.eqb_eq in E. congruence.
  - intros _. rewrite dict_get_set_same. eexists. split; [reflexivity |]. simpl.
    destruct error as [[| c m] |]; destruct (String.eqb status' "paused"); discriminate.
Qed.

(** C5 (the code departs from it). [set_model_error] with the empty
    message stores a status that is not ['available'], here ['error'],
    together with an error record whose message is empty: no generic
    phrase is put in its place.  This is the cache the call leaves,
    whether it returns or raises for want of the settings entry. *)
Theorem set_model_error_empty_message (sm : SettingsManager) (model_id : string) (t1 t2 : Q) :
  Settings.get_model_status (snd (Settings.set_model_error sm model_id "" t1 t2)) model_id
  = "error" /\
  Settings.get_model_error (snd (Settings.set_model_error sm model_id "" t1 t2)) model_id
  = Some (mkErrorRecord "" t1).
Proof.
  destruct (set_model_error_cache sm model_id "" t1 t2) as (_ & He & Hs).
  unfold Settings.get_model_error, Settings.get_model_status.
  rewrite He, Hs, !dict_get_set_same. split; reflexivity.
Qed.

End StatusCache.

(** ** Running the monad *)

Section Frames.

Variable w : World.

Lemma queries_of_app (a b : list Event) :
  queries_of (a ++ b) = (queries_of a ++ queries_of b)%list.
Proof.
  unfold queries_of. induction a as [| ev a IH]; simpl; [reflexivity |].
  destruct ev; simpl; rewrite IH; reflexivity.
Qed.

Lemma reloads_of_app (a b : list Event) :
  reloads_of (a ++ b) = (reloads_of a + reloads_of b)%nat.
Proof.
  unfold reloads_of. rewrite filter_app, length_app. reflexivity.
Qed.

(** [query_model] makes one request and classifies its outcome. *)
Lemma query_model_run (model_id inputs : string) (s : State) :
  query_model w model_id inputs s
  = (classify_outcome (w_http_post w (n_posts s) (openrouter_api_key s) model_id inputs),
     with_trace (with_posts s (S (n_posts s))) (trace s ++ [EvQuery model_id])).
Proof.
  unfold query_model, bind, gets, modify, log, ret, raise. simpl.
  destruct (classify_outcome _); reflexivity.
Qed.


Lemma same_setup_refl (s : State) : same_setup s s.
Proof. repeat split. Qed.

Lemma same_setup_trans (s1 s2 s3 : State) :
  same_setup s1 s2 -> same_setup s2 s3 -> same_setup s1 s3.
Proof.
  unfold same_setup. intros (A1 & A2 & A3 & A4 & A5) (B1 & B2 & B3 & B4 & B5).
  repeat split; congruence.
Qed.

Lemma record_error_run (mid err : string) (s : State) :
  exists s',
    record_error w mid err s = (inr tt, s') /\
    trace s' = trace s /\ same_setup s s'.
Proof.
  unfold record_error, bind, gets, time_time, modify, ret, same_setup.
  destruct (settings_manager s) as [m |] eqn:Hm; cbn [fst snd];
    eexists; (split; [reflexivity |]); simpl; rewrite ?Hm; repeat split; try reflexivity.
  now destruct (set_model_error_cache m mid err (w_time w (n_ticks s))
                  (w_time w (S (n_ticks s)))) as (-> & _).
Qed.

(** [clear_error] returns, or raises the [KeyError] of settings without
    ['model_errors']; either way it logs nothing and only changes the
    cache of the manager. *)
Lemma clear_error_run (mid : string) (s : State) :
  exists r s',
    clear_error mid s = (r, s') /\
    (r = inr tt \/ r = inl (KeyError "model_errors")) /\
    trace s' = trace s /\ same_setup s s'.
Proof.
  unfold clear_error, bind, gets, modify, ret, raise, same_setup. cbn [fst snd].
  destruct (settings_manager s) as [m |] eqn:Hm; cbn [fst snd].
  - unfold Settings.clear_model_error.
    destruct (settings_model_errors m); cbn [fst snd];
      do 2 eexists; (split; [reflexivity |]); (split; [auto |]);
      (split; [reflexivity |]); simpl; rewrite ?Hm; repeat split.
  - do 2 eexists. split; [reflexivity |]. split; [auto |]. split; [reflexivity |].
    repeat split. now rewrite Hm.
Qed.

(** With the ['model_errors'] entry in the settings, [clear_error]
    returns. *)
Lemma clear_error_returns (mid : string) (s : State) :
  errors_key_present s = true ->
  exists s', clear_error mid s = (inr tt, s') /\ trace s' = trace s.
Proof.
  unfold errors_key_present, clear_error, bind, gets, modify, ret, raise. cbn [fst snd].
  destruct (settings_manager s) as [m |]; cbn [fst snd].
  - unfold Settings.clear_model_error.
    destruct (settings_model_errors m); [| discriminate].
    intros _. cbn [fst snd]. eexists. split; reflexivity.
  - intros _. eexists. split; reflexivity.
Qed.

(** Without it, [clear_error] raises the [KeyError]. *)
Lemma clear_error_raises (mid : string) (s : State) :
  errors_key_present s = false ->
  exists s', clear_error mid s = (inl (KeyError "model_errors"), s') /\ trace s' = trace s.
Proof.
  unfold errors_key_present, clear_error, bind, gets, modify, ret, raise. cbn [fst snd].
  destruct (settings_manager s) as [m |]; cbn [fst snd]; [| discriminate].
  unfold Settings.clear_model_error.
  destruct (settings_model_errors m); [discriminate |].
  intros _. cbn [fst snd]. eexists. split; reflexivity.
Qed.

(** The reset of the settings takes the ['model_errors'] entry away. *)
Lemma reset_to_defaults_drops_the_entry (s : State) (m : SettingsManager) :
  settings_manager s = Some m ->
  fst (reset_to_defaults w s) = inr tt /\
  errors_key_present (snd (reset_to_defaults w s)) = false.
Proof.
  intros Hm. unfold reset_to_defaults, modify, errors_key_present. cbn [fst snd].
  split; [reflexivity |]. simpl. now rewrite Hm.
Qed.

(** The reload is logged once and leaves the log otherwise alone. *)
Lemma reload_run (s : State) :
  exists b s',
    reload_openrouter_token_from_env w s = (inr b, s') /\
    trace s' = (trace s ++ [EvReloadToken])%list.
Proof.
  unfold reload_openrouter_token_from_env, _load_env_from_dotenv, bind, gets, log, modify, ret.
  cbn [fst snd].
  destruct (w_dotenv w); cbn [fst snd];
    destruct (PyDict.get "OPENROUTER_API_KEY" _) as [tok |]; cbn [fst snd];
    try destruct (PyStr.nonempty tok && PyStr.nonempty (PyStr.strip tok)); cbn [fst snd];
    do 2 eexists; (split; [reflexivity |]); reflexivity.
Qed.

(** The try body of an attempt makes one request; then the handler runs
    on the error of the request or on the blank answer, or the answer is
    returned under the model's name, or the handler runs on the
    [KeyError] raised while the cache was cleared for the answer. *)
Lemma primary_attempt_cases (mid msg name : string) (a : nat) (did : bool) (s : State) :
  exists s1,
    queries_of (trace s1) = (queries_of (trace s) ++ [mid])%list /\
    reloads_of (trace s1) = reloads_of (trace s) /\
    same_setup s s1 /\
    ((exists e,
         classify_outcome (w_http_post w (n_posts s) (openrouter_api_key s) mid msg) = inl e /\
         primary_attempt w mid msg name a did s = attempt_failed w mid did e s1) \/
     (exists response,
         classify_outcome (w_http_post w (n_posts s) (openrouter_api_key s) mid msg)
         = inr response /\
         primary_attempt w mid msg name a did s
         = attempt_failed w mid did (PyException "Empty response from OpenRouter model") s1) \/
     (exists response s2,
         classify_outcome (w_http_post w (n_posts s) (openrouter_api_key s) mid msg)
         = inr response /\
         primary_attempt w mid msg name a did s
         = (inr (inl (using_suffix (py_str w response) name)), s2) /\
         trace s2 = trace s1) \/
     (exists response s2,
         classify_outcome (w_http_post w (n_posts s) (openrouter_api_key s) mid msg)
         = inr response /\
         primary_attempt w mid msg name a did s
         = attempt_failed w mid did (KeyError "model_errors") s2 /\
         trace s2 = trace s1 /\ same_setup s s2)).
Proof.
  unfold primary_attempt, catch, bind.
  assert (Hsleep : exists s0,
             (if (0 <? a)%nat then sleep (inject_Z (2 * Z.of_nat a)) else ret tt) s
             = (inr tt, s0) /\
             n_posts s0 = n_posts s /\ openrouter_api_key s0 = openrouter_api_key s /\
             queries_of (trace s0) = queries_of (trace s) /\
             reloads_of (trace s0) = reloads_of (trace s) /\
             same_setup s s0).
  { destruct (0 <? a)%nat; unfold sleep, log, modify, ret; eexists;
      (split; [reflexivity |]); simpl; rewrite ?queries_of_app, ?reloads_of_app;
      unfold reloads_of; simpl; rewrite ?app_nil_r, ?Nat.add_0_r; repeat split. }
  destruct Hsleep as (s0 & -> & Hn & Hk & Hq0 & Hr0 & Hs0). cbn [fst snd].
  rewrite query_model_run, Hn, Hk.
  set (s1 := with_trace (with_posts s0 (S (n_posts s))) (trace s0 ++ [EvQuery mid])).
  exists s1.
  assert (Hq1 : queries_of (trace s1) = (queries_of (trace s) ++ [mid])%list).
  { unfold s1. simpl. rewrite queries_of_app, Hq0. reflexivity. }
  assert (Hr1 : reloads_of (trace s1) = reloads_of (trace s)).
  { unfold s1. simpl. rewrite reloads_of_app, Hr0. unfold reloads_of at 2. simpl. lia. }
  assert (Hs1 : same_setup s s1).
  { eapply same_setup_trans; [exact Hs0 |]. repeat split. }
  split; [exact Hq1 | split; [exact Hr1 | split; [exact Hs1 |]]].
  destruct (classify_outcome _) as [e | response]; cbn [fst snd].
  - left. exists e. split; reflexivity.
  - destruct (negb (PyStr.nonempty (PyStr.strip (py_str w response)))).
    + right; left. eexists. split; reflexivity.
    + right; right.
      destruct (clear_error_run mid s1) as (r & s2 & Hclear & [-> | ->] & Htr & Hs2);
        rewrite Hclear; cbn [fst snd]; unfold ret.
      * left. do 2 eexists. split; [reflexivity | split; [reflexivity | exact Htr]].
      * right. do 2 eexists. split; [reflexivity | split; [reflexivity |]].
        split; [exact Htr |]. eapply same_setup_trans; eassumption.
Qed.

(** The handler when it does not try to reload the token, the error not
    being taken for an authentication error or the reload having been
    done: the loop goes on exactly when the error is transient. *)
Lemma attempt_failed_no_reload (mid : string) (did : bool) (e : PyExc) (s : State) :
  is_auth_error (PyStr.lower (exc_str e)) && negb did = false ->
  exists s',
    attempt_failed w mid did e s
    = (inr (inr (if is_transient (PyStr.lower (exc_str e)) then Continue else Break,
                 did, exc_str e)), s') /\
    trace s' = trace s /\ same_setup s s'.
Proof.
  intros Hauth. unfold attempt_failed, bind.
  destruct (record_error_run mid (exc_str e) s) as (s2 & Hrun & Htrace & Hsetup).
  rewrite Hrun. cbn [fst snd]. rewrite Hauth. unfold ret at 1. cbn [fst snd].
  destruct (is_transient (PyStr.lower (exc_str e))); cbn [negb];
    eexists; (split; [reflexivity |]); split; assumption.
Qed.

(** The handler on an authentication error before any reload: the
    reload is tried, once; the loop goes on only when it applied a
    token, and then remembers it. *)
Lemma attempt_failed_reloads (mid : string) (e : PyExc) (s : State) :
  is_auth_error (PyStr.lower (exc_str e)) = true ->
  is_transient (PyStr.lower (exc_str e)) = false ->
  exists (b : bool) s',
    attempt_failed w mid false e s
    = (inr (inr (if b then Continue else Break, b, exc_str e)), s') /\
    reloads_of (trace s') = S (reloads_of (trace s)).
Proof.
  intros Hauth Htrans. unfold attempt_failed, bind.
  destruct (record_error_run mid (exc_str e) s) as (s2 & Hrun & Htrace & _).
  rewrite Hrun. cbn [fst snd]. rewrite Hauth, Htrans. cbn [andb negb].
  destruct (reload_run s2) as (b & s3 & Hreload & Htrace3).
  rewrite Hreload. cbn [fst snd]. exists b, s3.
  split; [destruct b; reflexivity |].
  rewrite Htrace3, reloads_of_app, Htrace. unfold reloads_of at 2. simpl. lia.
Qed.

(** An attempt whose request fails and that does not try to reload the
    token: one request, and the loop goes on exactly when the error is
    transient. *)
Lemma primary_attempt_fails (mid msg name : string) (a : nat) (did : bool) (s : State)
    (e : PyExc) :
  classify_outcome (w_http_post w (n_posts s) (openrouter_api_key s) mid msg) = inl e ->
  is_auth_error (PyStr.lower (exc_str e)) && negb did = false ->
  exists s',
    primary_attempt w mid msg name a did s
    = (inr (inr (if is_transient (PyStr.lower (exc_str e)) then Continue else Break,
                 did, exc_str e)), s') /\
    queries_of (trace s') = (queries_of (trace s) ++ [mid])%list /\
    reloads_of (trace s') = reloads_of (trace s) /\
    same_setup s s'.
Proof.
  intros Hfail Hauth.
  destruct (primary_attempt_cases mid msg name a did s)
    as (s1 & Hq & Hr & Hs
        & [(e' & Hc & Hrun) | [(r & Hc & _) | [(r & s2 & Hc & _) | (r & s2 & Hc & _)]]]);
    try congruence.
  assert (e' = e) by congruence. subst e'.
  destruct (attempt_failed_no_reload mid did e s1 Hauth) as (s2 & Hrun2 & Htr & Hs2).
  exists s2. rewrite Hrun, Hrun2, Htr.
  split; [reflexivity | split; [exact Hq | split; [exact Hr |]]].
  eapply same_setup_trans; eassumption.
Qed.

(** A primary model whose every request fails with the same transient
    error that is not taken for an authentication error: each attempt
    of the loop makes one request, none reloads the token, and the loop
    runs to its end. *)
Lemma primary_attempts_persistent (mid msg name : string) (e : PyExc) :
  (forall n tok, classify_outcome (w_http_post w n tok mid msg) = inl e) ->
  is_auth_error (PyStr.lower (exc_str e)) = false ->
  is_transient (PyStr.lower (exc_str e)) = true ->
  forall (l : list nat) (did : bool) (le : option string) (s : State),
  exists s',
    primary_attempts w mid msg name l did le s
    = (inr (inr (match l with [] => le | _ :: _ => Some (exc_str e) end)), s') /\
    queries_of (trace s') = (queries_of (trace s) ++ repeat mid (List.length l))%list /\
    reloads_of (trace s') = reloads_of (trace s) /\
    same_setup s s'.
Proof.
  intros Hfail Hauth Htrans l.
  induction l as [| a rest IH]; intros did le s.
  - exists s. cbn. rewrite app_nil_r. repeat split.
  - cbn [primary_attempts]. unfold bind.
    assert (Hno : is_auth_error (PyStr.lower (exc_str e)) && negb did = false)
      by now rewrite Hauth.
    destruct (primary_attempt_fails mid msg name a did s e (Hfail _ _) Hno)
      as (s1 & Hrun & Hq1 & Hr1 & Hs1).
    rewrite Hrun, Htrans. cbn [fst snd].
    destruct (IH did (Some (exc_str e)) s1) as (s2 & Hrun2 & Hq2 & Hr2 & Hs2).
    exists s2. rewrite Hrun2. split.
    + destruct rest; reflexivity.
    + rewrite Hq2, Hq1, Hr2, Hr1, <- app_assoc. cbn [List.length repeat app].
      split; [reflexivity | split; [reflexivity |]].
      eapply same_setup_trans; eassumption.
Qed.

Lemma recovery_settings_same (a b : option SettingsManager) :
  option_map settings a = option_map settings b ->
  recovery_settings a = recovery_settings b.
Proof.
  destruct a as [a |], b as [b |]; simpl; try discriminate; [| reflexivity].
  intros H. injection H as H. unfold recovery_settings, Settings.get. now rewrite H.
Qed.

Lemma retry_attempts_same (a b : option SettingsManager) :
  option_map settings a = option_map settings b ->
  retry_attempts_of a = retry_attempts_of b.
Proof.
  destruct a as [a |], b as [b |]; simpl; try discriminate; [| reflexivity].
  intros H. injection H as H. unfold Settings.get. now rewrite H.
Qed.

(** With [auto_fallback] off the alternates block does nothing. *)
Lemma try_alternates_disabled (mid msg : string) (le : option string) (s : State) :
  fst (fst (fst (recovery_settings (settings_manager s)))) = false ->
  try_alternates w mid msg le s = (inr None, s).
Proof.
  intros H. unfold try_alternates, catch, bind, gets. cbn [fst snd].
  destruct (recovery_settings (settings_manager s)) as [[[auto_fb cap] ignore] raw].
  cbn in H. subst auto_fb. reflexivity.
Qed.

(** [generate_response] always returns, logs nothing, and its text only
    depends on the engine and on the draws taken so far. *)
Lemma generate_response_run (message : string) (s : State) :
  exists text s',
    generate_response w message s = (inr text, s') /\ trace s' = trace s.
Proof.
  unfold generate_response, bind, gets, modify, now_iso, save_to_disk, ret.
  cbn [fst snd].
  destruct (select_response _ _ _ _) as [response k'].
  cbn [fst snd].
  repeat match goal with
         | |- context [if ?c then _ else _] => destruct c; cbn [fst snd]
         end;
    do 2 eexists; (split; [reflexivity | reflexivity]).
Qed.

(** The local responder does not touch the settings manager. *)
Lemma generate_response_manager (message : string) (s : State) :
  settings_manager (snd (generate_response w message s)) = settings_manager s.
Proof.
  unfold generate_response, bind, gets, modify, now_iso, save_to_disk, ret.
  cbn [fst snd].
  destruct (select_response _ _ _ _) as [response k'].
  cbn [fst snd].
  repeat match goal with
         | |- context [if ?c then _ else _] => destruct c; cbn [fst snd]
         end; reflexivity.
Qed.

Lemma generate_response_text (message : string) (s1 s2 : State) :
  conversation_engine s1 = conversation_engine s2 ->
  n_draws s1 = n_draws s2 ->
  fst (generate_response w message s1) = fst (generate_response w message s2).
Proof.
  intros He Hd.
  unfold generate_response, bind, gets, modify, now_iso, save_to_disk, ret.
  cbn [fst snd]. rewrite He, Hd.
  destruct (select_response _ _ _ _) as [response k'].
  cbn [fst snd].
  repeat match goal with
         | |- context [if ?c then _ else _] => destruct c; cbn [fst snd]
         end; reflexivity.
Qed.

End Frames.

(** ** The dispatch stages *)

Section Dispatch.

Variable w : World.

Ltac split_ifs :=
  repeat match goal with
         | |- context [if ?c then _ else _] => destruct c
         end.

(** [get_weather] always returns a text and leaves the state alone. *)
Lemma get_weather_run (city : string) (s : State) :
  exists text, get_weather w city s = (inr text, s).
Proof. eexists. reflexivity. Qed.

(** The search stage always returns and leaves the state alone. *)
Lemma search_stage_run (search_enabled : bool) (limit : Z) (ml name : string) (s : State) :
  exists r, search_stage w search_enabled limit ml name s = (inr r, s).
Proof.
  unfold search_stage, bind, gets, ret.
  destruct search_enabled.
  - destruct (detect_search ml) as [is_search q]. split_ifs; eexists; reflexivity.
  - cbn [fst snd]. split_ifs; eexists; reflexivity.
Qed.

Lemma by_creativity_nonempty (c : Q) (a b d : string) :
  PyStr.nonempty a = true -> PyStr.nonempty b = true -> PyStr.nonempty d = true ->
  PyStr.nonempty (by_creativity c a b d) = true.
Proof. unfold by_creativity. intros; split_ifs; assumption. Qed.

Lemma launched_cases (l : Launch) (report : string) (s : State) :
  launched w l report s = (inr (Some report), with_trace s (trace s ++ [EvLaunch l])) \/
  exists e,
    w_launch w l = Some e /\
    launched w l report s = (inl (OSError e), with_trace s (trace s ++ [EvLaunch l])).
Proof.
  unfold launched, launch, bind, log, modify, ret, raise. cbn [fst snd].
  destruct (w_launch w l); [right; eexists; split |left]; reflexivity.
Qed.

Lemma launched_outcome (l : Launch) (report : string) (s : State) :
  PyStr.nonempty report = true -> command_outcome w (launched w l report s) s.
Proof.
  intros H. unfold command_outcome.
  destruct (launched_cases l report s) as [E | (e & Hl & E)]; rewrite E.
  - right; left. eauto.
  - right; right. eauto.
Qed.

Lemma execute_system_command_cases (command : string) (s : State) :
  command_outcome w (execute_system_command w command s) s.
Proof.
  unfold execute_system_command, bind, gets. cbn [fst snd].
  set (creativity := creativity_level (conversation_engine s)).
  set (windows := String.eqb (w_platform w) "Windows").
  set (c := PyStr.lower command).
  destruct (negb (enable_system_commands (advanced_settings s))).
  { right; left. do 2 eexists. split; [reflexivity |]. destruct (Qgtb _ _); reflexivity. }
  destruct (PyStr.str_in "open" c).
  { destruct (PyStr.str_in "notepad" c).
    { destruct windows; apply launched_outcome;
        [apply by_creativity_nonempty; reflexivity | destruct (Qleb _ _); reflexivity]. }
    destruct (PyStr.str_in "calculator" c).
    { destruct windows; apply launched_outcome;
        [apply by_creativity_nonempty; reflexivity | destruct (Qleb _ _); reflexivity]. }
    destruct (PyStr.str_in "browser" c || PyStr.str_in "chrome" c).
    { apply launched_outcome, by_creativity_nonempty; reflexivity. }
    destruct (PyStr.str_in "file manager" c || PyStr.str_in "explorer" c).
    { apply launched_outcome, by_creativity_nonempty; destruct windows; reflexivity. }
    left; reflexivity. }
  destruct (PyStr.str_in "volume" c && windows).
  { destruct (PyStr.str_in "up" c).
    { apply launched_outcome, by_creativity_nonempty; reflexivity. }
    destruct (PyStr.str_in "down" c).
    { apply launched_outcome, by_creativity_nonempty; reflexivity. }
    destruct (PyStr.str_in "mute" c).
    { apply launched_outcome, by_creativity_nonempty; reflexivity. }
    left; reflexivity. }
  destruct (PyStr.str_in "screenshot" c); [| left; reflexivity].
  unfold catch, ret.
  right; left.
  destruct windows;
    match goal with
    | |- context [launched w ?l ?r s] =>
        destruct (launched_cases l r s) as [E | (e & _ & E)]; rewrite E
    end;
    do 2 eexists; (split; [reflexivity |]);
    first [apply by_creativity_nonempty; reflexivity | destruct (Qgtb _ _); reflexivity].
Qed.


(** The system-command stage hands the message on only when nothing was
    started. *)
Lemma system_stage_none (system_enabled : bool) (ml name : string) (s : State) :
  fst (system_stage w system_enabled ml name s) = inr None ->
  system_stage w system_enabled ml name s = (inr None, s).
Proof.
  unfold system_stage, bind, gets, ret.
  destruct system_enabled.
  - destruct (execute_system_command_cases ml s)
      as [E | [(text & s' & E & Hne) | (l & e & s' & _ & E)]]; rewrite E; cbn [fst snd].
    + reflexivity.
    + rewrite Hne. discriminate.
    + discriminate.
  - cbn [fst snd]. destruct (PyStr.any_in _ ml); cbn [fst snd]; [discriminate | reflexivity].
Qed.

(** A message that goes on to the model left the state as it was. *)
Lemma dispatch_none (search_enabled system_enabled : bool) (limit : Z)
    (current_model ml : string) (s : State) :
  fst (dispatch w search_enabled system_enabled limit current_model ml s) = inr None ->
  dispatch w search_enabled system_enabled limit current_model ml s = (inr None, s).
Proof.
  unfold dispatch.
  destruct (PyStr.any_in model_questions ml || PyStr.any_in identity_questions ml).
  { unfold bind, gets, ret. cbn [fst snd]. discriminate. }
  destruct (PyStr.str_in "weather" ml).
  { unfold bind, ret. destruct (get_weather_run (weather_city ml) s) as [text E].
    rewrite E. cbn [fst snd]. discriminate. }
  unfold bind.
  destruct (search_stage_run search_enabled limit ml
              (info_text (lookup_model_info current_model) "name" "") s) as [r E].
  rewrite E. cbn [fst snd]. destruct r as [text |].
  - unfold ret. cbn [fst]. discriminate.
  - apply system_stage_none.
Qed.

End Dispatch.

(** ** The router *)

Section Router.

Variable w : World.

Lemma response_delay_stage_run (s : State) :
  response_delay_stage s = (inr tt, after_delay s).
Proof.
  unfold after_delay, response_delay_stage, bind, gets, sleep, log, modify, ret.
  cbn [fst snd]. destruct (Qgtb _ _); reflexivity.
Qed.

Lemma after_delay_setup (s : State) :
  same_setup s (after_delay s) /\
  queries_of (trace (after_delay s)) = queries_of (trace s) /\
  reloads_of (trace (after_delay s)) = reloads_of (trace s).
Proof.
  unfold after_delay, response_delay_stage, bind, gets, sleep, log, modify, ret.
  cbn [fst snd]. destruct (Qgtb _ _); cbn [snd].
  - simpl. rewrite queries_of_app, reloads_of_app. simpl.
    rewrite app_nil_r, Nat.add_0_r. repeat split.
  - repeat split.
Qed.

(** A message that reaches the model is handed to [route] in the state
    left by the initial delay. *)
Lemma call_ai_api_routes (message : string) (esa ecsa : option bool) (srla : option Z)
    (model_id : option string) (s : State) :
  reaches_model w message esa ecsa srla model_id s ->
  call_ai_api w message esa ecsa srla model_id s
  = route w (resolve_model model_id s) message (after_delay s).
Proof.
  intros H. unfold reaches_model in H. apply dispatch_none in H.
  destruct (after_delay_setup s) as ((_ & Hadv & _) & _).
  unfold call_ai_api, bind. rewrite response_delay_stage_run.
  unfold gets at 1. cbn [fst snd]. rewrite Hadv.
  fold (resolve_model model_id s). rewrite H. reflexivity.
Qed.

Lemma no_space_is_paused (t : string) :
  PyStr.str_in "paused" t = false -> PyStr.str_in "space is paused" t = false.
Proof.
  intros Hp. destruct (PyStr.str_in "space is paused" t) eqn:E; [| reflexivity].
  exfalso. revert Hp E.
  induction t as [| c t IH]; [discriminate |].
  intros Hp E.
  cbn [PyStr.str_in] in Hp, E.
  apply orb_false_iff in Hp. destruct Hp as [Hp1 Hp2].
  apply orb_true_iff in E. destruct E as [E | E]; [| now apply IH].
  clear IH Hp1.
  repeat match type of E with
         | String.prefix (String _ _) (String ?d ?u) = true =>
             cbn [String.prefix] in E;
             destruct (Ascii.ascii_dec _ d); [subst | discriminate];
             destruct u as [| ? ?]; [discriminate |]
         end.
  revert Hp2. cbn. discriminate.
Qed.

Lemma classify_rate_limited (o : HttpOutcome) :
  rate_limited o -> classify_outcome o = inl (HFRequestError 429 "HF rate limit exceeded").
Proof.
  intros (body & -> & Hp & Hl). unfold classify_outcome. cbn [Z.eqb Pos.eqb orb].
  rewrite (no_space_is_paused _ Hp), Hp, Hl. reflexivity.
Qed.

Lemma classify_auth_refused (o : HttpOutcome) :
  auth_refused o ->
  exists status,
    classify_outcome o = inl (HFRequestError status "HF authentication/authorization error").
Proof.
  intros (status & body & -> & Hstatus & Hp & Hl). exists status.
  unfold classify_outcome.
  rewrite (no_space_is_paused _ Hp), Hp, Hl.
  destruct Hstatus as [-> | ->]; reflexivity.
Qed.

Lemma settings_get_same (a b : SettingsManager) (key : string) (default : Json) :
  settings a = settings b -> Settings.get a key default = Settings.get b key default.
Proof. unfold Settings.get. now intros ->. Qed.

(** C3. With [retry_attempts] set to 3, [auto_fallback] off and a remote
    primary model whose every request is answered by a rate-limit error,
    a message that reaches the model makes [call_ai_api] send exactly
    three requests, all to the primary model, and return the local
    responder's answer to the error prompt, suffixed
    ["[Using: Local Conversation Engine (Fallback)]"]. *)
Theorem rate_limited_primary_three_attempts (message mid : string)
    (esa ecsa : option bool) (srla : option Z) (model_id : option string)
    (s : State) (sm : SettingsManager) :
  settings_manager s = Some sm ->
  Settings.get sm "retry_attempts" (JInt 2) = JInt 3 ->
  Settings.get sm "auto_fallback" (JBool true) = JBool false ->
  resolve_model model_id s = mid ->
  is_openrouter_model (lookup_model_info mid) = true ->
  (forall n tok, rate_limited (w_http_post w n tok mid message)) ->
  reaches_model w message esa ecsa srla model_id s ->
  exists local_response,
    fst (generate_response w
           ("[SYSTEM: OpenRouter model error: HF rate limit exceeded] " ++ message) s)
    = inr local_response /\
    fst (call_ai_api w message esa ecsa srla model_id s)
    = inr (local_response ++ PyStr.newline ++ PyStr.newline
           ++ "[Using: Local Conversation Engine (Fallback)]") /\
    queries_of (trace (snd (call_ai_api w message esa ecsa srla model_id s)))
    = (queries_of (trace s) ++ [mid; mid; mid])%list.
Proof.
  intros Hsm Hretry Hauto Hmid Hremote Hworld Hreach.
  rewrite (call_ai_api_routes _ _ _ _ _ _ Hreach), Hmid.
  destruct (after_delay_setup s) as (Hs0 & Hq0 & _).
  set (s0 := after_delay s) in *.
  set (prompt := "[SYSTEM: OpenRouter model error: HF rate limit exceeded] " ++ message).
  enough (Hroute : exists text s2,
             route w mid message s0
             = (inr (text ++ PyStr.newline ++ PyStr.newline
                     ++ "[Using: Local Conversation Engine (Fallback)]"), s2) /\
             fst (generate_response w prompt s) = inr text /\
             queries_of (trace s2) = (queries_of (trace s) ++ [mid; mid; mid])%list).
  { destruct Hroute as (text & s2 & Hrun & Htext & Hq). rewrite Hrun. eauto. }
  assert (Hsm0 : exists sm0, settings_manager s0 = Some sm0 /\ settings sm0 = settings sm).
  { destruct Hs0 as (_ & _ & H & _). rewrite Hsm in H.
    destruct (settings_manager s0) as [sm0 |]; [| discriminate].
    injection H as H. eauto. }
  destruct Hsm0 as (sm0 & Hsm0 & Hset0).
  set (E := HFRequestError 429 "HF rate limit exceeded").
  assert (Hfail : forall n tok, classify_outcome (w_http_post w n tok mid message) = inl E).
  { intros n tok. apply classify_rate_limited, Hworld. }
  unfold route, catch, bind. rewrite Hremote.
  unfold gets. cbn [fst snd].
  assert (Hattempts : retry_attempts_of (settings_manager s0) = 3%Z).
  { rewrite Hsm0. unfold retry_attempts_of.
    rewrite (settings_get_same sm0 sm "retry_attempts" (JInt 2) Hset0), Hretry. reflexivity. }
  rewrite Hattempts. change (seq 0 (Z.to_nat 3)) with [0; 1; 2]%nat.
  destruct (primary_attempts_persistent w mid message
              (info_text (lookup_model_info mid) "name" "") E Hfail
              eq_refl eq_refl [0; 1; 2]%nat false None s0)
    as (s1 & Hrun & Hq1 & _ & Hs1).
  rewrite Hrun. cbn [fst snd].
  assert (Hoff : fst (fst (fst (recovery_settings (settings_manager s1)))) = false).
  { destruct Hs1 as (_ & _ & H & _).
    rewrite (recovery_settings_same _ _ H), Hsm0. unfold recovery_settings.
    rewrite (settings_get_same sm0 sm "auto_fallback" (JBool true) Hset0), Hauto.
    destruct (PyVal.py_int _); reflexivity. }
  rewrite (try_alternates_disabled w mid message _ s1 Hoff). cbn [fst snd].
  change (exc_str E) with "HF rate limit exceeded".
  change (nth 0 (PyStr.split PyStr.newline "HF rate limit exceeded") "")
    with "HF rate limit exceeded".
  cbn [PyStr.nonempty].
  change ("[SYSTEM: " ++ ("OpenRouter model error: " ++ "HF rate limit exceeded") ++ "] " ++ message)
    with prompt.
  destruct (generate_response_run w prompt s1) as (text & s2 & Hgen & Htrace).
  rewrite Hgen. cbn [fst snd]. exists text, s2. split; [reflexivity | split].
  - rewrite (generate_response_text w prompt s s1), Hgen; [reflexivity | |].
    + destruct Hs0 as (A & _), Hs1 as (B & _). congruence.
    + destruct Hs0 as (_ & _ & _ & _ & A), Hs1 as (_ & _ & _ & _ & B). congruence.
  - rewrite Htrace, Hq1, Hq0. reflexivity.
Qed.

End Router.

(** ** Credential reload *)

Section AuthRecovery.

Variable w : World.

(** An attempt that fails with an authentication error before any
    reload tries the reload, once. *)
Lemma primary_attempt_reloads (mid msg name : string) (a : nat) (s : State) (e : PyExc) :
  classify_outcome (w_http_post w (n_posts s) (openrouter_api_key s) mid msg) = inl e ->
  is_auth_error (PyStr.lower (exc_str e)) = true ->
  is_transient (PyStr.lower (exc_str e)) = false ->
  exists (b : bool) s',
    primary_attempt w mid msg name a false s
    = (inr (inr (if b then Continue else Break, b, exc_str e)), s') /\
    reloads_of (trace s') = S (reloads_of (trace s)).
Proof.
  intros Hfail Hauth Htrans.
  destruct (primary_attempt_cases w mid msg name a false s)
    as (s1 & _ & Hr & _ & [(e' & Hc & Hrun) | [(r & Hc & _) | [(r & s2 & Hc & _)
                                                              | (r & s2 & Hc & _)]]]);
    try congruence.
  assert (e' = e) by congruence. subst e'.
  destruct (attempt_failed_reloads w mid e s1 Hauth Htrans) as (b & s2 & Hrun2 & Hr2).
  exists b, s2. rewrite Hrun, Hrun2. split; [reflexivity | congruence].
Qed.

(** Once the token was reloaded, attempts failing with the
    authentication error reload nothing. *)
Lemma primary_attempts_after_reload (mid msg name : string) :
  (forall n tok, exists e,
      classify_outcome (w_http_post w n tok mid msg) = inl e /\
      is_auth_error (PyStr.lower (exc_str e)) = true /\
      is_transient (PyStr.lower (exc_str e)) = false) ->
  forall (l : list nat) (le : option string) (s : State),
  exists r s',
    primary_attempts w mid msg name l true le s = (inr (inr r), s') /\
    reloads_of (trace s') = reloads_of (trace s).
Proof.
  intros Hworld l le s. destruct l as [| a rest].
  - do 2 eexists. split; reflexivity.
  - cbn [primary_attempts]. unfold bind.
    destruct (Hworld (n_posts s) (openrouter_api_key s)) as (e & Hfail & Hauth & Htrans).
    assert (Hno : is_auth_error (PyStr.lower (exc_str e)) && negb true = false)
      by apply andb_false_r.
    destruct (primary_attempt_fails w mid msg name a true s e Hfail Hno)
      as (s1 & Hrun & _ & Hr1 & _).
    rewrite Hrun, Htrans. cbn [fst snd]. do 2 eexists. split; [reflexivity | exact Hr1].
Qed.

(** The retry loop over a primary model that always answers with the
    authentication error tries the reload exactly once. *)
Lemma primary_attempts_reload_once (mid msg name : string) :
  (forall n tok, exists e,
      classify_outcome (w_http_post w n tok mid msg) = inl e /\
      is_auth_error (PyStr.lower (exc_str e)) = true /\
      is_transient (PyStr.lower (exc_str e)) = false) ->
  forall (a : nat) (rest : list nat) (le : option string) (s : State),
  exists r s',
    primary_attempts w mid msg name (a :: rest) false le s = (inr (inr r), s') /\
    reloads_of (trace s') = S (reloads_of (trace s)).
Proof.
  intros Hworld a rest le s.
  cbn [primary_attempts]. unfold bind.
  destruct (Hworld (n_posts s) (openrouter_api_key s)) as (e & Hfail & Hauth & Htrans).
  destruct (primary_attempt_reloads mid msg name a s e Hfail Hauth Htrans)
    as (b & s1 & Hrun & Hr1).
  rewrite Hrun. cbn [fst snd]. destruct b.
  - destruct (primary_attempts_after_reload mid msg name Hworld rest (Some (exc_str e)) s1)
      as (r & s2 & Hrun2 & Hr2).
    rewrite Hrun2. do 2 eexists. split; [reflexivity | congruence].
  - do 2 eexists. split; [reflexivity | exact Hr1].
Qed.

Lemma switch_to_run (alt_id : string) (s : State) :
  exists s', switch_to alt_id s = (inr tt, s') /\ trace s' = trace s.
Proof.
  unfold switch_to, set_current_model_setting, bind, gets, modify, ret. cbn [fst snd].
  destruct (settings_manager s); cbn [fst snd]; eexists; split; reflexivity.
Qed.

(** The first walk never makes a request: every turn ends in the
    [NameError] of [hf_api], which is counted, and the state is left as
    it was. *)
Lemma alternate_attempt_run (msg alt_id : string) (alt_info : Json) (s : State) :
  alternate_attempt w msg alt_id alt_info s = (inr (inr true), s).
Proof. reflexivity. Qed.

Lemma alternates_walk_run (cap : Z) (msg : string) (alts : list (string * Json)) :
  forall (tried : Z) (s : State),
  exists tried', alternates_walk w cap msg alts tried s = (inr (inr tried'), s).
Proof.
  induction alts as [| [alt_id alt_info] rest IH]; intros tried s.
  - eexists. reflexivity.
  - cbn [alternates_walk]. destruct (cap <=? tried)%Z.
    + eexists. reflexivity.
    + unfold bind. rewrite alternate_attempt_run. cbn [fst snd]. apply IH.
Qed.

Lemma direct_walk_reloads (cap : Z) (mid msg : string) (ui : list (string * Json))
    (l : list string) (tried : Z) (s : State) :
  reloads_of (trace (snd (direct_walk w cap mid msg ui l tried s))) = reloads_of (trace s).
Proof.
  induction l as [| alt_id rest IH]; [reflexivity |].
  cbn [direct_walk].
  destruct (String.eqb alt_id mid || (cap <=? tried)%Z); [exact IH |].
  unfold bind, direct_attempt, catch, bind. rewrite query_model_run.
  destruct (classify_outcome _) as [e | text]; cbn [fst snd].
  - unfold raise. cbn [snd]. simpl. rewrite reloads_of_app.
    unfold reloads_of. simpl. lia.
  - match goal with
    | |- context [switch_to alt_id ?s1] =>
        destruct (switch_to_run alt_id s1) as (s2 & Hsw & Htr); rewrite Hsw
    end.
    cbn [fst snd]. unfold ret. cbn [snd]. rewrite Htr. simpl.
    rewrite reloads_of_app. unfold reloads_of. simpl. lia.
Qed.

(** The alternates block always returns and reloads nothing. *)
Lemma try_alternates_run (mid msg : string) (le : option string) (s : State) :
  exists r s',
    try_alternates w mid msg le s = (inr r, s') /\
    reloads_of (trace s') = reloads_of (trace s).
Proof.
  unfold try_alternates, catch.
  match goal with
  | |- context [match ?m s with _ => _ end] =>
      assert (H : reloads_of (trace (snd (m s))) = reloads_of (trace s));
      [| destruct (m s) as [[e | r] s']; cbn [snd] in H; do 2 eexists;
         (split; [reflexivity | exact H])]
  end.
  unfold bind, gets. cbn [fst snd].
  destruct (recovery_settings (settings_manager s)) as [[[auto_fb cap] ignore] raw].
  destruct (auto_fb && (0 <? cap)%Z && _); [| reflexivity].
  destruct (alternates_walk_run cap msg (build_alt_models (settings_manager s) mid raw) 0%Z s)
    as (tried & Hwalk).
  rewrite Hwalk. cbn [fst snd].
  destruct (tried <? cap)%Z; [| reflexivity].
  destruct (build_direct_list _ _ _); [| reflexivity].
  destruct (priority_of raw); [| reflexivity].
  apply direct_walk_reloads.
Qed.


Lemma retry_attempts_positive (sm : option SettingsManager) :
  (0 < retry_attempts_of sm)%Z.
Proof.
  unfold retry_attempts_of. destruct sm as [m |]; [| lia].
  destruct (PyVal.py_int _) as [n |]; [| lia].
  destruct (0 <? n)%Z eqn:E; [apply Z.ltb_lt in E |]; lia.
Qed.

Lemma seq_attempts (n : Z) :
  (0 < n)%Z -> exists rest, seq 0 (Z.to_nat n) = 0%nat :: rest.
Proof.
  intros H. destruct (Z.to_nat n) as [| k] eqn:E; [lia |].
  eexists. reflexivity.
Qed.

(** When every request to the remote primary model is refused with
    HTTP 401 or 403, a call of [call_ai_api] whose message reaches the
    model tries to reload the OpenRouter token from the environment
    exactly once, whatever the number of retries configured and whether
    or not the reload applies a token: the error of these codes is not
    transient, so the loop ends unless the reload applied a token. *)
Theorem auth_recovery_runs_once (message mid : string)
    (esa ecsa : option bool) (srla : option Z) (model_id : option string) (s : State) :
  resolve_model model_id s = mid ->
  is_openrouter_model (lookup_model_info mid) = true ->
  (forall n tok, auth_refused (w_http_post w n tok mid message)) ->
  reaches_model w message esa ecsa srla model_id s ->
  reloads_of (trace (snd (call_ai_api w message esa ecsa srla model_id s)))
  = S (reloads_of (trace s)).
Proof.
  intros Hmid Hremote Hworld Hreach.
  rewrite (call_ai_api_routes _ _ _ _ _ _ _ Hreach), Hmid.
  destruct (after_delay_setup s) as (_ & _ & Hr0).
  rewrite <- Hr0. generalize (after_delay s). clear Hr0 Hreach Hmid s. intros s.
  assert (Hfail : forall n tok, exists e,
             classify_outcome (w_http_post w n tok mid message) = inl e /\
             is_auth_error (PyStr.lower (exc_str e)) = true /\
             is_transient (PyStr.lower (exc_str e)) = false).
  { intros n tok. destruct (classify_auth_refused _ (Hworld n tok)) as (status & E).
    eexists. split; [exact E |]. split; reflexivity. }
  unfold route, catch, bind. rewrite Hremote.
  unfold gets. cbn [fst snd].
  destruct (seq_attempts _ (retry_attempts_positive (settings_manager s))) as (rest & ->).
  destruct (primary_attempts_reload_once mid message
              (info_text (lookup_model_info mid) "name" "") Hfail 0%nat rest None s)
    as (r & s1 & Hrun & Hr1).
  rewrite Hrun. cbn [fst snd].
  destruct (try_alternates_run mid message r s1) as (alt & s2 & Halt & Hr2).
  rewrite Halt. cbn [fst snd].
  destruct alt as [text |].
  - unfold ret. cbn [snd]. congruence.
  - match goal with
    | |- context [generate_response w ?p s2] =>
        destruct (generate_response_run w p s2) as (text & s3 & Hgen & Htrace);
        rewrite Hgen
    end.
    cbn [fst snd]. unfold ret. cbn [snd]. rewrite Htrace. congruence.
Qed.


(** The same bound for any behaviour of the primary model, as long as no
    failure text of its client reads both as an authentication error
    and as a transient one (none of the texts [query_model] itself
    composes for a status code does): the handler reloads at most once,
    and only while no reload has applied a token. *)
Lemma attempt_failed_reload_bound (mid : string) (did : bool) (e : PyExc) (s : State) :
  (is_auth_error (PyStr.lower (exc_str e)) = true ->
   is_transient (PyStr.lower (exc_str e)) = false) ->
  exists c did' s',
    attempt_failed w mid did e s = (inr (inr (c, did', exc_str e)), s') /\
    ((reloads_of (trace s') = reloads_of (trace s) /\ did' = did) \/
     (did = false /\ reloads_of (trace s') = S (reloads_of (trace s)) /\
      (c = Continue -> did' = true))).
Proof.
  intros Hsplit.
  destruct (is_auth_error (PyStr.lower (exc_str e)) && negb did) eqn:E.
  - apply andb_true_iff in E. destruct E as [Ea Ed].
    destruct did; [discriminate |].
    destruct (attempt_failed_reloads w mid e s Ea (Hsplit Ea)) as (b & s' & Hrun & Hr).
    do 3 eexists. split; [exact Hrun |]. right.
    split; [reflexivity | split; [exact Hr |]]. destruct b; [reflexivity | discriminate].
  - destruct (attempt_failed_no_reload w mid did e s E) as (s' & Hrun & Htr & _).
    do 3 eexists. split; [exact Hrun |]. left. split; [congruence | reflexivity].
Qed.

Lemma primary_attempt_reload_bound (mid msg name : string) (a : nat) (did : bool) (s : State) :
  (forall n tok e,
      classify_outcome (w_http_post w n tok mid msg) = inl e ->
      is_auth_error (PyStr.lower (exc_str e)) = true ->
      is_transient (PyStr.lower (exc_str e)) = false) ->
  exists r s',
    primary_attempt w mid msg name a did s = (inr r, s') /\
    match r with
    | inl _ => reloads_of (trace s') = reloads_of (trace s)
    | inr (c, did', _) =>
        (reloads_of (trace s') = reloads_of (trace s) /\ did' = did) \/
        (did = false /\ reloads_of (trace s') = S (reloads_of (trace s)) /\
         (c = Continue -> did' = true))
    end.
Proof.
  intros Hworld.
  destruct (primary_attempt_cases w mid msg name a did s)
    as (s1 & _ & Hr & _ & [(e & Hc & Hrun) | [(r & Hc & Hrun) | [(r & s2 & Hc & Hrun & Htr)
                                                                | (r & s2 & Hc & Hrun & Htr & _)]]]).
  - destruct (attempt_failed_reload_bound mid did e s1 (Hworld _ _ e Hc))
      as (c & did' & s' & Hrun2 & Hcases).
    rewrite Hrun, Hrun2. do 2 eexists. split; [reflexivity |]. rewrite <- Hr. exact Hcases.
  - destruct (attempt_failed_reload_bound mid did
                (PyException "Empty response from OpenRouter model") s1)
      as (c & did' & s' & Hrun2 & Hcases); [discriminate |].
    rewrite Hrun, Hrun2. do 2 eexists. split; [reflexivity |]. rewrite <- Hr. exact Hcases.
  - rewrite Hrun. do 2 eexists. split; [reflexivity |]. congruence.
  - destruct (attempt_failed_reload_bound mid did (KeyError "model_errors") s2)
      as (c & did' & s' & Hrun2 & Hcases); [discriminate |].
    rewrite Hrun, Hrun2. do 2 eexists. split; [reflexivity |].
    rewrite <- Hr, <- Htr. exact Hcases.
Qed.

Lemma primary_attempts_reload_bound (mid msg name : string) :
  (forall n tok e,
      classify_outcome (w_http_post w n tok mid msg) = inl e ->
      is_auth_error (PyStr.lower (exc_str e)) = true ->
      is_transient (PyStr.lower (exc_str e)) = false) ->
  forall (l : list nat) (did : bool) (le : option string) (s : State),
  exists r s',
    primary_attempts w mid msg name l did le s = (inr r, s') /\
    (reloads_of (trace s') <= reloads_of (trace s) + (if did then 0 else 1))%nat.
Proof.
  intros Hworld l.
  induction l as [| a rest IH]; intros did le s.
  - do 2 eexists. split; [reflexivity | lia].
  - cbn [primary_attempts]. unfold bind.
    destruct (primary_attempt_reload_bound mid msg name a did s Hworld)
      as (r & s1 & Hrun & Hcases).
    rewrite Hrun. cbn [fst snd].
    destruct r as [text | [[c did'] err]].
    + do 2 eexists. split; [reflexivity | lia].
    + destruct c.
      * destruct (IH did' (Some err) s1) as (r2 & s2 & Hrun2 & Hle).
        rewrite Hrun2. do 2 eexists. split; [reflexivity |].
        destruct Hcases as [(Hr & ->) | (-> & Hr & Hdid)].
        -- lia.
        -- rewrite (Hdid eq_refl) in Hle. lia.
      * do 2 eexists. split; [reflexivity |].
        destruct Hcases as [(Hr & _) | (-> & Hr & _)]; lia.
Qed.

(** Whatever the primary model answers each time, under the same
    proviso, a call reloads the token at most once. *)
Lemma auth_reload_at_most_once (message mid : string)
    (esa ecsa : option bool) (srla : option Z) (model_id : option string) (s : State) :
  resolve_model model_id s = mid ->
  (forall n tok e,
      classify_outcome (w_http_post w n tok mid message) = inl e ->
      is_auth_error (PyStr.lower (exc_str e)) = true ->
      is_transient (PyStr.lower (exc_str e)) = false) ->
  reaches_model w message esa ecsa srla model_id s ->
  (reloads_of (trace (snd (call_ai_api w message esa ecsa srla model_id s)))
   <= S (reloads_of (trace s)))%nat.
Proof.
  intros Hmid Hworld Hreach.
  rewrite (call_ai_api_routes _ _ _ _ _ _ _ Hreach), Hmid.
  destruct (after_delay_setup s) as (_ & _ & Hr0).
  rewrite <- Hr0. generalize (after_delay s). clear Hr0 Hreach Hmid s. intros s.
  unfold route, catch, bind.
  destruct (is_openrouter_model _).
  - unfold gets. cbn [fst snd].
    match goal with
    | |- context [primary_attempts w mid message ?n ?l false None s] =>
        destruct (primary_attempts_reload_bound mid message n Hworld l false None s)
          as (r & s1 & Hrun & Hle)
    end.
    rewrite Hrun. cbn [fst snd]. destruct r as [text | last_err].
    + unfold ret. cbn [snd]. lia.
    + destruct (try_alternates_run mid message last_err s1) as (alt & s2 & Halt & Hr2).
      rewrite Halt. cbn [fst snd]. destruct alt as [text |].
      * unfold ret. cbn [snd]. lia.
      * match goal with
        | |- context [generate_response w ?p s2] =>
            destruct (generate_response_run w p s2) as (text & s3 & Hgen & Htrace);
            rewrite Hgen
        end.
        cbn [fst snd]. unfold ret. cbn [snd]. rewrite Htrace. lia.
  - destruct (generate_response_run w message s) as (text & s1 & Hgen & Htrace).
    rewrite Hgen. cbn [fst snd].
    destruct (clear_error_run mid s1) as (r & s2 & Hclear & [-> | ->] & Htr2 & _);
      rewrite Hclear; cbn [fst snd]; unfold ret; cbn [snd]; rewrite Htr2, Htrace; lia.
Qed.

(** With no [.env] file and no token in the environment the reload
    applies nothing. *)
Lemma reload_without_token (s : State) :
  w_dotenv w = None ->
  PyDict.get "OPENROUTER_API_KEY" (environ s) = None ->
  exists s',
    reload_openrouter_token_from_env w s = (inr false, s') /\
    trace s' = (trace s ++ [EvReloadToken])%list /\
    same_setup s s'.
Proof.
  intros Hfile Henv.
  unfold reload_openrouter_token_from_env, _load_env_from_dotenv, bind, gets, log, modify, ret.
  rewrite Hfile. cbn [fst snd]. cbn [environ with_trace]. rewrite Henv.
  eexists. split; [reflexivity |]. split; [reflexivity | repeat split].
Qed.

(** The handler on an error that reads both as an authentication error
    and as a transient one, while no reload has applied a token and
    there is none to apply: the reload is tried, and the loop goes on
    with [did_reload_token] still unset. *)
Lemma attempt_failed_reload_fails (mid : string) (e : PyExc) (s : State) :
  is_auth_error (PyStr.lower (exc_str e)) = true ->
  is_transient (PyStr.lower (exc_str e)) = true ->
  w_dotenv w = None ->
  PyDict.get "OPENROUTER_API_KEY" (environ s) = None ->
  exists s',
    attempt_failed w mid false e s = (inr (inr (Continue, false, exc_str e)), s') /\
    reloads_of (trace s') = S (reloads_of (trace s)) /\
    same_setup s s'.
Proof.
  intros Hauth Htrans Hfile Henv. unfold attempt_failed, bind.
  destruct (record_error_run w mid (exc_str e) s) as (s2 & Hrun & Htrace & Hsetup).
  rewrite Hrun. cbn [fst snd]. rewrite Hauth, Htrans. cbn [andb negb].
  destruct (reload_without_token s2 Hfile) as (s3 & Hreload & Htrace3 & Hsetup3).
  { destruct Hsetup as (_ & _ & _ & A & _). congruence. }
  rewrite Hreload. cbn [fst snd]. unfold ret. exists s3.
  split; [reflexivity | split].
  - rewrite Htrace3, reloads_of_app, Htrace. unfold reloads_of at 2. simpl. lia.
  - eapply same_setup_trans; eassumption.
Qed.

(** The retry loop over a primary model whose every failure reads both
    ways, with no token to reload: every attempt tries the reload. *)
Lemma primary_attempts_reload_each (mid msg name : string) :
  (forall n tok, exists e,
      classify_outcome (w_http_post w n tok mid msg) = inl e /\
      is_auth_error (PyStr.lower (exc_str e)) = true /\
      is_transient (PyStr.lower (exc_str e)) = true) ->
  w_dotenv w = None ->
  forall (l : list nat) (le : option string) (s : State),
    PyDict.get "OPENROUTER_API_KEY" (environ s) = None ->
    exists r s',
      primary_attempts w mid msg name l false le s = (inr (inr r), s') /\
      reloads_of (trace s') = (reloads_of (trace s) + List.length l)%nat.
Proof.
  intros Hworld Hfile l.
  induction l as [| a rest IH]; intros le s Henv.
  - do 2 eexists. split; [reflexivity | cbn; lia].
  - cbn [primary_attempts]. unfold bind.
    destruct (Hworld (n_posts s) (openrouter_api_key s)) as (e & Hfail & Hauth & Htrans).
    destruct (primary_attempt_cases w mid msg name a false s)
      as (s1 & _ & Hr & Hsetup & [(e' & Hc & Hrun) | [(r & Hc & _) | [(r & s2 & Hc & _)
                                                                    | (r & s2 & Hc & _)]]]);
      try congruence.
    assert (e' = e) by congruence. subst e'.
    assert (Henv1 : PyDict.get "OPENROUTER_API_KEY" (environ s1) = None).
    { destruct Hsetup as (_ & _ & _ & A & _). congruence. }
    destruct (attempt_failed_reload_fails mid e s1 Hauth Htrans Hfile Henv1)
      as (s2 & Hrun2 & Hr2 & Hsetup2).
    rewrite Hrun, Hrun2. cbn [fst snd].
    assert (Henv2 : PyDict.get "OPENROUTER_API_KEY" (environ s2) = None).
    { destruct Hsetup2 as (_ & _ & _ & A & _). congruence. }
    destruct (IH (Some (exc_str e)) s2 Henv2) as (r & s3 & Hrun3 & Hr3).
    rewrite Hrun3. do 2 eexists. split; [reflexivity |].
    rewrite Hr3, Hr2, Hr. cbn [List.length]. lia.
Qed.

(** C4 (the code departs from it). [did_reload_token] is set only by a
    reload that applied a token.  When the failures of the remote
    primary model read both as an authentication error and as a
    transient one, and there is no token to reload (no [.env] file, none
    in the environment), every attempt of the retry loop tries the
    reload again: a call whose message reaches the model reloads as
    many times as the retry setting gives attempts, twice with the
    default of two. *)
Theorem auth_recovery_repeats_without_a_token (message mid : string)
    (esa ecsa : option bool) (srla : option Z) (model_id : option string) (s : State) :
  resolve_model model_id s = mid ->
  is_openrouter_model (lookup_model_info mid) = true ->
  (forall n tok, exists e,
      classify_outcome (w_http_post w n tok mid message) = inl e /\
      is_auth_error (PyStr.lower (exc_str e)) = true /\
      is_transient (PyStr.lower (exc_str e)) = true) ->
  w_dotenv w = None ->
  PyDict.get "OPENROUTER_API_KEY" (environ s) = None ->
  reaches_model w message esa ecsa srla model_id s ->
  reloads_of (trace (snd (call_ai_api w message esa ecsa srla model_id s)))
  = (reloads_of (trace s) + Z.to_nat (retry_attempts_of (settings_manager s)))%nat.
Proof.
  intros Hmid Hremote Hworld Hfile Henv Hreach.
  rewrite (call_ai_api_routes _ _ _ _ _ _ _ Hreach), Hmid.
  destruct (after_delay_setup s) as (Hs0 & _ & Hr0).
  assert (Hattempts : retry_attempts_of (settings_manager (after_delay s))
                      = retry_attempts_of (settings_manager s)).
  { apply retry_attempts_same. now destruct Hs0 as (_ & _ & H & _). }
  assert (Henv0 : PyDict.get "OPENROUTER_API_KEY" (environ (after_delay s)) = None).
  { destruct Hs0 as (_ & _ & _ & A & _). congruence. }
  rewrite <- Hr0, <- Hattempts.
  set (s0 := after_delay s) in *.
  unfold route, catch, bind. rewrite Hremote.
  unfold gets. cbn [fst snd].
  destruct (primary_attempts_reload_each mid message
              (info_text (lookup_model_info mid) "name" "") Hworld Hfile
              (seq 0 (Z.to_nat (retry_attempts_of (settings_manager s0)))) None s0 Henv0)
    as (r & s1 & Hrun & Hr1).
  rewrite length_seq in Hr1.
  rewrite Hrun. cbn [fst snd].
  destruct (try_alternates_run mid message r s1) as (alt & s2 & Halt & Hr2).
  rewrite Halt. cbn [fst snd].
  destruct alt as [text |].
  - unfold ret. cbn [snd]. congruence.
  - match goal with
    | |- context [generate_response w ?p s2] =>
        destruct (generate_response_run w p s2) as (text & s3 & Hgen & Htrace);
        rewrite Hgen
    end.
    cbn [fst snd]. unfold ret. cbn [snd]. rewrite Htrace. congruence.
Qed.

End AuthRecovery.

(** ** Substrings through [lower] and [strip] *)

Section Substrings.

Lemma prefix_lower (n h : string) :
  String.prefix n h = true -> String.prefix (PyStr.lower n) (PyStr.lower h) = true.
Proof.
  revert h. induction n as [| a n IH]; intros h H.
  - destruct h; reflexivity.
  - destruct h as [| b h]; [discriminate |].
    cbn [String.prefix] in H. cbn [PyStr.lower PyStr.smap String.prefix].
    destruct (Ascii.ascii_dec a b) as [-> |]; [| discriminate].
    destruct (Ascii.ascii_dec _ _); [| congruence].
    apply IH, H.
Qed.

Lemma str_in_lower (n h : string) :
  PyStr.str_in n h = true -> PyStr.str_in (PyStr.lower n) (PyStr.lower h) = true.
Proof.
  induction h as [| b h IH]; cbn [PyStr.str_in]; intros H.
  - apply orb_true_iff in H. destruct H as [H | H]; [| discriminate].
    apply prefix_lower in H. cbn [PyStr.lower PyStr.smap PyStr.str_in].
    cbn [PyStr.lower PyStr.smap] in H. now rewrite H.
  - apply orb_true_iff in H.
    change (PyStr.lower (String b h)) with (String (PyStr.lower_char b) (PyStr.lower h)).
    cbn [PyStr.str_in]. apply orb_true_iff. destruct H as [H | H].
    + left. apply (prefix_lower n (String b h) H).
    + right. apply IH, H.
Qed.

Lemma str_in_lstrip (n h : string) :
  starts_solid n = true ->
  PyStr.str_in n h = true -> PyStr.str_in n (PyStr.lstrip_by PyStr.is_space h) = true.
Proof.
  intros Hn. induction h as [| b h IH]; cbn [PyStr.lstrip_by]; [auto |].
  intros H. destruct (PyStr.is_space b) eqn:Eb; [| exact H].
  apply IH. cbn [PyStr.str_in] in H. apply orb_true_iff in H.
  destruct H as [H | H]; [| exact H].
  exfalso. destruct n as [| a n]; [discriminate |].
  cbn [String.prefix] in H. destruct (Ascii.ascii_dec a b) as [-> |]; [| discriminate].
  cbn [starts_solid] in Hn. rewrite Eb in Hn. discriminate.
Qed.

Lemma prefix_nonempty (n h : string) :
  n <> EmptyString -> String.prefix n h = true -> h <> EmptyString.
Proof. destruct n, h; cbn; congruence. Qed.

Lemma str_in_nonempty (n h : string) :
  n <> EmptyString -> PyStr.str_in n h = true -> h <> EmptyString.
Proof.
  intros Hn H. destruct h; [| discriminate].
  cbn in H. destruct n; [congruence | discriminate].
Qed.

Lemma ends_solid_nonempty (n : string) : ends_solid n = true -> n <> EmptyString.
Proof. destruct n; cbn; congruence. Qed.

Lemma prefix_rstrip (n : string) :
  ends_solid n = true ->
  forall h, String.prefix n h = true ->
            String.prefix n (PyStr.rstrip_by PyStr.is_space h) = true.
Proof.
  induction n as [| a n IH]; [discriminate |].
  intros Hn h H. destruct h as [| b h]; [discriminate |].
  cbn [String.prefix] in H. destruct (Ascii.ascii_dec a b) as [-> |]; [| discriminate].
  cbn [PyStr.rstrip_by].
  destruct n as [| a' n'].
  - cbn [ends_solid] in Hn. apply negb_true_iff in Hn.
    destruct (PyStr.rstrip_by PyStr.is_space h); rewrite ?Hn; cbn [String.prefix];
      destruct (Ascii.ascii_dec b b); congruence.
  - assert (Hn' : ends_solid (String a' n') = true) by exact Hn.
    specialize (IH Hn' h H).
    pose proof (prefix_nonempty _ _ (ends_solid_nonempty _ Hn') IH) as Hne.
    destruct (PyStr.rstrip_by PyStr.is_space h) as [| c t] eqn:E; [congruence |].
    cbn [String.prefix]. destruct (Ascii.ascii_dec b b); [exact IH | congruence].
Qed.

Lemma str_in_rstrip (n h : string) :
  ends_solid n = true ->
  PyStr.str_in n h = true -> PyStr.str_in n (PyStr.rstrip_by PyStr.is_space h) = true.
Proof.
  intros Hn. induction h as [| b h IH]; [auto |].
  intros H. cbn [PyStr.str_in] in H. apply orb_true_iff in H.
  destruct H as [H | H].
  - apply (prefix_rstrip n Hn) in H.
    destruct (PyStr.rstrip_by PyStr.is_space (String b h)) eqn:E;
      cbn [PyStr.str_in]; rewrite H; reflexivity.
  - specialize (IH H).
    pose proof (str_in_nonempty _ _ (ends_solid_nonempty _ Hn) IH) as Hne.
    cbn [PyStr.rstrip_by].
    destruct (PyStr.rstrip_by PyStr.is_space h) as [| c t] eqn:E; [congruence |].
    cbn [PyStr.str_in]. cbn [PyStr.str_in] in IH. rewrite IH. apply orb_true_r.
Qed.

(** A lower-case needle with no space at either end that occurs in a
    message occurs in [message.lower().strip()] too. *)
Lemma str_in_message_lower (n message : string) :
  PyStr.lower n = n -> starts_solid n = true -> ends_solid n = true ->
  PyStr.str_in n message = true ->
  PyStr.str_in n (PyStr.strip (PyStr.lower message)) = true.
Proof.
  intros Hlow Hs He H. unfold PyStr.strip.
  apply str_in_rstrip; [exact He |].
  apply str_in_lstrip; [exact Hs |].
  rewrite <- Hlow. apply str_in_lower, H.
Qed.

End Substrings.

(** ** Whole calls *)

Section Calls.

Variable w : World.

(** [call_ai_api] is the delay, the dispatch, and [route] for what the
    dispatch hands on. *)
Lemma call_ai_api_run (message : string) (esa ecsa : option bool) (srla : option Z)
    (model_id : option string) (s : State) :
  let adv := advanced_settings s in
  call_ai_api w message esa ecsa srla model_id s
  = match dispatch w
            (match esa with Some b => b | None => enable_search adv end)
            (match ecsa with Some b => b | None => enable_system_commands adv end)
            (match srla with
             | Some n => if (n =? 0)%Z then search_results_limit adv else n
             | None => search_results_limit adv
             end)
            (resolve_model model_id s)
            (PyStr.strip (PyStr.lower message))
            (after_delay s)
    with
    | (inr (Some text), s') => (inr text, s')
    | (inr None, s') => route w (resolve_model model_id s) message s'
    | (inl e, s') => (inl e, s')
    end.
Proof.
  destruct (after_delay_setup s) as ((_ & Hadv & _) & _).
  unfold call_ai_api, bind. rewrite response_delay_stage_run.
  unfold gets at 1. cbn [fst snd]. rewrite Hadv.
  fold (resolve_model model_id s).
  destruct (dispatch _ _ _ _ _ _ _) as [[e | [text |]] s']; reflexivity.
Qed.

Lemma after_delay_reads (s : State) :
  conversation_engine (after_delay s) = conversation_engine s /\
  settings_manager (after_delay s) = settings_manager s /\
  environ (after_delay s) = environ s.
Proof.
  unfold after_delay, response_delay_stage, bind, gets, sleep, log, modify, ret.
  cbn [fst snd]. destruct (Qgtb _ _); repeat split.
Qed.

(** C9. A message that contains ["weather"] and none of the
    model-identity phrases is answered on the weather path, whatever
    else it contains, search keywords included: [call_ai_api] returns
    the text of [get_weather] for the city of the message under the
    name of the selected model, and does nothing but its initial
    delay. *)
Theorem weather_wins_over_search (message : string) (esa ecsa : option bool)
    (srla : option Z) (model_id : option string) (s : State) :
  PyStr.str_in "weather" message = true ->
  PyStr.any_in model_questions (PyStr.strip (PyStr.lower message))
  || PyStr.any_in identity_questions (PyStr.strip (PyStr.lower message)) = false ->
  exists weather_response,
    fst (get_weather w (weather_city (PyStr.strip (PyStr.lower message))) s)
    = inr weather_response /\
    call_ai_api w message esa ecsa srla model_id s
    = (inr (using_suffix weather_response (model_name_of (resolve_model model_id s))),
       after_delay s).
Proof.
  intros Hin Hid.
  apply (str_in_message_lower "weather" message eq_refl eq_refl eq_refl) in Hin.
  rewrite call_ai_api_run. cbv zeta. unfold dispatch. rewrite Hid, Hin.
  unfold bind, ret.
  destruct (get_weather_run w (weather_city (PyStr.strip (PyStr.lower message)))
              (after_delay s)) as (text & Hrun).
  rewrite Hrun. cbn [fst snd]. exists text. split; [| reflexivity].
  destruct (after_delay_reads s) as (He & Hsm & Henv).
  unfold get_weather, bind, gets, ret in Hrun |- *. cbn [fst snd] in Hrun |- *.
  rewrite He, Hsm, Henv in Hrun. congruence.
Qed.

(** When the selected model id is no key of the catalog, the
    descriptor used is that of [local_engine]; with the settings of the
    manager holding their ['model_errors'] entry, a message that
    reaches the model is then answered by the local responder on the
    message as it is, under the local engine's display name, and no
    request is sent. *)
Lemma unknown_model_answers_locally (message mid : string) (esa ecsa : option bool)
    (srla : option Z) (model_id : option string) (s : State) :
  resolve_model model_id s = mid ->
  PyDict.get mid get_available_models = None ->
  errors_key_present s = true ->
  reaches_model w message esa ecsa srla model_id s ->
  lookup_model_info mid = local_engine_info /\
  exists local_response,
    fst (generate_response w message s) = inr local_response /\
    fst (call_ai_api w message esa ecsa srla model_id s)
    = inr (using_suffix local_response "Local Conversation Engine") /\
    queries_of (trace (snd (call_ai_api w message esa ecsa srla model_id s)))
    = queries_of (trace s).
Proof.
  intros Hmid Hunknown Hkey Hreach.
  assert (Hinfo : lookup_model_info mid = local_engine_info).
  { unfold lookup_model_info. now rewrite Hunknown. }
  split; [exact Hinfo |].
  rewrite (call_ai_api_routes _ _ _ _ _ _ _ Hreach), Hmid.
  destruct (after_delay_setup s) as (Hs0 & Hq0 & _).
  destruct (after_delay_reads s) as (_ & Hsm0 & _).
  unfold route, catch, bind. rewrite Hinfo.
  change (is_openrouter_model local_engine_info) with false.
  change (info_text local_engine_info "name" "") with "Local Conversation Engine".
  cbv iota.
  destruct (generate_response_run w message (after_delay s)) as (text & s1 & Hgen & Htrace).
  pose proof (generate_response_manager w message (after_delay s)) as Hsm1.
  rewrite Hgen in Hsm1 |- *. cbn [fst snd] in Hsm1 |- *.
  assert (Hkey1 : errors_key_present s1 = true).
  { unfold errors_key_present in Hkey |- *. now rewrite Hsm1, Hsm0. }
  destruct (clear_error_returns mid s1 Hkey1) as (s2 & Hclear & Htrace2).
  rewrite Hclear. cbn [fst snd]. unfold ret. cbn [fst snd].
  exists text. split; [| split].
  - rewrite (generate_response_text w message s (after_delay s)), Hgen; [reflexivity | |].
    + destruct Hs0 as (A & _). congruence.
    + destruct Hs0 as (_ & _ & _ & _ & A). congruence.
  - reflexivity.
  - rewrite Htrace2, Htrace. exact Hq0.
Qed.

(** C10 (the code departs from it after a reset of the settings).
    When the selected model id is no key of the catalog and the
    settings of the manager have no ['model_errors'] entry, as
    [SettingsDialog.reset_to_defaults] leaves them, a message that
    reaches the model is answered by the local responder, but
    [clear_model_error] then raises [KeyError]: the answer is dropped
    and [call_ai_api] returns the generic text under the local engine's
    display name.  No request is sent. *)
Theorem unknown_model_after_reset_gets_generic_text (message mid : string)
    (esa ecsa : option bool) (srla : option Z) (model_id : option string) (s : State) :
  resolve_model model_id s = mid ->
  PyDict.get mid get_available_models = None ->
  errors_key_present s = false ->
  reaches_model w message esa ecsa srla model_id s ->
  (exists local_response, fst (generate_response w message s) = inr local_response) /\
  fst (call_ai_api w message esa ecsa srla model_id s)
  = inr (using_suffix
           "I'm having trouble connecting to any AI models right now. Please try again later."
           "Local Conversation Engine") /\
  queries_of (trace (snd (call_ai_api w message esa ecsa srla model_id s)))
  = queries_of (trace s).
Proof.
  intros Hmid Hunknown Hkey Hreach.
  assert (Hinfo : lookup_model_info mid = local_engine_info).
  { unfold lookup_model_info. now rewrite Hunknown. }
  rewrite (call_ai_api_routes _ _ _ _ _ _ _ Hreach), Hmid.
  destruct (after_delay_setup s) as (Hs0 & Hq0 & _).
  destruct (after_delay_reads s) as (_ & Hsm0 & _).
  unfold route, catch, bind. rewrite Hinfo.
  change (is_openrouter_model local_engine_info) with false.
  change (info_text local_engine_info "name" "") with "Local Conversation Engine".
  cbv iota.
  destruct (generate_response_run w message (after_delay s)) as (text & s1 & Hgen & Htrace).
  pose proof (generate_response_manager w message (after_delay s)) as Hsm1.
  rewrite Hgen in Hsm1 |- *. cbn [fst snd] in Hsm1 |- *.
  assert (Hkey1 : errors_key_present s1 = false).
  { unfold errors_key_present in Hkey |- *. now rewrite Hsm1, Hsm0. }
  destruct (clear_error_raises mid s1 Hkey1) as (s2 & Hclear & Htrace2).
  rewrite Hclear. cbn [fst snd]. unfold ret. cbn [fst snd].
  split; [| split].
  - exists text.
    rewrite (generate_response_text w message s (after_delay s)), Hgen; [reflexivity | |].
    + destruct Hs0 as (A & _). congruence.
    + destruct Hs0 as (_ & _ & _ & _ & A). congruence.
  - reflexivity.
  - rewrite Htrace2, Htrace. exact Hq0.
Qed.

End Calls.

(** ** Every answer carries its [Using] line *)

Section Suffix.

Variable w : World.

Lemma string_app_assoc (a b c : string) : ((a ++ b) ++ c = a ++ (b ++ c))%string.
Proof. induction a as [| x a IH]; cbn; [reflexivity | now rewrite IH]. Qed.

Lemma using_suffix_has (text name : string) : has_using_suffix (using_suffix text name).
Proof. exists text, name. reflexivity. Qed.

Lemma auto_switched_has (text name : string) : has_using_suffix (auto_switched text name).
Proof.
  exists text, (name ++ " (Auto-switched)"). unfold auto_switched.
  now rewrite (string_app_assoc name " (Auto-switched)" "]").
Qed.

(** An iteration of the retry loop never raises, and what it returns as
    the response ends with the [Using] line. *)
Lemma primary_attempt_run (mid msg name : string) (a : nat) (did : bool) (s : State) :
  exists r s',
    primary_attempt w mid msg name a did s = (inr r, s') /\
    forall text, r = inl text -> has_using_suffix text.
Proof.
  assert (Hfailed : forall e s1, exists r s',
             attempt_failed w mid did e s1 = (inr (inr r), s')).
  { intros e s1.
    destruct (is_auth_error (PyStr.lower (exc_str e)) && negb did) eqn:E.
    - unfold attempt_failed, bind.
      destruct (record_error_run w mid (exc_str e) s1) as (s2 & Hrec & _).
      rewrite Hrec. cbn [fst snd]. rewrite E.
      destruct (reload_run w s2) as (b & s3 & Hrel & _). rewrite Hrel. cbn [fst snd].
      destruct b; [| destruct (negb (is_transient (PyStr.lower (exc_str e))))];
        do 2 eexists; reflexivity.
    - destruct (attempt_failed_no_reload w mid did e s1 E) as (s' & Hrun & _).
      do 2 eexists. exact Hrun. }
  destruct (primary_attempt_cases w mid msg name a did s)
    as (s1 & _ & _ & _ & [(e & _ & Hrun) | [(r & _ & Hrun) | [(r & s2 & _ & Hrun & _)
                                                            | (r & s2 & _ & Hrun & _)]]]);
    rewrite Hrun.
  - destruct (Hfailed e s1) as (r & s' & ->). do 2 eexists. split; [reflexivity | discriminate].
  - destruct (Hfailed (PyException "Empty response from OpenRouter model") s1)
      as (r' & s' & ->).
    do 2 eexists. split; [reflexivity | discriminate].
  - do 2 eexists. split; [reflexivity |]. intros text [= <-]. apply using_suffix_has.
  - destruct (Hfailed (KeyError "model_errors") s2) as (r' & s' & ->).
    do 2 eexists. split; [reflexivity | discriminate].
Qed.

Lemma primary_attempts_run (mid msg name : string) (l : list nat) :
  forall (did : bool) (le : option string) (s : State),
  exists r s',
    primary_attempts w mid msg name l did le s = (inr r, s') /\
    forall text, r = inl text -> has_using_suffix text.
Proof.
  induction l as [| a rest IH]; intros did le s.
  - do 2 eexists. split; [reflexivity | discriminate].
  - cbn [primary_attempts]. unfold bind.
    destruct (primary_attempt_run mid msg name a did s) as (r & s1 & Hrun & Hsuffix).
    rewrite Hrun. cbn [fst snd].
    destruct r as [text | [[[|] did'] err]].
    + do 2 eexists. split; [reflexivity |]. intros t [= <-]. now apply Hsuffix.
    + apply IH.
    + do 2 eexists. split; [reflexivity | discriminate].
Qed.

Lemma direct_walk_suffix (cap : Z) (mid msg : string) (ui : list (string * Json))
    (l : list string) (tried : Z) (s : State) (text : string) (s' : State) :
  direct_walk w cap mid msg ui l tried s = (inr (Some text), s') ->
  has_using_suffix text.
Proof.
  induction l as [| alt_id rest IH]; [discriminate |].
  cbn [direct_walk].
  destruct (String.eqb alt_id mid || (cap <=? tried)%Z); [exact IH |].
  unfold bind, direct_attempt, catch, bind. rewrite query_model_run.
  destruct (classify_outcome _) as [e | resp]; cbn [fst snd]; [discriminate |].
  match goal with
  | |- context [switch_to alt_id ?s1] =>
      destruct (switch_to_run alt_id s1) as (s2 & Hsw & _); rewrite Hsw
  end.
  cbn [fst snd]. unfold ret. intros [= <- _]. apply auto_switched_has.
Qed.

Lemma try_alternates_suffix (mid msg : string) (le : option string) (s : State)
    (text : string) (s' : State) :
  try_alternates w mid msg le s = (inr (Some text), s') -> has_using_suffix text.
Proof.
  unfold try_alternates, catch.
  match goal with
  | |- context [match ?m s with _ => _ end] =>
      assert (H : forall s1, m s = (inr (Some text), s1) -> has_using_suffix text);
      [| destruct (m s) as [[e | r] s1]; [discriminate | intros [= -> _]; eapply H; eauto]]
  end.
  intros s1. unfold bind, gets. cbn [fst snd].
  destruct (recovery_settings (settings_manager s)) as [[[auto_fb cap] ignore] raw].
  destruct (auto_fb && (0 <? cap)%Z && _); [| discriminate].
  destruct (alternates_walk_run w cap msg (build_alt_models (settings_manager s) mid raw) 0%Z s)
    as (tried & Hwalk).
  rewrite Hwalk. cbn [fst snd].
  destruct (tried <? cap)%Z; [| discriminate].
  destruct (build_direct_list _ _ _); [| discriminate].
  destruct (priority_of raw); [| discriminate].
  apply direct_walk_suffix.
Qed.

(** [route] never raises: whatever happens under its [try], the caller
    gets a text that ends with the [Using] line. *)
Lemma route_run (mid msg : string) (s : State) :
  exists text s', route w mid msg s = (inr text, s') /\ has_using_suffix text.
Proof.
  unfold route, catch.
  match goal with
  | |- context [match ?m s with _ => _ end] =>
      assert (H : forall text s1, m s = (inr text, s1) -> has_using_suffix text);
      [| destruct (m s) as [[e | text] s1] eqn:E]
  end.
  - intros text s1.
    destruct (is_openrouter_model _).
    + unfold bind, gets. cbn [fst snd].
      match goal with
      | |- context [primary_attempts w mid msg ?n ?l false None s] =>
          destruct (primary_attempts_run mid msg n l false None s) as (r & s2 & Hrun & Hsuf)
      end.
      rewrite Hrun. cbn [fst snd]. destruct r as [t | last_err].
      * unfold ret. intros [= <- _]. now apply Hsuf.
      * destruct (try_alternates w mid msg last_err s2) as [[e | [t |]] s3] eqn:Ealt;
          cbn [fst snd]; [discriminate | |].
        -- unfold ret. intros [= <- _]. eapply try_alternates_suffix, Ealt.
        -- match goal with
           | |- context [generate_response w ?p s3] =>
               destruct (generate_response_run w p s3) as (t & s4 & Hgen & _); rewrite Hgen
           end.
           cbn [fst snd]. unfold ret. intros [= <- _].
           exists t, "Local Conversation Engine (Fallback)". reflexivity.
    + unfold bind.
      destruct (generate_response_run w msg s) as (t & s2 & Hgen & _). rewrite Hgen.
      cbn [fst snd].
      destruct (clear_error_run mid s2) as (r & s3 & Hclear & [-> | ->] & _);
        rewrite Hclear; cbn [fst snd]; [| discriminate].
      unfold ret. intros [= <- _]. apply using_suffix_has.
  - unfold ret. do 2 eexists. split; [reflexivity | apply using_suffix_has].
  - do 2 eexists. split; [reflexivity |]. eapply H. reflexivity.
Qed.

(** While every process a system command starts does start, the
    dispatch returns, and what it answers ends with the [Using] line. *)
Lemma dispatch_run (search_enabled system_enabled : bool) (limit : Z)
    (current_model ml : string) (s : State) :
  (forall l, w_launch w l = None) ->
  exists r s',
    dispatch w search_enabled system_enabled limit current_model ml s = (inr r, s') /\
    forall text, r = Some text -> has_using_suffix text.
Proof.
  intros Hlaunch. unfold dispatch.
  destruct (PyStr.any_in model_questions ml || PyStr.any_in identity_questions ml).
  { unfold bind, gets, ret. cbn [fst snd]. do 2 eexists. split; [reflexivity |].
    intros text [= <-]. apply using_suffix_has. }
  destruct (PyStr.str_in "weather" ml).
  { unfold bind, ret. destruct (get_weather_run w (weather_city ml) s) as [t E].
    rewrite E. cbn [fst snd]. do 2 eexists. split; [reflexivity |].
    intros text [= <-]. apply using_suffix_has. }
  unfold bind.
  set (name := info_text (lookup_model_info current_model) "name" "").
  assert (Hsearch : exists r,
             search_stage w search_enabled limit ml name s = (inr r, s) /\
             forall text, r = Some text -> has_using_suffix text).
  { unfold search_stage, bind, gets, ret.
    destruct search_enabled.
    - destruct (detect_search ml) as [is_search q].
      repeat match goal with
             | |- context [if ?c then _ else _] => destruct c
             end;
        eexists; (split; [reflexivity |]); intros text H; inversion H;
        apply using_suffix_has.
    - cbn [fst snd].
      repeat match goal with
             | |- context [if ?c then _ else _] => destruct c
             end;
        eexists; (split; [reflexivity |]); intros text H; inversion H;
        apply using_suffix_has. }
  destruct Hsearch as (r & Hrun & Hsuf). rewrite Hrun. cbn [fst snd].
  destruct r as [t |].
  { unfold ret. do 2 eexists. split; [reflexivity |]. exact Hsuf. }
  unfold system_stage, bind, gets, ret.
  destruct system_enabled.
  - destruct (execute_system_command_cases w ml s)
      as [E | [(t & s' & E & Hne) | (l & e & s' & Hl & E)]].
    + rewrite E. cbn [fst snd]. do 2 eexists. split; [reflexivity | discriminate].
    + rewrite E. cbn [fst snd]. rewrite Hne. do 2 eexists. split; [reflexivity |].
      intros text [= <-]. apply using_suffix_has.
    + rewrite Hlaunch in Hl. discriminate.
  - cbn [fst snd]. destruct (PyStr.any_in _ ml); cbn [fst snd];
      do 2 eexists; (split; [reflexivity |]); intros text H; inversion H.
    apply using_suffix_has.
Qed.

(** While every process a system command asks for can be started,
    [call_ai_api] returns, for every message, every selected model and
    every setting of its optional arguments, a text that ends with a
    ["[Using: ...]"] line, and raises nothing; the stage that calls the
    models never raises by itself. *)
Theorem call_ai_api_returns_when_launches_succeed (message : string)
    (esa ecsa : option bool) (srla : option Z) (model_id : option string) (s : State) :
  (forall l, w_launch w l = None) ->
  exists text,
    fst (call_ai_api w message esa ecsa srla model_id s) = inr text /\
    has_using_suffix text.
Proof.
  intros Hlaunch. rewrite call_ai_api_run. cbv zeta.
  match goal with
  | |- context [dispatch w ?a ?b ?c ?d ?e ?f] =>
      destruct (dispatch_run a b c d e f Hlaunch) as (r & s1 & Hrun & Hsuf)
  end.
  rewrite Hrun. destruct r as [text |].
  - exists text. split; [reflexivity | apply Hsuf; reflexivity].
  - destruct (route_run (resolve_model model_id s) message s1) as (text & s2 & Hroute & H).
    rewrite Hroute. exists text. split; [reflexivity | exact H].
Qed.

End Suffix.

(** ** The theorems at sample inputs *)

Section Samples.

Import Sample.

(** C6 at six turns into a memory of five: the first turn is gone. *)
Lemma memory_bound_fifo_witness :
  Z.of_nat (List.length (context_memory (run_turns engine_of_five six_turns))) = 5%Z /\
  context_memory (run_turns engine_of_five six_turns)
  = skipn 1 (map turn_entry six_turns) /\
  max_memory (run_turns engine_of_five six_turns) = 5%Z.
Proof.
  apply (memory_bound_fifo engine_of_five six_turns); vm_compute; [discriminate | reflexivity].
Defined.

(** C7 at an engine with a profile, loaded into a fresh engine. *)
Lemma save_load_round_trip_witness :
  context_memory (load_from_dict (engine_init (7 # 10)) (to_dict engine_with_profile))
  = context_memory engine_with_profile /\
  user_profile (load_from_dict (engine_init (7 # 10)) (to_dict engine_with_profile))
  = user_profile engine_with_profile /\
  max_memory (load_from_dict (engine_init (7 # 10)) (to_dict engine_with_profile))
  = max_memory engine_with_profile.
Proof.
  apply (save_load_round_trip (engine_init (7 # 10)) engine_with_profile);
    vm_compute; [split |]; discriminate.
Defined.

(** C8 at creativity 0.2 and a greeting. *)
Lemma low_creativity_deterministic_witness :
  exists tiers candidates first,
    PyDict.get (matched_category
                  (analyze_intent (conversation_engine (state_of (2 # 10) None)) "Hello Luna"))
               response_patterns = Some tiers /\
    PyDict.get "conservative" tiers = Some candidates /\
    nth_error candidates 0 = Some first /\
    forall w : World,
      fst (generate_response w "Hello Luna" (state_of (2 # 10) None)) = inr first.
Proof.
  apply (low_creativity_deterministic (state_of (2 # 10) None) "Hello Luna").
  vm_compute. discriminate.
Defined.

(** C3 at a rate-limited world and three configured retries. *)
Lemma rate_limited_primary_three_attempts_witness :
  exists local_response,
    fst (generate_response world_rate_limited
           ("[SYSTEM: OpenRouter model error: HF rate limit exceeded] " ++ "tell me a story")
           (state_of (2 # 10) (Some manager_three_retries)))
    = inr local_response /\
    fst (call_ai_api world_rate_limited "tell me a story" None None None (Some primary_id)
           (state_of (2 # 10) (Some manager_three_retries)))
    = inr (local_response ++ PyStr.newline ++ PyStr.newline
           ++ "[Using: Local Conversation Engine (Fallback)]") /\
    queries_of (trace (snd (call_ai_api world_rate_limited "tell me a story" None None None
                              (Some primary_id)
                              (state_of (2 # 10) (Some manager_three_retries)))))
    = (queries_of (trace (state_of (2 # 10) (Some manager_three_retries)))
       ++ [primary_id; primary_id; primary_id])%list.
Proof.
  apply (rate_limited_primary_three_attempts world_rate_limited "tell me a story" primary_id
           None None None (Some primary_id) (state_of (2 # 10) (Some manager_three_retries))
           manager_three_retries);
    try reflexivity.
  intros n tok. eexists. repeat split; reflexivity.
Defined.

(** One reload at a world that refuses every request with a 401, with
    a token to reload. *)
Lemma auth_recovery_runs_once_witness :
  reloads_of (trace (snd (call_ai_api world_unauthorized "tell me a story" None None None
                            (Some primary_id) (state_of (2 # 10) None))))
  = S (reloads_of (trace (state_of (2 # 10) None))).
Proof.
  apply (auth_recovery_runs_once world_unauthorized "tell me a story" primary_id
           None None None (Some primary_id) (state_of (2 # 10) None));
    try reflexivity.
  intros n tok. do 2 eexists. split; [reflexivity |]. split; [left; reflexivity |].
  split; reflexivity.
Defined.


(** C9 at a message that also asks to search. *)
Lemma weather_wins_over_search_witness :
  exists weather_response,
    fst (get_weather world_sunny
           (weather_city (PyStr.strip (PyStr.lower "Search the weather in New York")))
           state_with_weather_key)
    = inr weather_response /\
    call_ai_api world_sunny "Search the weather in New York" None None None None
      state_with_weather_key
    = (inr (using_suffix weather_response
              (model_name_of (resolve_model None state_with_weather_key))),
       after_delay state_with_weather_key).
Proof.
  apply (weather_wins_over_search world_sunny "Search the weather in New York"
           None None None None state_with_weather_key); reflexivity.
Defined.

(** A model id the catalog does not have, with the settings as
    [SettingsManager.__init__] leaves them. *)
Lemma unknown_model_answers_locally_witness :
  lookup_model_info "mystery/model" = local_engine_info /\
  exists local_response,
    fst (generate_response world_rate_limited "tell me a story" (state_of (2 # 10) None))
    = inr local_response /\
    fst (call_ai_api world_rate_limited "tell me a story" None None None
           (Some "mystery/model") (state_of (2 # 10) None))
    = inr (using_suffix local_response "Local Conversation Engine") /\
    queries_of (trace (snd (call_ai_api world_rate_limited "tell me a story" None None None
                              (Some "mystery/model") (state_of (2 # 10) None))))
    = queries_of (trace (state_of (2 # 10) None)).
Proof.
  apply (unknown_model_answers_locally world_rate_limited "tell me a story" "mystery/model"
           None None None (Some "mystery/model") (state_of (2 # 10) None)); reflexivity.
Defined.

(** C1 (the code departs from it). Asked to open the notepad where the
    program cannot be started, [call_ai_api] lets the [OSError] of the
    launch through to its caller: [execute_system_command] runs before
    the [try] of the function, and only its screenshot branch guards
    the process it starts. *)
Lemma call_ai_api_raises_on_failed_launch :
  fst (call_ai_api world_no_programs "open notepad" None None None None
         (state_of (2 # 10) None))
  = inl (OSError "[Errno 2] No such file or directory").
Proof. vm_compute. reflexivity. Qed.

(** The same request in a world where programs start. *)
Lemma call_ai_api_returns_when_launches_succeed_witness :
  exists text,
    fst (call_ai_api world_sunny "open notepad" None None None None
           (state_of (2 # 10) None)) = inr text /\
    has_using_suffix text.
Proof.
  apply (call_ai_api_returns_when_launches_succeed world_sunny "open notepad"
           None None None None (state_of (2 # 10) None)).
  intros l. reflexivity.
Defined.

(** The empty message is one [call_ai_api] does hand to
    [set_model_error]: after a request that timed out without a message
    the cache holds the status ['error'] with an empty error text. *)
Lemma empty_error_reaches_the_cache :
  option_map
    (fun m => (Settings.get_model_status m primary_id,
               option_map er_error (Settings.get_model_error m primary_id)))
    (settings_manager
       (snd (call_ai_api world_silent_timeout "tell me a story" None None None
               (Some primary_id) (state_of (2 # 10) (Some (manager_of []))))))
  = Some ("error", Some "").
Proof. vm_compute. reflexivity. Qed.

(** C2 (the code departs from it). With a cap of two alternate attempts
    and three alternates of which the first is gone (404), the walk over
    the alternates requests none of them: each turn stops at the
    undefined name [hf_api], is counted as a failed attempt, and the cap
    is reached before any request; the only request of the call is the
    one to the primary model, and the answer is the local fallback.  And
    where the second walk does request an alternate (no settings
    manager, hence a cap of three over the two alternates of the
    built-in catalog), its 404 is not skipped: the undefined
    [OpenRouterRequestError] ends the walk, and the alternate that would
    have answered is never requested. *)
Theorem alternates_walk_defeated_by_undefined_names :
  (let r := call_ai_api world_alternates "tell me a story" None None None (Some primary_id)
              (state_of (2 # 10) (Some manager_cap_two)) in
   queries_of (trace (snd r)) = [primary_id] /\
   fst r = inr ("I see. What would you like to know about that?" ++ PyStr.newline
                ++ PyStr.newline ++ "[Using: Local Conversation Engine (Fallback)]")) /\
  (let r := call_ai_api world_alternates "tell me a story" None None None (Some primary_id)
              (state_of (2 # 10) None) in
   queries_of (trace (snd r)) = [primary_id; primary_id; "openai/gpt-oss-20b:free"] /\
   fst r = inr ("I see. What would you like to know about that?" ++ PyStr.newline
                ++ PyStr.newline ++ "[Using: Local Conversation Engine (Fallback)]")).
Proof. vm_compute. repeat split. Qed.

End Samples.

(** ** The memory bound under resizing and loading *)

Section MemoryBound.

Lemma last_slice_keep_last {A : Type} (k : Z) (l : list A) :
  (0 < k)%Z -> PyVal.last_slice k l = keep_last (Z.to_nat k) l.
Proof.
  intros Hk. unfold PyVal.last_slice, keep_last.
  destruct (Z.eqb_spec k 0) as [-> | _]; [lia |].
  destruct (Z.ltb_spec 0 k); [reflexivity | lia].
Qed.

(** What [trim_memory] leaves under a positive bound: the most recent
    entries, as many as the bound allows. *)
Lemma trim_memory_keep_last (e : LocalConversationEngine) :
  (0 < max_memory e)%Z ->
  max_memory (trim_memory e) = max_memory e /\
  user_profile (trim_memory e) = user_profile e /\
  creativity_level (trim_memory e) = creativity_level e /\
  context_memory (trim_memory e) = keep_last (Z.to_nat (max_memory e)) (context_memory e) /\
  (Z.of_nat (List.length (context_memory (trim_memory e))) <= max_memory e)%Z.
Proof.
  intros Hpos. unfold trim_memory.
  destruct (Z.ltb_spec (max_memory e) (Z.of_nat (List.length (context_memory e)))) as [Hlt | Hge].
  - cbn [with_memory max_memory user_profile creativity_level context_memory].
    rewrite (last_slice_keep_last _ _ Hpos).
    repeat split. rewrite keep_last_length; lia.
  - repeat split; [| exact Hge].
    symmetry. apply keep_last_short. lia.
Qed.

(** X1. [set_memory_size] always leaves a bound between 5 and 50,
    whatever size is asked for, and a memory made of the most recent
    entries that fit under it. *)
Theorem set_memory_size_keeps_most_recent (e : LocalConversationEngine) (size : Z) :
  (5 <= max_memory (set_memory_size e size) <= 50)%Z /\
  context_memory (set_memory_size e size)
  = keep_last (Z.to_nat (max_memory (set_memory_size e size))) (context_memory e) /\
  (Z.of_nat (List.length (context_memory (set_memory_size e size)))
   <= max_memory (set_memory_size e size))%Z /\
  user_profile (set_memory_size e size) = user_profile e.
Proof.
  unfold set_memory_size.
  set (e1 := {| creativity_level := creativity_level e;
                context_memory := context_memory e;
                max_memory := Z.max 5 (Z.min 50 size);
                user_profile := user_profile e |}).
  assert (Hpos : (0 < max_memory e1)%Z) by (cbn; lia).
  destruct (trim_memory_keep_last e1 Hpos) as (Hmax & Hprof & _ & Hmem & Hlen).
  rewrite Hmem in Hlen. rewrite Hmax, Hmem, Hprof.
  cbn [max_memory context_memory user_profile e1] in *.
  repeat split; try lia; try reflexivity.
Qed.

(** The fields [load_from_dict] ends with, before its trimming. *)
Lemma load_from_dict_bound (e : LocalConversationEngine) (data : Json) :
  (5 <= max_memory e <= 50)%Z ->
  exists e3,
    load_from_dict e data = trim_memory e3 /\ (5 <= max_memory e3 <= 50)%Z.
Proof.
  intros Hb. unfold load_from_dict.
  set (e1 := match field_or data "context_memory" (JList []) with
             | JList l => with_memory e l
             | _ => e
             end).
  assert (H1 : max_memory e1 = max_memory e).
  { unfold e1. destruct (field_or data "context_memory" (JList [])); reflexivity. }
  set (e2 := match field_or data "user_profile" (JDict []) with
             | JDict p => _
             | _ => e1
             end).
  assert (H2 : max_memory e2 = max_memory e).
  { unfold e2. destruct (field_or data "user_profile" (JDict [])); exact H1. }
  eexists. split; [reflexivity |].
  destruct (PyVal.py_int _); cbn [max_memory]; lia.
Qed.

(** X2. Whatever [load_from_dict] is given, an engine whose bound was
    between 5 and 50 comes out with a bound between 5 and 50 and a
    memory within it. *)
Theorem load_from_dict_keeps_memory_in_bound (e : LocalConversationEngine) (data : Json) :
  (5 <= max_memory e <= 50)%Z ->
  memory_in_bound (load_from_dict e data).
Proof.
  intros Hb. destruct (load_from_dict_bound e data Hb) as (e3 & -> & Hb3).
  assert (Hpos : (0 < max_memory e3)%Z) by lia.
  destruct (trim_memory_keep_last e3 Hpos) as (Hmax & _ & _ & _ & Hlen).
  unfold memory_in_bound. rewrite Hmax. split; assumption.
Qed.

Lemma trim_memory_empty (e : LocalConversationEngine) :
  context_memory e = [] ->
  context_memory (trim_memory e) = [] /\ user_profile (trim_memory e) = user_profile e.
Proof.
  intros He. unfold trim_memory.
  destruct (max_memory e <? _)%Z; [| split; [exact He | reflexivity]].
  cbn [with_memory context_memory user_profile]. rewrite He.
  unfold PyVal.last_slice.
  destruct (max_memory e =? 0)%Z; [split; reflexivity |].
  destruct (0 <? max_memory e)%Z; rewrite skipn_nil; split; reflexivity.
Qed.

(** X3. A dict that lacks ['context_memory'] and ['user_profile'] does
    not leave the engine as it was: [load_from_dict] empties the memory
    and the profile, the defaults of its two [get] calls being a list
    and a dict. *)
Theorem load_from_dict_missing_keys_reset (e : LocalConversationEngine)
    (d : list (string * Json)) :
  PyDict.get "context_memory" d = None ->
  PyDict.get "user_profile" d = None ->
  context_memory (load_from_dict e (JDict d)) = [] /\
  user_profile (load_from_dict e (JDict d)) = [].
Proof.
  intros Hm Hp. unfold load_from_dict, field_or. rewrite Hm, Hp.
  cbn [with_memory context_memory max_memory user_profile creativity_level].
  match goal with
  | |- context_memory (trim_memory ?e3) = _ /\ _ =>
      assert (H3 : context_memory e3 = [] /\ user_profile e3 = [])
  end.
  { destruct (PyDict.get "max_memory" d) as [v |];
      [destruct (PyVal.py_int v) | cbn [PyVal.py_int]]; split; reflexivity. }
  destruct H3 as (H3 & H4).
  destruct (trim_memory_empty _ H3) as (-> & ->). split; [reflexivity | exact H4].
Qed.

(** Loading what [to_dict] gave restores the three saved fields and
    keeps the creativity level of the engine loaded into. *)
Lemma load_from_dict_to_dict (e0 e : LocalConversationEngine) :
  memory_in_bound e ->
  load_from_dict e0 (to_dict e)
  = {| creativity_level := creativity_level e0;
       context_memory := context_memory e;
       max_memory := max_memory e;
       user_profile := user_profile e |}.
Proof.
  intros (Hb & Hlen). unfold load_from_dict, to_dict, field_or.
  cbn [PyDict.get String.eqb Ascii.eqb Bool.eqb PyVal.py_int
       with_memory context_memory max_memory user_profile creativity_level].
  replace (Z.max 5 (Z.min 50 (max_memory e))) with (max_memory e) by lia.
  unfold trim_memory. cbn [context_memory max_memory].
  destruct (Z.ltb_spec (max_memory e) (Z.of_nat (List.length (context_memory e))));
    [lia | reflexivity].
Qed.

End MemoryBound.

(** ** The local responder at any creativity *)

Section Responder.

Variable w : World.

Lemma randbelow_lt (rng : Rng) (k bound : nat) :
  (0 < bound)%nat -> (randbelow rng k bound < bound)%nat.
Proof. intros H. unfold randbelow. apply Nat.mod_upper_bound. lia. Qed.

Lemma bisect_le (cum : list Z) (x : Q) (hi : nat) : (bisect cum x hi <= hi)%nat.
Proof.
  unfold bisect.
  eapply Nat.le_trans; [apply filter_length_le |].
  apply firstn_le_length.
Qed.

Lemma choices_member (rng : Rng) (k : nat) (first : string) (others : list string)
    (weights : list Z) :
  In (choices rng k (first :: others) weights) (first :: others).
Proof.
  unfold choices. apply nth_In.
  eapply Nat.le_lt_trans; [apply bisect_le |]. cbn [List.length]. lia.
Qed.

(** Up to creativity 0.8 [select_response] returns one of the candidates
    it is given. *)
Lemma select_response_member (rng : Rng) (k : nat) (e : LocalConversationEngine)
    (first : string) (others : list string) :
  Qleb (creativity_level e) (8 # 10) = true ->
  In (fst (select_response rng k e (first :: others))) (first :: others).
Proof.
  intros H8. unfold select_response.
  destruct (Qleb (creativity_level e) (3 # 10)); [left; reflexivity |].
  destruct (Qleb (creativity_level e) (5 # 10)); [apply choices_member |].
  destruct (Qleb (creativity_level e) (7 # 10)); [apply choices_member |].
  rewrite H8. apply choices_member.
Qed.

Lemma creativity_tier_range (e : LocalConversationEngine) :
  In (get_creativity_tier e) ["conservative"; "balanced"; "creative"].
Proof.
  unfold get_creativity_tier.
  destruct (Qleb _ _); [simpl; auto |].
  destruct (Qleb _ _); simpl; auto.
Qed.

(** At every intent and tier the candidates are the list the patterns
    table holds for the matched category and the tier, and there is a
    first one. *)
Lemma candidates_of_the_table (intent tier : string) :
  In intent ["greetings"; "how_are_you"; "thanks"; "compliments"; "capabilities";
             "farewells"; "confused"; "default"] ->
  In tier ["conservative"; "balanced"; "creative"] ->
  exists tiers first others,
    PyDict.get (matched_category intent) response_patterns = Some tiers /\
    PyDict.get tier tiers = Some (first :: others) /\
    candidate_responses intent tier = first :: others.
Proof.
  intros Hi Ht. simpl in Hi, Ht.
  repeat (destruct Ht as [Ht | Ht]; [subst tier |]); [| | | contradiction];
    repeat (destruct Hi as [Hi | Hi];
            [subst intent; do 3 eexists; repeat split; reflexivity |]);
    contradiction.
Qed.

(** What [generate_response] does to the state and what it returns: the
    selected response is remembered, the profile is written when the
    setting asks for it and the disk allows it, and only above 0.8 can a
    flourish follow the response in the text returned. *)
Lemma generate_response_effect (message : string) (s : State) :
  let e := conversation_engine s in
  let response :=
    fst (select_response (w_rng w) (n_draws s) e
           (candidate_responses (analyze_intent e message) (get_creativity_tier e))) in
  exists text s',
    generate_response w message s = (inr text, s') /\
    conversation_engine s' = add_to_memory e message response (w_now_iso w (n_ticks s)) /\
    profile_file s'
    = (if remember_local_profile (advanced_settings s) && w_profile_writable w
       then Some (to_dict (conversation_engine s'))
       else profile_file s) /\
    (text = response \/
     (Qgtb (creativity_level e) (8 # 10) = true /\
      exists f, In f flourishes /\ text = response ++ f)).
Proof.
  intros e response. subst response e.
  unfold generate_response, bind, gets, modify, now_iso, save_to_disk, ret.
  cbn [fst snd].
  destruct (select_response _ _ _ _) as [response k'].
  cbn [fst snd conversation_engine advanced_settings n_ticks with_draws with_ticks
       with_engine].
  assert (Hf : forall j, In (nth (randbelow (w_rng w) j (List.length flourishes)) flourishes "")
                            flourishes).
  { intros j. apply nth_In. apply randbelow_lt. cbn. lia. }
  destruct (remember_local_profile (advanced_settings s)); cbn [fst snd andb];
    [destruct (w_profile_writable w) |];
    (destruct (Qgtb (creativity_level (conversation_engine s)) (8 # 10)) eqn:Hhigh;
     [destruct (Qltb _ _) |]);
    cbn [fst snd];
    do 2 eexists; (split; [reflexivity |]);
    (split; [reflexivity |]); (split; [reflexivity |]);
    first [left; reflexivity
          | right; split; [reflexivity | eexists; split; [apply Hf | reflexivity]]].
Qed.

(** X4. Up to creativity 0.8 the text [generate_response] returns is
    always one of the candidates that the patterns table lists for the
    category matched by the message's intent and for the engine's tier,
    whatever the random draws. *)
Theorem generate_response_picks_a_candidate (s : State) (message : string) :
  (creativity_level (conversation_engine s) <= 8 # 10)%Q ->
  exists tiers candidates text,
    PyDict.get (matched_category (analyze_intent (conversation_engine s) message))
               response_patterns = Some tiers /\
    PyDict.get (get_creativity_tier (conversation_engine s)) tiers = Some candidates /\
    fst (generate_response w message s) = inr text /\
    In text candidates.
Proof.
  intros Hlevel.
  destruct (candidates_of_the_table _ _
              (analyze_intent_range (conversation_engine s) message)
              (creativity_tier_range (conversation_engine s)))
    as (tiers & first & others & Htiers & Htier & Hcands).
  destruct (generate_response_effect message s) as (text & s' & Hrun & _ & _ & Htext).
  exists tiers, (first :: others), text.
  split; [exact Htiers | split; [exact Htier | split; [now rewrite Hrun |]]].
  destruct Htext as [-> | (Hhigh & _)].
  - rewrite Hcands. apply select_response_member. now apply Qleb_true_iff.
  - rewrite (Qgtb_false_of_le _ _ Hlevel) in Hhigh. discriminate.
Qed.




(** X6. What [generate_response] saved is what a new process loads:
    with the profile remembered and the file writable, an engine created
    afresh that runs [load_from_disk] has the memory, the profile and
    the bound of the engine that answered. *)
Theorem saved_profile_loads_back (s : State) (message : string) (level : Q) :
  w_profile_writable w = true ->
  remember_local_profile (advanced_settings s) = true ->
  memory_in_bound (conversation_engine s) ->
  let saved := snd (generate_response w message s) in
  conversation_engine (snd (load_from_disk (with_engine saved (engine_init level))))
  = {| creativity_level := level;
       context_memory := context_memory (conversation_engine saved);
       max_memory := max_memory (conversation_engine saved);
       user_profile := user_profile (conversation_engine saved) |}.
Proof.
  intros Hdisk Hremember (Hb & Hlen) saved. subst saved.
  destruct (generate_response_effect message s) as (text & s' & Hrun & Heng & Hfile & _).
  rewrite Hrun. cbn [snd]. rewrite Hremember, Hdisk in Hfile. cbn [andb] in Hfile.
  unfold load_from_disk, modify. cbn [snd].
  cbn [profile_file with_engine]. rewrite Hfile. unfold to_dict at 1.
  fold (to_dict (conversation_engine s')).
  cbn [with_engine conversation_engine].
  apply load_from_dict_to_dict.
  rewrite Heng. split.
  - now rewrite add_to_memory_max.
  - now apply add_to_memory_bounded.
Qed.

End Responder.

(** ** The environment file and the token *)

Section Token.

Variable w : World.

Lemma dict_get_set_other {V : Type} (k k' : string) (v : V) (d : list (string * V)) :
  k <> k' -> PyDict.get k (PyDict.set k' v d) = PyDict.get k d.
Proof.
  intros Hne. induction d as [| [k0 v0] d IH]; cbn [PyDict.set PyDict.get].
  - destruct (String.eqb_spec k k'); [contradiction | reflexivity].
  - destruct (String.eqb_spec k' k0) as [-> | Hk0]; cbn [PyDict.get].
    + destruct (String.eqb_spec k k0); [contradiction | reflexivity].
    + destruct (String.eqb_spec k k0); [reflexivity | exact IH].
Qed.

Lemma load_env_line_keeps (env : list (string * string)) (raw key v : string) :
  PyDict.get key env = Some v -> PyDict.get key (load_env_line env raw) = Some v.
Proof.
  intros Hget. unfold load_env_line.
  destruct (negb _ || String.prefix "#" _); [exact Hget |].
  destruct (negb _); [exact Hget |].
  destruct (PyStr.split1 "=" _) as [| k [| val [| ? ?]]]; try exact Hget.
  destruct (PyStr.nonempty (PyStr.strip k) && _ && negb (PyDict.mem (PyStr.strip k) env))
    eqn:Hc; [| exact Hget].
  apply andb_true_iff in Hc. destruct Hc as [_ Hnew].
  rewrite dict_get_set_other; [exact Hget |].
  intros ->. unfold PyDict.mem in Hnew. rewrite Hget in Hnew. discriminate.
Qed.

Lemma load_env_lines_keep (lines : list string) :
  forall (env : list (string * string)) (key v : string),
    PyDict.get key env = Some v ->
    PyDict.get key (fold_left load_env_line lines env) = Some v.
Proof.
  induction lines as [| raw lines IH]; intros env key v Hget; [exact Hget |].
  cbn [fold_left]. apply IH. now apply load_env_line_keeps.
Qed.

(** X7. [_load_env_from_dotenv] never raises and never overrides: a
    variable the environment already has keeps its value whatever the
    [.env] file says. *)
Theorem dotenv_never_overrides (s : State) (key v : string) :
  PyDict.get key (environ s) = Some v ->
  fst (_load_env_from_dotenv w s) = inr tt /\
  PyDict.get key (environ (snd (_load_env_from_dotenv w s))) = Some v.
Proof.
  intros Hget. unfold _load_env_from_dotenv.
  destruct (w_dotenv w) as [lines |]; unfold modify, ret; cbn [fst snd].
  - split; [reflexivity |]. cbn [environ with_environ]. now apply load_env_lines_keep.
  - split; [reflexivity | exact Hget].
Qed.

Lemma strip_nonempty (t : string) :
  PyStr.nonempty (PyStr.strip t) = true -> PyStr.nonempty t = true.
Proof. destruct t; [discriminate | reflexivity]. Qed.

(** X8. A token already in the process environment wins over the file:
    [reload_openrouter_token_from_env] applies the environment's token,
    stripped, and returns [True], whatever token the [.env] file holds. *)
Theorem reload_prefers_the_environment (s : State) (tok : string) :
  PyDict.get "OPENROUTER_API_KEY" (environ s) = Some tok ->
  PyStr.nonempty (PyStr.strip tok) = true ->
  fst (reload_openrouter_token_from_env w s) = inr true /\
  openrouter_api_key (snd (reload_openrouter_token_from_env w s)) = Some (PyStr.strip tok).
Proof.
  intros Hget Hsolid.
  unfold reload_openrouter_token_from_env, bind, log, modify, gets.
  cbn [fst snd].
  assert (Hload : forall s0,
             environ s0 = environ s ->
             exists s1, _load_env_from_dotenv w s0 = (inr tt, s1) /\
                        PyDict.get "OPENROUTER_API_KEY" (environ s1) = Some tok).
  { intros s0 Henv. unfold _load_env_from_dotenv.
    destruct (w_dotenv w) as [lines |]; unfold modify, ret; eexists;
      (split; [reflexivity |]); cbn [environ with_environ].
    - apply load_env_lines_keep. now rewrite Henv.
    - now rewrite Henv. }
  destruct (Hload (with_trace s (trace s ++ [EvReloadToken])) eq_refl) as (s1 & -> & Hk).
  cbn [fst snd]. rewrite Hk, Hsolid, (strip_nonempty _ Hsolid).
  cbn [andb fst snd]. unfold ret. cbn [fst snd].
  split; reflexivity.
Qed.

(** X9. Neither [set_openrouter_api_token] nor the reload ever removes
    or blanks the token in use: a call with [None], which the
    application makes when the key is removed from its settings,
    returns [False] and changes nothing. *)
Theorem token_is_never_blanked (s : State) (token : option string) :
  token_in_use s ->
  token_in_use (snd (set_openrouter_api_token token s)) /\
  token_in_use (snd (reload_openrouter_token_from_env w s)) /\
  set_openrouter_api_token None s = (inr false, s).
Proof.
  intros (k & Hk & Hsolid). split; [| split; [| reflexivity]].
  - unfold set_openrouter_api_token.
    destruct token as [t |]; [| exists k; split; assumption].
    destruct (PyStr.nonempty t && PyStr.nonempty (PyStr.strip t)) eqn:Ht.
    + apply andb_true_iff in Ht. destruct Ht as [_ Ht].
      unfold bind, modify, ret. cbn [fst snd].
      exists (PyStr.strip t). split; [reflexivity | exact Ht].
    + exists k. split; assumption.
  - unfold reload_openrouter_token_from_env, _load_env_from_dotenv, bind, log, modify,
      gets, ret.
    cbn [fst snd].
    destruct (w_dotenv w); cbn [fst snd];
      destruct (PyDict.get "OPENROUTER_API_KEY" _) as [tok |]; cbn [fst snd];
      try (destruct (PyStr.nonempty tok && PyStr.nonempty (PyStr.strip tok)) eqn:Ht;
           cbn [fst snd];
           [apply andb_true_iff in Ht; destruct Ht as [_ Ht];
            exists (PyStr.strip tok); split; [reflexivity | exact Ht] |]);
      exists k; split; assumption.
Qed.

End Token.

(** ** What the client makes of a reply *)

Section Client.

(** X10. [query_model] returns exactly for a reply with status 200
    whose body yields a content, and what it returns is that content
    as it was found, whatever JSON value it is ([null] included): the
    value is not checked to be a text.  Every other outcome of the
    request is an exception. *)
Theorem query_model_returns_the_content_of_a_200 (w : World) (model_id inputs : string)
    (s : State) (value : Json) :
  fst (query_model w model_id inputs s) = inr value <->
  exists body,
    w_http_post w (n_posts s) (openrouter_api_key s) model_id inputs = HttpReply 200 body /\
    body_content body = inl value.
Proof.
  rewrite query_model_run. cbn [fst].
  destruct (w_http_post w (n_posts s) (openrouter_api_key s) model_id inputs)
    as [status body | e | e].
  - unfold classify_outcome. destruct (Z.eqb_spec status 200) as [-> | Hne].
    + destruct (body_content body) as [content |] eqn:Hc.
      * split.
        -- intros [= <-]. exists body. split; [reflexivity | exact Hc].
        -- intros (body' & [= <-] & Hc'). congruence.
      * split; [discriminate |]. intros (body' & [= <-] & Hc'). congruence.
    + split.
      * repeat match goal with
               | |- (if ?c then _ else _) = _ -> _ => destruct c
               end; discriminate.
      * intros (body' & [= H _] & _). contradiction.
  - split; [discriminate | intros (body & H & _); discriminate].
  - split; [discriminate | intros (body & H & _); discriminate].
Qed.

Lemma str_in_paused_space (t : string) :
  PyStr.str_in "paused" t || PyStr.str_in "space is paused" t = PyStr.str_in "paused" t.
Proof.
  destruct (PyStr.str_in "paused" t) eqn:E; [reflexivity |].
  cbn [orb]. now apply no_space_is_paused.
Qed.

(** X11. The text of an error reply comes before its status code: any
    reply other than a 200 whose error text mentions a pause is raised
    as the paused-endpoint error, which the retry loop takes for a
    transient error and never for an authentication error, even when
    the status is 401, 403 or 429. *)
Theorem paused_text_overrides_status (status : Z) (body : HttpBody) :
  status <> 200%Z ->
  PyStr.str_in "paused" (PyStr.lower (body_err_text body)) = true ->
  exists e,
    classify_outcome (HttpReply status body) = inl e /\
    exc_str e = "HF endpoint paused" /\
    is_transient (PyStr.lower (exc_str e)) = true /\
    is_auth_error (PyStr.lower (exc_str e)) = false.
Proof.
  intros Hstatus Hpaused. unfold classify_outcome.
  destruct (Z.eqb_spec status 200); [contradiction |].
  rewrite Hpaused. cbn [orb].
  eexists. split; [reflexivity |]. repeat split.
Qed.

End Client.

(** ** The retry loop, request by request *)

Section RetryLoop.

Variable w : World.


Lemma launches_of_app (a b : list Event) :
  launches_of (a ++ b) = (launches_of a ++ launches_of b)%list.
Proof.
  unfold launches_of. induction a as [| ev a IH]; simpl; [reflexivity |].
  destruct ev; simpl; rewrite IH; reflexivity.
Qed.

Lemma attempts_trace_cons (mid : string) (a : nat) (l : list nat) :
  attempts_trace mid (a :: l) = (attempts_trace mid [a] ++ attempts_trace mid l)%list.
Proof. unfold attempts_trace. cbn [flat_map]. now rewrite app_nil_r. Qed.

Lemma attempts_trace_queries (mid : string) (l : list nat) :
  queries_of (attempts_trace mid l) = repeat mid (List.length l).
Proof.
  induction l as [| a l IH]; [reflexivity |].
  cbn [attempts_trace flat_map]. fold (attempts_trace mid l).
  rewrite !queries_of_app, IH. destruct (0 <? a)%nat; reflexivity.
Qed.



Lemma after_delay_client (s : State) :
  n_posts (after_delay s) = n_posts s /\
  openrouter_api_key (after_delay s) = openrouter_api_key s /\
  launches_of (trace (after_delay s)) = launches_of (trace s).
Proof.
  unfold after_delay, response_delay_stage, bind, gets, sleep, log, modify, ret.
  cbn [fst snd]. destruct (Qgtb _ _); cbn [snd]; [| repeat split].
  simpl. rewrite launches_of_app. simpl. rewrite app_nil_r. repeat split.
Qed.










Lemma cache_kept_refl (s : State) : cache_kept s s.
Proof. split; reflexivity. Qed.






Lemma clear_model_error_available (m : SettingsManager) (mid : string) :
  Settings.check_model_availability (snd (Settings.clear_model_error m mid)) mid = true.
Proof.
  destruct (clear_model_error_cache m mid) as (_ & _ & Hst).
  unfold Settings.check_model_availability, Settings.get_model_status.
  rewrite Hst. unfold PyDict.mem.
  destruct (PyDict.get mid (model_status m)) as [st |] eqn:E.
  - now rewrite dict_get_set_same.
  - now rewrite E.
Qed.

(** Whether it returns or raises, [clear_error] logs nothing and
    leaves the model shown as available. *)
Lemma clear_error_effect (mid : string) (s : State) :
  exists r s',
    clear_error mid s = (r, s') /\
    r = (if errors_key_present s then inr tt else inl (KeyError "model_errors")) /\
    trace s' = trace s /\ cache_clear s' mid /\
    option_map settings (settings_manager s') = option_map settings (settings_manager s).
Proof.
  unfold clear_error, bind, gets, modify, ret, raise, cache_clear, errors_key_present.
  cbn [fst snd].
  destruct (settings_manager s) as [m |] eqn:Hm; cbn [fst snd].
  - pose proof (clear_model_error_available m mid) as Hav.
    destruct (clear_model_error_cache m mid) as (Hset & _).
    unfold Settings.clear_model_error in *.
    destruct (settings_model_errors m); cbn [fst snd] in *;
      do 2 eexists; (split; [reflexivity |]); (split; [reflexivity |]);
      (split; [reflexivity |]); simpl; rewrite ?Hm; (split; [exact Hav |]);
      reflexivity.
  - do 2 eexists. split; [reflexivity |]. split; [reflexivity |]. split; [reflexivity |].
    rewrite Hm. split; [exact I | reflexivity].
Qed.

(** The first attempt of the retry loop on a reply that carries a
    content whose text is not blank, up to the clearing of the cache. *)
Lemma first_attempt_answered (mid msg name : string) (did : bool) (s : State)
    (response : Json) :
  classify_outcome (w_http_post w (n_posts s) (openrouter_api_key s) mid msg)
  = inr response ->
  PyStr.nonempty (PyStr.strip (py_str w response)) = true ->
  let s1 := with_trace (with_posts s (S (n_posts s))) (trace s ++ [EvQuery mid]) in
  primary_attempt w mid msg name 0 did s
  = match clear_error mid s1 with
    | (inr _, s2) => (inr (inl (using_suffix (py_str w response) name)), s2)
    | (inl e, s2) => attempt_failed w mid did e s2
    end.
Proof.
  intros Hreply Hsolid. cbv zeta.
  unfold primary_attempt, catch, bind.
  cbn [Nat.ltb Nat.leb]. unfold ret at 1. cbn [fst snd].
  rewrite query_model_run, Hreply. cbn [fst snd]. rewrite Hsolid. cbn [negb].
  destruct (clear_error mid _) as [[e | []] s2]; reflexivity.
Qed.

(** X14. For a message that reaches the model: when the first request
    to a remote primary model is answered with a value whose text is
    not blank, and the settings of the manager hold their
    ['model_errors'] entry, the call returns that text under the
    model's name after this one request, with no pause, and the cache
    shows the model as available again. *)
Theorem answer_from_the_primary_model (message mid : string) (response : Json)
    (esa ecsa : option bool) (srla : option Z) (model_id : option string) (s : State) :
  resolve_model model_id s = mid ->
  is_openrouter_model (lookup_model_info mid) = true ->
  classify_outcome (w_http_post w (n_posts s) (openrouter_api_key s) mid message)
  = inr response ->
  PyStr.nonempty (PyStr.strip (py_str w response)) = true ->
  errors_key_present s = true ->
  reaches_model w message esa ecsa srla model_id s ->
  let r := call_ai_api w message esa ecsa srla model_id s in
  fst r = inr (using_suffix (py_str w response) (model_name_of mid)) /\
  trace (snd r) = (trace (after_delay s) ++ [EvQuery mid])%list /\
  cache_clear (snd r) mid.
Proof.
  intros Hmid Hremote Hreply Hsolid Hkey Hreach r. subst r.
  rewrite (call_ai_api_routes _ _ _ _ _ _ _ Hreach), Hmid.
  destruct (after_delay_client s) as (Hn0 & Hk0 & _).
  destruct (after_delay_reads s) as (_ & Hsm0 & _).
  set (s0 := after_delay s) in *.
  destruct (seq_attempts _ (retry_attempts_positive (settings_manager s0))) as (rest & Hseq).
  rewrite <- Hn0, <- Hk0 in Hreply.
  enough (Hroute : exists s2,
             route w mid message s0
             = (inr (using_suffix (py_str w response) (model_name_of mid)), s2) /\
             trace s2 = (trace s0 ++ [EvQuery mid])%list /\
             cache_clear s2 mid).
  { destruct Hroute as (s2 & -> & Ht & Hc). cbn [fst snd]. repeat split; assumption. }
  unfold route, catch, bind. rewrite Hremote. unfold gets at 1. cbn [fst snd].
  rewrite Hseq. cbn [primary_attempts]. unfold bind.
  rewrite (first_attempt_answered mid message _ false s0 response Hreply Hsolid).
  match goal with
  | |- context [clear_error mid ?s1] =>
      destruct (clear_error_effect mid s1) as (r & s2 & Hclear & Hr & Htr & Hcache & _);
      assert (Hkey1 : errors_key_present s1 = true)
        by (unfold errors_key_present in Hkey |- *; simpl; now rewrite Hsm0)
  end.
  rewrite Hkey1 in Hr. subst r.
  rewrite Hclear. cbn [fst snd]. unfold ret. cbn [fst snd].
  exists s2. split; [reflexivity | split; [| exact Hcache]].
  rewrite Htr. reflexivity.
Qed.



End RetryLoop.

(** ** What a call sends and starts *)

Section Reach.

Variable w : World.

Lemma settings_kept_refl (s : State) : settings_kept s s.
Proof. reflexivity. Qed.

Lemma settings_kept_trans (s1 s2 s3 : State) :
  settings_kept s1 s2 -> settings_kept s2 s3 -> settings_kept s1 s3.
Proof. unfold settings_kept. congruence. Qed.

Lemma same_setup_settings (s s' : State) : same_setup s s' -> settings_kept s s'.
Proof. now intros (_ & _ & H & _). Qed.

Lemma reload_effect (s : State) :
  exists b s',
    reload_openrouter_token_from_env w s = (inr b, s') /\
    trace s' = (trace s ++ [EvReloadToken])%list /\
    settings_manager s' = settings_manager s.
Proof.
  unfold reload_openrouter_token_from_env, _load_env_from_dotenv, bind, gets, log, modify, ret.
  cbn [fst snd].
  destruct (w_dotenv w); cbn [fst snd];
    destruct (PyDict.get "OPENROUTER_API_KEY" _) as [tok |]; cbn [fst snd];
    try destruct (PyStr.nonempty tok && PyStr.nonempty (PyStr.strip tok)); cbn [fst snd];
    do 2 eexists; (split; [reflexivity |]); split; reflexivity.
Qed.

(** The handler of the retry loop never raises; it logs a reload or
    nothing and leaves the settings alone. *)
Lemma attempt_failed_shape (mid : string) (did : bool) (e : PyExc) (s : State) :
  exists r s' (reloaded : bool),
    attempt_failed w mid did e s = (inr (inr r), s') /\
    trace s' = (trace s ++ (if reloaded then [EvReloadToken] else []))%list /\
    settings_kept s s'.
Proof.
  unfold attempt_failed, bind.
  destruct (record_error_run w mid (exc_str e) s) as (s1 & Hrec & Ht1 & Hs1).
  rewrite Hrec. cbn [fst snd].
  apply same_setup_settings in Hs1.
  destruct (is_auth_error (PyStr.lower (exc_str e)) && negb did).
  - destruct (reload_effect s1) as (b & s2 & Hrel & Ht2 & Hm2). rewrite Hrel. cbn [fst snd].
    assert (Hk : settings_kept s s2).
    { unfold settings_kept in *. now rewrite Hm2. }
    destruct b; [| destruct (negb (is_transient (PyStr.lower (exc_str e))))];
      unfold ret; do 2 eexists; exists true;
      (split; [reflexivity |]); (split; [now rewrite Ht2, Ht1 | exact Hk]).
  - unfold ret at 1. cbn [fst snd].
    destruct (negb (is_transient (PyStr.lower (exc_str e))));
      unfold ret; do 2 eexists; exists false;
      (split; [reflexivity |]); (split; [now rewrite Ht1, app_nil_r | exact Hs1]).
Qed.

(** An attempt of the retry loop never raises: it pauses unless it is
    the first, sends one request to the primary model, and may reload
    the token. *)
Lemma primary_attempt_shape (mid msg name : string) (a : nat) (did : bool) (s : State) :
  exists r s' (reloaded : bool),
    primary_attempt w mid msg name a did s = (inr r, s') /\
    trace s'
    = (trace s ++ attempts_trace mid [a] ++ (if reloaded then [EvReloadToken] else []))%list /\
    settings_kept s s'.
Proof.
  unfold primary_attempt, catch, bind.
  assert (Hsleep : exists s0,
             (if (0 <? a)%nat then sleep (inject_Z (2 * Z.of_nat a)) else ret tt) s
             = (inr tt, s0) /\
             trace s0
             = (trace s
                ++ (if (0 <? a)%nat then [EvSleep (inject_Z (2 * Z.of_nat a))] else []))%list /\
             settings_manager s0 = settings_manager s).
  { destruct (0 <? a)%nat; unfold sleep, log, modify, ret; eexists;
      (split; [reflexivity |]); simpl; rewrite ?app_nil_r; split; reflexivity. }
  destruct Hsleep as (s0 & -> & Ht0 & Hm0). cbn [fst snd].
  rewrite query_model_run.
  set (s1 := with_trace (with_posts s0 (S (n_posts s0))) (trace s0 ++ [EvQuery mid])).
  assert (Ht1 : trace s1 = (trace s ++ attempts_trace mid [a])%list).
  { unfold s1. cbn [trace with_trace]. rewrite Ht0. cbn [attempts_trace flat_map].
    now rewrite app_nil_r, app_assoc. }
  assert (Hk1 : settings_kept s s1).
  { unfold settings_kept, s1. simpl. now rewrite Hm0. }
  assert (Hfailed : forall e s1',
             trace s1' = trace s1 -> settings_kept s s1' ->
             exists r s' (reloaded : bool),
               attempt_failed w mid did e s1' = (inr r, s') /\
               trace s'
               = (trace s ++ attempts_trace mid [a]
                  ++ (if reloaded then [EvReloadToken] else []))%list /\
               settings_kept s s').
  { intros e s1' Ht1' Hk1'.
    destruct (attempt_failed_shape mid did e s1') as (r & s' & b & Hrun & Ht & Hk).
    exists (inr r), s', b. split; [exact Hrun | split].
    - now rewrite Ht, Ht1', Ht1, app_assoc.
    - eapply settings_kept_trans; eassumption. }
  destruct (classify_outcome _) as [e | response]; cbn [fst snd];
    [now apply Hfailed |].
  destruct (negb (PyStr.nonempty (PyStr.strip (py_str w response))));
    [now apply Hfailed |].
  destruct (clear_error_effect mid s1) as (r & s2 & Hclear & _ & Ht2 & _ & Hset2).
  assert (Hk2 : settings_kept s s2).
  { unfold settings_kept in *. congruence. }
  rewrite Hclear. cbn [fst snd]. destruct r as [e | []]; cbn [fst snd].
  - now apply Hfailed.
  - unfold ret. do 2 eexists. exists false. split; [reflexivity |].
    rewrite Ht2, Ht1, app_nil_r. split; [reflexivity | exact Hk2].
Qed.

Lemma attempts_trace_launches (mid : string) (l : list nat) :
  launches_of (attempts_trace mid l) = [].
Proof.
  induction l as [| a l IH]; [reflexivity |].
  rewrite attempts_trace_cons, launches_of_app, IH.
  destruct a; reflexivity.
Qed.

(** The retry loop never raises and never starts a process; it sends at
    most one request per attempt, each to the primary model, and leaves
    the settings alone. *)
Lemma primary_attempts_shape (mid msg name : string) (l : list nat) :
  forall (did : bool) (le : option string) (s : State),
  exists r s' (k : nat),
    primary_attempts w mid msg name l did le s = (inr r, s') /\
    ((k <= List.length l)%nat /\ (l <> [] -> (1 <= k)%nat)) /\
    queries_of (trace s') = (queries_of (trace s) ++ repeat mid k)%list /\
    launches_of (trace s') = launches_of (trace s) /\
    settings_kept s s'.
Proof.
  induction l as [| a rest IH]; intros did le s.
  - exists (inr le), s, 0%nat. cbn. rewrite app_nil_r. repeat split; [lia | contradiction].
  - cbn [primary_attempts]. unfold bind.
    destruct (primary_attempt_shape mid msg name a did s) as (r & s1 & b & Hrun & Ht & Hk).
    rewrite Hrun. cbn [fst snd].
    assert (Hq1 : queries_of (trace s1) = (queries_of (trace s) ++ [mid])%list).
    { rewrite Ht, !queries_of_app, attempts_trace_queries. cbn [List.length repeat].
      destruct b; cbn; rewrite ?app_nil_r; reflexivity. }
    assert (Hl1 : launches_of (trace s1) = launches_of (trace s)).
    { rewrite Ht, !launches_of_app, attempts_trace_launches.
      destruct b; cbn; rewrite ?app_nil_r; reflexivity. }
    destruct r as [text | [[[|] did'] err]].
    + exists (inl text), s1, 1%nat. unfold ret.
      split; [reflexivity | split; [cbn; split; lia | repeat split; assumption]].
    + destruct (IH did' (Some err) s1)
        as (r2 & s2 & k & Hrun2 & (Hle & _) & Hq2 & Hl2 & Hk2).
      exists r2, s2, (S k). split; [exact Hrun2 | split; [cbn; split; lia |]].
      split; [| split].
      * rewrite Hq2, Hq1, <- app_assoc. reflexivity.
      * now rewrite Hl2.
      * eapply settings_kept_trans; eassumption.
    + exists (inr (Some err)), s1, 1%nat. unfold ret.
      split; [reflexivity | split; [cbn; split; lia | repeat split; assumption]].
Qed.

Lemma direct_walk_launches (cap : Z) (mid msg : string) (ui : list (string * Json))
    (l : list string) (tried : Z) (s : State) :
  launches_of (trace (snd (direct_walk w cap mid msg ui l tried s))) = launches_of (trace s).
Proof.
  induction l as [| alt_id rest IH]; [reflexivity |].
  cbn [direct_walk].
  destruct (String.eqb alt_id mid || (cap <=? tried)%Z); [exact IH |].
  unfold bind, direct_attempt, catch, bind. rewrite query_model_run.
  destruct (classify_outcome _) as [e | text]; cbn [fst snd].
  - unfold raise. cbn [snd]. simpl. rewrite launches_of_app. simpl. now rewrite app_nil_r.
  - match goal with
    | |- context [switch_to alt_id ?s1] =>
        destruct (switch_to_run alt_id s1) as (s2 & Hsw & Htr); rewrite Hsw
    end.
    cbn [fst snd]. unfold ret. cbn [snd]. rewrite Htr. simpl.
    rewrite launches_of_app. simpl. now rewrite app_nil_r.
Qed.

(** The alternates block always returns and starts no process. *)
Lemma try_alternates_launches (mid msg : string) (le : option string) (s : State) :
  exists r s',
    try_alternates w mid msg le s = (inr r, s') /\
    launches_of (trace s') = launches_of (trace s).
Proof.
  unfold try_alternates, catch.
  match goal with
  | |- context [match ?m s with _ => _ end] =>
      assert (H : launches_of (trace (snd (m s))) = launches_of (trace s));
      [| destruct (m s) as [[e | r] s']; cbn [snd] in H; do 2 eexists;
         (split; [reflexivity | exact H])]
  end.
  unfold bind, gets. cbn [fst snd].
  destruct (recovery_settings (settings_manager s)) as [[[auto_fb cap] ignore] raw].
  destruct (auto_fb && (0 <? cap)%Z && _); [| reflexivity].
  destruct (alternates_walk_run w cap msg (build_alt_models (settings_manager s) mid raw) 0%Z s)
    as (tried & Hwalk).
  rewrite Hwalk. cbn [fst snd].
  destruct (tried <? cap)%Z; [| reflexivity].
  destruct (build_direct_list _ _ _); [| reflexivity].
  destruct (priority_of raw); [| reflexivity].
  apply direct_walk_launches.
Qed.

(** [route] starts no process. *)
Lemma route_launches (mid msg : string) (s : State) :
  launches_of (trace (snd (route w mid msg s))) = launches_of (trace s).
Proof.
  unfold route, catch.
  match goal with
  | |- context [match ?m s with _ => _ end] =>
      assert (H : launches_of (trace (snd (m s))) = launches_of (trace s));
      [| destruct (m s) as [[e | text] s1]; exact H]
  end.
  destruct (is_openrouter_model _).
  - unfold bind, gets. cbn [fst snd].
    match goal with
    | |- context [primary_attempts w mid msg ?n ?l false None s] =>
        destruct (primary_attempts_shape mid msg n l false None s)
          as (r & s1 & k & Hrun & _ & _ & Hl1 & _)
    end.
    rewrite Hrun. cbn [fst snd]. destruct r as [t | last_err]; [exact Hl1 |].
    destruct (try_alternates_launches mid msg last_err s1) as (alt & s2 & Halt & Hl2).
    rewrite Halt. cbn [fst snd].
    destruct alt as [t |]; [unfold ret; cbn [snd]; congruence |].
    match goal with
    | |- context [generate_response w ?p s2] =>
        destruct (generate_response_run w p s2) as (t & s3 & Hgen & Ht3); rewrite Hgen
    end.
    cbn [fst snd]. unfold ret. cbn [snd]. rewrite Ht3. congruence.
  - unfold bind.
    destruct (generate_response_run w msg s) as (t & s2 & Hgen & Ht2). rewrite Hgen.
    cbn [fst snd].
    destruct (clear_error_run mid s2) as (r & s3 & Hclear & [-> | ->] & Ht3 & _);
      rewrite Hclear; cbn [fst snd]; unfold ret; cbn [snd]; congruence.
Qed.

(** With the system commands off the dispatch touches nothing. *)
Lemma dispatch_commands_off (search_enabled : bool) (limit : Z) (current_model ml : string)
    (s : State) :
  exists r, dispatch w search_enabled false limit current_model ml s = (inr r, s).
Proof.
  unfold dispatch.
  destruct (PyStr.any_in model_questions ml || PyStr.any_in identity_questions ml).
  - unfold bind, gets, ret. cbn [fst snd]. eexists. reflexivity.
  - destruct (PyStr.str_in "weather" ml).
    + unfold bind. destruct (get_weather_run w (weather_city ml) s) as (t & ->).
      cbn [fst snd]. unfold ret. eexists. reflexivity.
    + unfold bind.
      destruct (search_stage_run w search_enabled limit ml
                  (info_text (lookup_model_info current_model) "name" "") s) as (r & ->).
      cbn [fst snd]. destruct r as [text |]; [unfold ret; eexists; reflexivity |].
      unfold system_stage.
      destruct (PyStr.any_in _ ml); unfold bind, gets, ret; cbn [fst snd];
        eexists; reflexivity.
Qed.

(** X15. With the system commands off, by the argument of the call or
    by the advanced settings, [call_ai_api] starts no process, whatever
    the message, the model and the world. *)
Theorem no_process_started_when_commands_are_off (message : string)
    (esa ecsa : option bool) (srla : option Z) (model_id : option string) (s : State) :
  commands_enabled ecsa s = false ->
  launches_of (trace (snd (call_ai_api w message esa ecsa srla model_id s)))
  = launches_of (trace s).
Proof.
  intros Hoff. rewrite call_ai_api_run. cbv zeta.
  unfold commands_enabled in Hoff. rewrite Hoff.
  destruct (after_delay_client s) as (_ & _ & Hl0).
  match goal with
  | |- context [dispatch w ?se false ?limit ?cm ?ml (after_delay s)] =>
      destruct (dispatch_commands_off se limit cm ml (after_delay s)) as (r & ->)
  end.
  destruct r as [text |]; cbn [snd]; [exact Hl0 |].
  now rewrite route_launches.
Qed.




Lemma dict_get_in {V : Type} (k : string) (v : V) (d : list (string * V)) :
  PyDict.get k d = Some v -> In (k, v) d.
Proof.
  induction d as [| [k0 v0] d IH]; cbn [PyDict.get]; [discriminate |].
  destruct (String.eqb_spec k k0) as [-> | _].
  - intros [= ->]. now left.
  - intros H. right. now apply IH.
Qed.

Lemma no_provider_tail (entry : string * Json) (ui : list (string * Json)) :
  no_provider (entry :: ui) -> no_provider ui.
Proof. intros H mid info Hin. apply (H mid info). now right. Qed.

Lemma is_alternate_no_provider (ui : list (string * Json)) (cur mid : string) (info : Json) :
  no_provider ui -> In (mid, info) ui -> is_alternate cur mid info = Some false.
Proof.
  intros Hno Hin. destruct (Hno mid info Hin) as (fields & -> & Hp).
  unfold is_alternate. destruct (String.eqb mid cur); [reflexivity |].
  now rewrite Hp, andb_false_r.
Qed.

Lemma collect_alternates_none (cur : string) (ui : list (string * Json)) :
  no_provider ui -> collect_alternates cur ui = ([], true).
Proof.
  induction ui as [| [mid info] ui IH]; intros Hno; [reflexivity |].
  cbn [collect_alternates].
  rewrite (is_alternate_no_provider _ cur mid info Hno) by now left.
  now rewrite (IH (no_provider_tail _ _ Hno)).
Qed.

Lemma all_some_unmarked {A : Type} (f : A -> option (string * bool)) (l : list A) :
  (forall x, In x l -> exists t, f x = Some (t, false)) ->
  exists marked, all_some (map f l) = Some marked /\ filter snd marked = [].
Proof.
  induction l as [| x l IH]; intros H.
  - exists []. split; reflexivity.
  - destruct (H x (or_introl eq_refl)) as (t & Hx).
    destruct IH as (marked & Hall & Hnone); [intros y Hy; apply H; now right |].
    exists ((t, false) :: marked). cbn [map all_some]. rewrite Hx, Hall. split; [reflexivity |].
    cbn [filter snd]. exact Hnone.
Qed.

Lemma build_direct_list_none (env : list (string * string)) (ui : list (string * Json))
    (cur : string) :
  no_provider ui -> build_direct_list env ui cur = Some [].
Proof.
  intros Hno. unfold build_direct_list.
  match goal with
  | |- context [all_some (map ?f (_get_env_alt_models env))] =>
      destruct (all_some_unmarked f (_get_env_alt_models env)) as (marked & -> & Hnone)
  end.
  { intros alt _. destruct (String.eqb alt cur); [eauto |].
    destruct (PyDict.get alt ui) as [info |] eqn:Hget; [| eauto].
    rewrite (is_alternate_no_provider ui cur alt info Hno (dict_get_in _ _ _ Hget)).
    cbn. eauto. }
  rewrite Hnone. cbn [map].
  match goal with
  | |- context [all_some (map ?g ui)] =>
      destruct (all_some_unmarked g ui) as (marked2 & -> & Hnone2)
  end.
  { intros [mid info] Hin. cbn [fst snd].
    rewrite (is_alternate_no_provider ui cur mid info Hno Hin). cbn. eauto. }
  cbn [option_map]. now rewrite Hnone2.
Qed.

(** With a catalog in which no entry names OpenRouter as its provider
    the alternates block finds no candidate and touches nothing. *)
Lemma try_alternates_no_provider (mid msg : string) (le : option string) (s : State) :
  no_provider (_get_ui_available_models (settings_manager s)) ->
  try_alternates w mid msg le s = (inr None, s).
Proof.
  intros Hno. unfold try_alternates, catch, bind, gets. cbn [fst snd].
  destruct (recovery_settings (settings_manager s)) as [[[auto_fb cap] ignore] raw].
  destruct (auto_fb && (0 <? cap)%Z && _) eqn:Hc; [| reflexivity].
  assert (Hcap : (0 <? cap)%Z = true).
  { apply andb_true_iff in Hc. destruct Hc as [Hc _].
    apply andb_true_iff in Hc. now destruct Hc. }
  unfold build_alt_models. rewrite (collect_alternates_none mid _ Hno).
  assert (Halts : match priority_of raw with
                  | Some (p :: ps) =>
                      sort_by (fun t : string * Json => rank last_index (p :: ps) (fst t)) []
                  | _ => []
                  end = []).
  { destruct (priority_of raw) as [[| p ps] |]; reflexivity. }
  rewrite Halts. cbn [alternates_walk]. unfold ret at 1. cbn [fst snd].
  rewrite Hcap. cbn [fst snd].
  rewrite (build_direct_list_none _ _ mid Hno).
  destruct (priority_of raw) as [[| p ps] |]; reflexivity.
Qed.

Lemma ui_models_kept (s s' : State) :
  settings_kept s s' ->
  _get_ui_available_models (settings_manager s')
  = _get_ui_available_models (settings_manager s).
Proof.
  unfold settings_kept, _get_ui_available_models, Settings.get.
  destruct (settings_manager s') as [m' |], (settings_manager s) as [m |]; cbn;
    try discriminate; [| reflexivity].
  now intros [= ->].
Qed.

(** X17. With a catalog in which no entry names OpenRouter as its
    provider, as the one the application's settings hold, a call never
    asks another model than the selected one: its requests all go to
    that model and are at most as many as the retry setting allows. *)
Theorem catalog_without_providers_has_no_alternates (message mid : string)
    (esa ecsa : option bool) (srla : option Z) (model_id : option string) (s : State) :
  resolve_model model_id s = mid ->
  no_provider (_get_ui_available_models (settings_manager s)) ->
  reaches_model w message esa ecsa srla model_id s ->
  exists k,
    (k <= Z.to_nat (retry_attempts_of (settings_manager s)))%nat /\
    queries_of (trace (snd (call_ai_api w message esa ecsa srla model_id s)))
    = (queries_of (trace s) ++ repeat mid k)%list.
Proof.
  intros Hmid Hno Hreach.
  rewrite (call_ai_api_routes _ _ _ _ _ _ _ Hreach), Hmid.
  destruct (after_delay_setup s) as (Hs0 & Hq0 & _).
  set (s0 := after_delay s) in *.
  assert (Hk0 : settings_kept s s0) by now apply same_setup_settings.
  rewrite <- (retry_attempts_same _ _ Hk0).
  enough (Hroute : exists k text s2,
             route w mid message s0 = (inr text, s2) /\
             (k <= Z.to_nat (retry_attempts_of (settings_manager s0)))%nat /\
             queries_of (trace s2) = (queries_of (trace s0) ++ repeat mid k)%list).
  { destruct Hroute as (k & text & s2 & -> & Hle & Hq). exists k. cbn [snd].
    split; [exact Hle | now rewrite Hq, Hq0]. }
  unfold route, catch.
  destruct (is_openrouter_model (lookup_model_info mid)).
  - unfold bind, gets. cbn [fst snd].
    match goal with
    | |- context [primary_attempts w mid message ?n ?l false None s0] =>
        destruct (primary_attempts_shape mid message n l false None s0)
          as (r & s1 & k & Hrun & (Hle & _) & Hq1 & _ & Hk1)
    end.
    rewrite length_seq in Hle.
    rewrite Hrun. cbn [fst snd]. destruct r as [t | last_err].
    + unfold ret. exists k. do 2 eexists. split; [reflexivity | split; assumption].
    + rewrite (try_alternates_no_provider mid message last_err s1).
      * cbn [fst snd].
        match goal with
        | |- context [generate_response w ?p s1] =>
            destruct (generate_response_run w p s1) as (t & s2 & Hgen & Ht2); rewrite Hgen
        end.
        cbn [fst snd]. unfold ret. exists k. do 2 eexists.
        split; [reflexivity | split; [exact Hle | now rewrite Ht2]].
      * rewrite (ui_models_kept s0 s1 Hk1), (ui_models_kept s s0 Hk0). exact Hno.
  - unfold bind.
    destruct (generate_response_run w message s0) as (t & s2 & Hgen & Ht2). rewrite Hgen.
    cbn [fst snd].
    destruct (clear_error_run mid s2) as (r & s3 & Hclear & [-> | ->] & Ht3 & _);
      rewrite Hclear; cbn [fst snd]; unfold ret; exists 0%nat; do 2 eexists;
      (split; [reflexivity | split; [lia |]]);
      cbn [repeat]; now rewrite Ht3, Ht2, app_nil_r.
Qed.

(** The application's catalog names no provider. *)
Lemma default_catalog_no_provider : no_provider default_available_models.
Proof.
  intros mid info Hin. unfold default_available_models in Hin. cbn [In] in Hin.
  repeat (destruct Hin as [Hin | Hin];
          [injection Hin as <- <-; eexists; split; [reflexivity | reflexivity] |]).
  contradiction.
Qed.

Lemma prefix_self_app (n b : string) : String.prefix n (n ++ b) = true.
Proof.
  induction n as [| c n IH]; [destruct b; reflexivity |].
  cbn [append String.prefix]. destruct (Ascii.ascii_dec c c); [exact IH | contradiction].
Qed.

Lemma str_in_of_prefix (n h : string) : String.prefix n h = true -> PyStr.str_in n h = true.
Proof. intros H. destruct h; cbn [PyStr.str_in]; now rewrite H. Qed.

Lemma str_in_skip (a n h : string) :
  PyStr.str_in n h = true -> PyStr.str_in n (a ++ h) = true.
Proof.
  intros H. induction a as [| c a IH]; [exact H |].
  cbn [append PyStr.str_in]. now rewrite IH, orb_true_r.
Qed.

Lemma str_in_app_mid (a n b : string) : PyStr.str_in n (a ++ n ++ b) = true.
Proof. apply str_in_skip, str_in_of_prefix, prefix_self_app. Qed.

(** X18. A question about the model or about Luna is answered from the
    catalog entry of the selected model before anything else is looked
    at: whatever else the message contains, the call sends no request,
    runs no search and no command, and leaves the state as the initial
    delay left it. *)
Theorem identity_question_answered_from_the_catalog (message : string)
    (esa ecsa : option bool) (srla : option Z) (model_id : option string) (s : State) :
  PyStr.any_in model_questions (PyStr.strip (PyStr.lower message))
  || PyStr.any_in identity_questions (PyStr.strip (PyStr.lower message)) = true ->
  exists response,
    call_ai_api w message esa ecsa srla model_id s
    = (inr (using_suffix response (model_name_of (resolve_model model_id s))),
       after_delay s) /\
    PyStr.str_in (model_name_of (resolve_model model_id s)) response = true.
Proof.
  intros Hq. rewrite call_ai_api_run. cbv zeta.
  unfold dispatch. rewrite Hq. unfold bind, gets, ret. cbn [fst snd].
  fold (model_name_of (resolve_model model_id s)).
  eexists. split; [reflexivity |].
  destruct (Qgtb _ _).
  - apply str_in_app_mid.
  - apply str_in_app_mid.
Qed.

End Reach.

(** ** Choosing the model *)

Section ModelChoice.

Lemma dict_mem_of_key {V : Type} (k : string) (d : list (string * V)) :
  In k (map fst d) -> PyDict.mem k d = true.
Proof.
  unfold PyDict.mem. induction d as [| [k0 v0] d IH]; cbn [map In PyDict.get fst];
    [contradiction |].
  intros [-> | Hin].
  - now rewrite String.eqb_refl.
  - destruct (String.eqb k k0); [reflexivity | now apply IH].
Qed.

Lemma model_candidates_are_keys (target : string) (available : list (string * Json))
    (key : string) :
  In key (model_candidates target available) -> In key (map fst available).
Proof.
  unfold model_candidates. intros H. apply in_map_iff in H.
  destruct H as (entry & <- & Hin). apply filter_In in Hin. destruct Hin as [Hin _].
  now apply in_map.
Qed.

(** X19. [set_current_model] never raises.  When it returns [True] the
    current model is a key of the catalog, so that
    [get_current_model_info] finds its entry; when it returns [False]
    nothing has changed. *)
Theorem set_current_model_selects_a_catalog_key (model_id : string) (s : State) :
  exists (accepted : bool) (s' : State),
    set_current_model model_id s = (inr accepted, s') /\
    if accepted
    then PyDict.mem (current_model (advanced_settings s')) get_available_models = true
    else s' = s.
Proof.
  unfold set_current_model.
  set (resolved := match PyDict.get model_id legacy_map with
                   | Some slug => slug
                   | None => model_id
                   end).
  destruct (PyDict.mem resolved get_available_models) eqn:Hmem.
  - exists true. eexists. split; [reflexivity |]. exact Hmem.
  - destruct (model_candidates (_norm resolved) get_available_models) as [| mapped rest] eqn:Hc.
    + exists false, s. split; reflexivity.
    + exists true. eexists. split; [reflexivity |].
      cbn [snd]. unfold set_current_model_setting, bind, modify, ret. simpl.
      apply dict_mem_of_key, (model_candidates_are_keys (_norm resolved)).
      rewrite Hc. now left.
Qed.

(** X20. The remapping of a legacy model id does not survive the switch
    as the application performs it: [set_current_model] alone selects
    the current slug, but the [update_advanced_settings] call that
    follows it puts the legacy id back, for which
    [get_current_model_info] falls back to the local engine. *)
Theorem switch_puts_the_legacy_id_back (model_id slug : string) (s : State) :
  PyDict.get model_id legacy_map = Some slug ->
  fst (set_current_model model_id s) = inr true /\
  current_model (advanced_settings (snd (set_current_model model_id s))) = slug /\
  current_model (advanced_settings (snd (sync_model model_id s))) = model_id /\
  fst (get_current_model_info (snd (sync_model model_id s))) = inr local_engine_info.
Proof.
  unfold legacy_map. cbn [PyDict.get].
  destruct (String.eqb_spec model_id "deepseek/deepseek-chat-v3-0324:free") as [-> | _].
  - intros [= <-]. repeat split.
  - destruct (String.eqb_spec model_id "nex-agi/deepseek-v3.1-nex-n1:free") as [-> | _];
      [| discriminate].
    intros [= <-]. repeat split.
Qed.

End ModelChoice.

(** ** The status probe and the status cache *)

Section Status.

Lemma dict_set_keys {V : Type} (k k' : string) (v : V) (d : list (string * V)) :
  In k' (map fst (PyDict.set k v d)) <-> k' = k \/ In k' (map fst d).
Proof.
  induction d as [| [k0 v0] d IH]; cbn [PyDict.set map In fst].
  - intuition.
  - destruct (String.eqb_spec k k0) as [-> | Hne]; cbn [map In fst].
    + intuition.
    + rewrite IH. intuition.
Qed.

Lemma dict_set_values {V : Type} (k k' : string) (v v' : V) (d : list (string * V)) :
  In (k', v') (PyDict.set k v d) -> v' = v \/ In (k', v') d.
Proof.
  induction d as [| [k0 v0] d IH]; cbn [PyDict.set In].
  - intros [[= _ <-] | []]. now left.
  - destruct (String.eqb_spec k k0) as [-> | Hne]; cbn [In].
    + intros [[= _ <-] | H]; [now left | right; now right].
    + intros [H | H]; [right; now left |].
      destruct (IH H) as [-> | Hin]; [now left | right; now right].
Qed.

(** What [ModelStatusWorker.run] emits: for every model it was given,
    and for no other, the error entry of its [except] clause. *)
Lemma status_worker_run_results (model_ids : list string) :
  (forall id, In id model_ids -> In id (map fst (status_worker_run model_ids))) /\
  (forall id res, In (id, res) (status_worker_run model_ids) ->
                  res = mkStatusResult "error" (Some missing_probe_text)).
Proof.
  unfold status_worker_run.
  set (step := fun results model_id => PyDict.set model_id _ results).
  assert (H : forall ids acc,
             (forall id res, In (id, res) acc ->
                             res = mkStatusResult "error" (Some missing_probe_text)) ->
             (forall id, In id ids \/ In id (map fst acc) ->
                         In id (map fst (fold_left step ids acc))) /\
             (forall id res, In (id, res) (fold_left step ids acc) ->
                             res = mkStatusResult "error" (Some missing_probe_text))).
  { induction ids as [| k ids IH]; intros acc Hacc.
    - split; [intros id [[] | H]; exact H | exact Hacc].
    - cbn [fold_left].
      destruct (IH (step acc k)) as (Hkeys & Hvals).
      { intros id res Hin. unfold step in Hin.
        destruct (dict_set_values _ _ _ _ _ Hin) as [-> | Hold]; [reflexivity | eauto]. }
      split; [| exact Hvals].
      intros id [[-> | Hin] | Hin]; apply Hkeys.
      + right. unfold step. apply dict_set_keys. now left.
      + now left.
      + right. unfold step. apply dict_set_keys. now right. }
  destruct (H model_ids []) as (Hkeys & Hvals); [intros ? ? [] |].
  split; [intros id Hin; apply Hkeys; now left | exact Hvals].
Qed.

Lemma failed_entry_step (sm : SettingsManager) (k id : string) (t1 t2 : Q) :
  k = id \/ reported_failed sm id ->
  reported_failed
    (Settings.set_model_status sm k (Some "error") (Some missing_probe_text) t1 t2) id.
Proof.
  assert (Hset : Settings.set_model_status sm k (Some "error") (Some missing_probe_text) t1 t2
                 = {| settings := settings sm;
                      settings_model_errors :=
                        Some (PyDict.set k (mkErrorRecord missing_probe_text t2)
                                (match settings_model_errors sm with
                                 | Some stored => stored
                                 | None => []
                                 end));
                      model_errors :=
                        PyDict.set k (mkErrorRecord missing_probe_text t1) (model_errors sm);
                      model_status := PyDict.set k "error" (model_status sm) |})
    by reflexivity.
  rewrite Hset.
  unfold reported_failed, Settings.get_model_status, Settings.get_model_error.
  cbn [model_status model_errors].
  destruct (String.eqb_spec id k) as [-> | Hne].
  - intros _. rewrite !dict_get_set_same. split; reflexivity.
  - intros [-> | H]; [contradiction |].
    rewrite !dict_get_set_other by exact Hne. exact H.
Qed.

Lemma on_model_status_results_failed (clock : nat -> Q)
    (results : list (string * StatusResult)) (id : string) :
  (forall k res, In (k, res) results ->
                 res = mkStatusResult "error" (Some missing_probe_text)) ->
  forall (n : nat) (sm : SettingsManager),
    In id (map fst results) \/ reported_failed sm id ->
    reported_failed (on_model_status_results clock n results sm) id.
Proof.
  induction results as [| [k res] results IH]; intros Hall n sm Hid.
  - destruct Hid as [[] | H]. exact H.
  - cbn [on_model_status_results].
    rewrite (Hall k res (or_introl eq_refl)).
    change (normalised_status (mkStatusResult "error" (Some missing_probe_text)))
      with "error".
    cbn [sr_error]. apply IH.
    + intros k' res' Hin. apply (Hall k' res'). now right.
    + cbn [map In fst] in Hid. destruct Hid as [[-> | Hin] | H].
      * right. apply failed_entry_step. now left.
      * now left.
      * right. apply failed_entry_step. now right.
Qed.

(** X21. The background status check never probes a model: the worker
    calls [ai_api.check_hf_model_status], which the module does not
    define, and reports the [AttributeError] for every model; once
    [on_model_status_results] has applied its results, every model that
    was to be checked is cached as being in error with that text,
    whatever the cache held before. *)
Theorem status_check_reports_every_model_failed (clock : nat -> Q) (n : nat)
    (model_ids : list string) (sm : SettingsManager) (id : string) :
  In id model_ids ->
  let sm' := on_model_status_results clock n (status_worker_run model_ids) sm in
  Settings.get_model_status sm' id = "error" /\
  option_map er_error (Settings.get_model_error sm' id) = Some missing_probe_text /\
  Settings.check_model_availability sm' id = false.
Proof.
  intros Hin sm'.
  destruct (status_worker_run_results model_ids) as (Hkeys & Hvals).
  destruct (on_model_status_results_failed clock (status_worker_run model_ids) id Hvals n sm)
    as (Hstatus & Herror); [left; now apply Hkeys |].
  fold sm' in Hstatus, Herror.
  split; [exact Hstatus | split; [exact Herror |]].
  unfold Settings.check_model_availability. now rewrite Hstatus.
Qed.

(** X22. [check_openrouter_model_status] answers with one of its four
    statuses; it reports a model as available exactly when it gives no
    error text, and that is the case for the local engine, which is not
    probed, and for a reply with status 200 only. *)
Theorem probe_available_only_on_200 (probe : string -> ProbeOutcome) (model_id : string) :
  let r := check_openrouter_model_status probe model_id in
  In (sr_status r) ["available"; "paused"; "loading"; "error"] /\
  (sr_status r = "available" <-> sr_error r = None) /\
  (sr_error r = None <->
   model_id = "local_engine" \/ exists data, probe model_id = ProbeReply 200 data).
Proof.
  intros r. subst r. unfold check_openrouter_model_status.
  destruct (String.eqb_spec model_id "local_engine") as [-> | Hne].
  - cbn. intuition.
  - destruct (probe model_id) as [code data | | e].
    + destruct (Z.eqb_spec code 200) as [-> | Hcode].
      * cbn. intuition eauto.
      * assert (Hno : ~ (model_id = "local_engine"
                         \/ exists d, ProbeReply code data = ProbeReply 200 d)).
        { intros [H | (d & [= H _])]; contradiction. }
        repeat match goal with
               | |- context [if ?c then _ else _] => destruct c
               end; cbn [sr_status sr_error In];
          (split; [auto 10 | split; split; intros H; try discriminate H; contradiction]).
    + cbn [sr_status sr_error In]. split; [auto 10 |].
      split; split; intros H; try discriminate H.
      destruct H as [H | (d & H)]; [contradiction | discriminate].
    + cbn [sr_status sr_error In]. split; [auto 10 |].
      split; split; intros H; try discriminate H.
      destruct H as [H | (d & H)]; [contradiction | discriminate].
Qed.

(** X23. A reply with status 400 is always reported as a paused
    endpoint, whatever its body says, with a text that ends with the
    guidance on pauses. *)
Theorem bad_request_reads_as_paused (probe : string -> ProbeOutcome) (model_id : string)
    (data : option Json) :
  model_id <> "local_engine" ->
  probe model_id = ProbeReply 400 data ->
  exists msg,
    check_openrouter_model_status probe model_id
    = mkStatusResult "paused" (Some (msg ++ ". " ++ paused_guidance)) /\
    PyStr.nonempty msg = true.
Proof.
  intros Hne Hprobe. unfold check_openrouter_model_status.
  destruct (String.eqb_spec model_id "local_engine"); [contradiction |].
  rewrite Hprobe. cbn [Z.eqb Pos.eqb]. rewrite orb_true_r.
  eexists. split; [reflexivity |].
  destruct (PyStr.nonempty (probe_err_text data)) eqn:E; [exact E | reflexivity].
Qed.

Lemma unique_keys_set {V : Type} (k : string) (v : V) (d : list (string * V)) :
  unique_keys d -> unique_keys (PyDict.set k v d).
Proof.
  unfold unique_keys. induction d as [| [k0 v0] d IH]; cbn [PyDict.set map fst].
  - intros _. constructor; [intros [] | constructor].
  - intros H. inversion H as [| ? ? Hnotin Hrest]; subst.
    destruct (String.eqb_spec k k0) as [-> | Hne]; cbn [map fst].
    + constructor; assumption.
    + constructor; [| now apply IH].
      intros Hin. apply dict_set_keys in Hin. destruct Hin as [-> | Hin]; contradiction.
Qed.

Lemma dict_get_absent {V : Type} (k : string) (d : list (string * V)) :
  ~ In k (map fst d) -> PyDict.get k d = None.
Proof.
  induction d as [| [k0 v0] d IH]; cbn [map fst In PyDict.get]; [reflexivity |].
  intros H. destruct (String.eqb_spec k k0) as [-> | _]; [| apply IH]; intuition.
Qed.

Lemma dict_get_del_same {V : Type} (k : string) (d : list (string * V)) :
  unique_keys d -> PyDict.get k (PyDict.del k d) = None.
Proof.
  unfold unique_keys. induction d as [| [k0 v0] d IH]; cbn [PyDict.del map fst];
    [reflexivity |].
  intros H. inversion H as [| ? ? Hnotin Hrest]; subst.
  destruct (String.eqb_spec k k0) as [-> | Hne].
  - now apply dict_get_absent.
  - cbn [PyDict.get]. destruct (String.eqb_spec k k0); [contradiction | now apply IH].
Qed.

Lemma dict_get_del_other {V : Type} (k k' : string) (d : list (string * V)) :
  k <> k' -> PyDict.get k (PyDict.del k' d) = PyDict.get k d.
Proof.
  intros Hne. induction d as [| [k0 v0] d IH]; cbn [PyDict.del PyDict.get]; [reflexivity |].
  destruct (String.eqb_spec k' k0) as [-> | Hk0]; cbn [PyDict.get].
  - destruct (String.eqb_spec k k0); [contradiction | reflexivity].
  - destruct (String.eqb_spec k k0); [reflexivity | exact IH].
Qed.

(** X24. After [set_model_status] the cache is consistent for the
    model: it shows the lower-cased status, ['error'] when none was
    given; an available model has no error recorded, and any other
    status comes with a text that is not empty, the one given or
    ['Paused'] or ['Unavailable']. *)
Theorem set_model_status_is_consistent (sm : SettingsManager) (model_id : string)
    (status error : option string) (t1 t2 : Q) :
  unique_keys (model_errors sm) ->
  let sm' := Settings.set_model_status sm model_id status error t1 t2 in
  Settings.get_model_status sm' model_id
  = PyStr.lower (match status with
                 | Some st => if PyStr.nonempty st then st else "error"
                 | None => "error"
                 end) /\
  (Settings.check_model_availability sm' model_id = true /\
   Settings.get_model_error sm' model_id = None
   \/
   Settings.check_model_availability sm' model_id = false /\
   exists r, Settings.get_model_error sm' model_id = Some r /\
             er_error r <> "" /\ er_timestamp r = t1).
Proof.
  intros Huniq sm'. subst sm'.
  unfold Settings.set_model_status, Settings.check_model_availability,
    Settings.get_model_status, Settings.get_model_error.
  set (st := PyStr.lower _).
  destruct (String.eqb st "available") eqn:Hst; cbn [model_status model_errors];
    rewrite dict_get_set_same; (split; [reflexivity |]); rewrite Hst.
  - left. split; [reflexivity |]. now apply dict_get_del_same.
  - right. split; [reflexivity |]. rewrite dict_get_set_same.
    eexists. split; [reflexivity |]. cbn [er_error er_timestamp]. split; [| reflexivity].
    destruct error as [[| c m] |]; cbn [PyStr.nonempty];
      try (destruct (String.eqb st "paused")); discriminate.
Qed.

(** X25. An error recorded for a model and then cleared leaves no
    trace in the cache: the model is available and has no error.  This
    is the cache in memory, which both methods update before they
    touch the settings, so it holds whether they return or raise. *)
Theorem cleared_error_leaves_no_trace (sm : SettingsManager) (model_id error : string)
    (t1 t2 : Q) :
  unique_keys (model_errors sm) ->
  let sm' :=
    snd (Settings.clear_model_error
           (snd (Settings.set_model_error sm model_id error t1 t2)) model_id) in
  Settings.get_model_status sm' model_id = "available" /\
  Settings.get_model_error sm' model_id = None /\
  Settings.check_model_availability sm' model_id = true.
Proof.
  intros Huniq sm'. subst sm'.
  pose proof (clear_model_error_available
                (snd (Settings.set_model_error sm model_id error t1 t2)) model_id) as Havail.
  split; [| split; [| exact Havail]].
  - unfold Settings.check_model_availability in Havail.
    now apply String.eqb_eq in Havail.
  - destruct (clear_model_error_cache
                (snd (Settings.set_model_error sm model_id error t1 t2)) model_id)
      as (_ & Herr & _).
    destruct (set_model_error_cache sm model_id error t1 t2) as (_ & Herr0 & _).
    unfold Settings.get_model_error. rewrite Herr, Herr0.
    apply dict_get_del_same. now apply unique_keys_set.
Qed.

(** X26. The three setters of the cache only touch the model they are
    given: the status and the error of every other model stay as they
    were, in the cache that [set_model_error] and [clear_model_error]
    leave whether they return or raise. *)
Theorem cache_setters_are_local (sm : SettingsManager) (model_id other : string)
    (status error : option string) (text : string) (t1 t2 : Q) :
  other <> model_id ->
  let same (sm' : SettingsManager) :=
    Settings.get_model_status sm' other = Settings.get_model_status sm other /\
    Settings.get_model_error sm' other = Settings.get_model_error sm other in
  same (snd (Settings.set_model_error sm model_id text t1 t2)) /\
  same (Settings.set_model_status sm model_id status error t1 t2) /\
  same (snd (Settings.clear_model_error sm model_id)).
Proof.
  intros Hne same. subst same. cbv beta.
  destruct (set_model_error_cache sm model_id text t1 t2) as (_ & He1 & Hs1).
  destruct (clear_model_error_cache sm model_id) as (_ & He2 & Hs2).
  unfold Settings.get_model_status, Settings.get_model_error.
  rewrite He1, Hs1, He2, Hs2.
  unfold Settings.set_model_status.
  cbn [model_status model_errors].
  split; [| split].
  - now rewrite !dict_get_set_other.
  - destruct (String.eqb _ "available"); cbn [model_status model_errors];
      now rewrite ?dict_get_set_other, ?dict_get_del_other.
  - rewrite dict_get_del_other by exact Hne.
    destruct (PyDict.mem model_id (model_status sm));
      now rewrite ?dict_get_set_other.
Qed.

End Status.

(** ** Greetings, and the settings pushed to the engine *)

Section Pushed.

(** X27. A greeting word anywhere in the message, in any case and even
    inside another word, makes the intent a greeting: the test for
    greetings comes first and looks for substrings. *)
Theorem greeting_words_come_first (e : LocalConversationEngine) (message word : string) :
  In word ["hello"; "hi"; "hey"; "good morning"; "good afternoon"; "greetings"] ->
  PyStr.str_in word (PyStr.lower message) = true ->
  analyze_intent e message = "greetings".
Proof.
  intros Hword Hin. unfold analyze_intent.
  assert (H : PyStr.any_in
                ["hello"; "hi"; "hey"; "good morning"; "good afternoon"; "greetings"]
                (PyStr.strip (PyStr.lower message)) = true).
  { unfold PyStr.any_in. apply existsb_exists. exists word. split; [exact Hword |].
    unfold PyStr.strip. cbn [In] in Hword.
    repeat (destruct Hword as [<- | Hword];
            [apply str_in_rstrip; [reflexivity |];
             apply str_in_lstrip; [reflexivity | exact Hin] |]).
    contradiction. }
  now rewrite H.
Qed.

(** X28. [update_advanced_settings] with a ['conversation_memory'] key
    stores the size as given in the advanced settings, while the
    engine's bound is that size brought between 5 and 50 and its
    memory is cut down to the most recent entries that fit. *)
Theorem update_advanced_settings_resizes_memory (size : Z) (s : State) :
  let s' := snd (update_advanced_settings (conversation_memory_update size) s) in
  fst (update_advanced_settings (conversation_memory_update size) s) = inr tt /\
  conversation_memory (advanced_settings s') = size /\
  max_memory (conversation_engine s') = Z.max 5 (Z.min 50 size) /\
  context_memory (conversation_engine s')
  = keep_last (Z.to_nat (Z.max 5 (Z.min 50 size))) (context_memory (conversation_engine s)) /\
  memory_in_bound (conversation_engine s').
Proof.
  intros s'. subst s'.
  unfold update_advanced_settings, conversation_memory_update, bind, modify, ret.
  cbn [fst snd upd_conversation_memory].
  cbn [conversation_engine advanced_settings with_engine with_advanced dict_update
       conversation_memory upd_conversation_memory or_else].
  unfold set_memory_size.
  match goal with
  | |- context [trim_memory ?e1] =>
      destruct (trim_memory_keep_last e1) as (Hmax & _ & _ & Hmem & Hlen); [cbn; lia |]
  end.
  cbn [max_memory context_memory] in Hmax, Hmem, Hlen.
  split; [reflexivity | split; [reflexivity | split; [exact Hmax | split; [exact Hmem |]]]].
  unfold memory_in_bound. rewrite Hmax. split; [lia | exact Hlen].
Qed.

End Pushed.

(** ** The creativity level pushed to the engine *)

Section Creativity.

(** X29. [set_ai_creativity] accepts any level and brings it between
    0.1 and 1.0: the engine's level is the one given unless that one
    was out of range, and nothing else of the engine changes. *)
Theorem set_ai_creativity_clamps (level : Q) (s : State) :
  let e := conversation_engine s in
  let e' := conversation_engine (snd (set_ai_creativity level s)) in
  (1 # 10 <= creativity_level e' <= 1)%Q /\
  ((creativity_level e' == level)%Q \/ ~ (1 # 10 <= level <= 1)%Q) /\
  context_memory e' = context_memory e /\
  max_memory e' = max_memory e /\
  user_profile e' = user_profile e.
Proof.
  intros e e'. subst e e'.
  unfold set_ai_creativity, modify. cbn [snd conversation_engine with_engine].
  unfold set_creativity. cbn [creativity_level context_memory max_memory user_profile].
  split; [| split; [| repeat split]].
  - unfold Qmax, Qmin.
    destruct (Qle_bool 1 level) eqn:H1.
    + change (Qle_bool (1 # 10) 1) with true. cbv iota. split; [discriminate | apply Qle_refl].
    + destruct (Qle_bool (1 # 10) level) eqn:H2.
      * apply Qle_bool_iff in H2. split; [exact H2 |].
        apply Qlt_le_weak, Qnot_le_lt. intros H. apply Qle_bool_iff in H. congruence.
      * split; [apply Qle_refl | discriminate].
  - unfold Qmax, Qmin.
    destruct (Qle_bool 1 level) eqn:H1.
    + change (Qle_bool (1 # 10) 1) with true. cbv iota.
      apply Qle_bool_iff in H1.
      destruct (Qlt_le_dec 1 level) as [Hlt | Hle].
      * right. intros [_ H]. now apply Qle_not_lt in H.
      * left. now apply Qle_antisym.
    + destruct (Qle_bool (1 # 10) level) eqn:H2.
      * left. reflexivity.
      * right. intros [H _]. apply Qle_bool_iff in H. congruence.
Qed.

End Creativity.

(** ** The further properties at sample inputs *)

Section MoreSamples.

Import Sample.
Import Cases.

(** X2 at a file that holds seven entries and asks for a bound of
    three. *)
Lemma load_from_dict_keeps_memory_in_bound_witness :
  memory_in_bound (load_from_dict (engine_init (7 # 10)) oversized_profile).
Proof.
  apply (load_from_dict_keeps_memory_in_bound (engine_init (7 # 10)) oversized_profile).
  vm_compute. split; discriminate.
Defined.

(** X3 at a dict that only holds a bound. *)
Lemma load_from_dict_missing_keys_reset_witness :
  context_memory (load_from_dict engine_with_profile (JDict [("max_memory", JInt 20)])) = [] /\
  user_profile (load_from_dict engine_with_profile (JDict [("max_memory", JInt 20)])) = [].
Proof.
  apply (load_from_dict_missing_keys_reset engine_with_profile [("max_memory", JInt 20)]);
    reflexivity.
Defined.

(** X4 at creativity 0.5 and a greeting. *)
Lemma generate_response_picks_a_candidate_witness :
  exists tiers candidates text,
    PyDict.get (matched_category
                  (analyze_intent (conversation_engine (state_of (5 # 10) None)) "Hello Luna"))
               response_patterns = Some tiers /\
    PyDict.get (get_creativity_tier (conversation_engine (state_of (5 # 10) None))) tiers
    = Some candidates /\
    fst (generate_response world_rate_limited "Hello Luna" (state_of (5 # 10) None))
    = inr text /\
    In text candidates.
Proof.
  apply (generate_response_picks_a_candidate world_rate_limited (state_of (5 # 10) None)
           "Hello Luna").
  vm_compute. discriminate.
Defined.


(** X6 at a first message, loaded back at another creativity. *)
Lemma saved_profile_loads_back_witness :
  let saved := snd (generate_response world_rate_limited "Hello Luna" (state_of (7 # 10) None)) in
  conversation_engine (snd (load_from_disk (with_engine saved (engine_init (3 # 10)))))
  = {| creativity_level := 3 # 10;
       context_memory := context_memory (conversation_engine saved);
       max_memory := max_memory (conversation_engine saved);
       user_profile := user_profile (conversation_engine saved) |}.
Proof.
  apply (saved_profile_loads_back world_rate_limited (state_of (7 # 10) None) "Hello Luna"
           (3 # 10)); try reflexivity.
  vm_compute. split; [split |]; discriminate.
Defined.

(** X7 at a process whose environment and [.env] file both hold a
    token. *)
Lemma dotenv_never_overrides_witness :
  fst (_load_env_from_dotenv world_unauthorized state_env_token) = inr tt /\
  PyDict.get "OPENROUTER_API_KEY"
    (environ (snd (_load_env_from_dotenv world_unauthorized state_env_token)))
  = Some " sk-or-v1-env ".
Proof.
  apply (dotenv_never_overrides world_unauthorized state_env_token
           "OPENROUTER_API_KEY" " sk-or-v1-env ").
  reflexivity.
Defined.

(** X8 at the same process: the token of the environment is applied. *)
Lemma reload_prefers_the_environment_witness :
  fst (reload_openrouter_token_from_env world_unauthorized state_env_token) = inr true /\
  openrouter_api_key (snd (reload_openrouter_token_from_env world_unauthorized state_env_token))
  = Some (PyStr.strip " sk-or-v1-env ").
Proof.
  apply (reload_prefers_the_environment world_unauthorized state_env_token " sk-or-v1-env ");
    reflexivity.
Defined.

(** X9 at a blank token. *)
Lemma token_is_never_blanked_witness :
  token_in_use (snd (set_openrouter_api_token (Some "  ") (state_of (7 # 10) None))) /\
  token_in_use (snd (reload_openrouter_token_from_env world_rate_limited
                       (state_of (7 # 10) None))) /\
  set_openrouter_api_token None (state_of (7 # 10) None)
  = (inr false, state_of (7 # 10) None).
Proof.
  apply (token_is_never_blanked world_rate_limited (state_of (7 # 10) None) (Some "  ")).
  eexists. split; reflexivity.
Defined.

(** X10 at a reply with status 200 whose content is [null]: the client
    returns the [None] it found. *)
Lemma query_model_returns_the_content_of_a_200_witness :
  fst (query_model world_null primary_id story (state_of (2 # 10) None)) = inr JNull.
Proof.
  apply (query_model_returns_the_content_of_a_200 world_null primary_id story
           (state_of (2 # 10) None) JNull).
  exists body_null. split; reflexivity.
Defined.

(** X11 at a 401 that announces a pause. *)
Lemma paused_text_overrides_status_witness :
  exists e,
    classify_outcome (HttpReply 401 body_paused_401) = inl e /\
    exc_str e = "HF endpoint paused" /\
    is_transient (PyStr.lower (exc_str e)) = true /\
    is_auth_error (PyStr.lower (exc_str e)) = false.
Proof.
  apply (paused_text_overrides_status 401 body_paused_401); [lia | reflexivity].
Defined.



(** X14 at a world that answers. *)
Lemma answer_from_the_primary_model_witness :
  let s := state_of (2 # 10) (Some manager_four_retries) in
  let r := call_ai_api world_answers story None None None (Some primary_id) s in
  fst r = inr (using_suffix "Once upon a time." (model_name_of primary_id)) /\
  trace (snd r) = (trace (after_delay s) ++ [EvQuery primary_id])%list /\
  cache_clear (snd r) primary_id.
Proof.
  apply (answer_from_the_primary_model world_answers story primary_id
           (JStr "Once upon a time.")
           None None None (Some primary_id) (state_of (2 # 10) (Some manager_four_retries)));
    reflexivity.
Defined.

(** X15 at a request to open the notepad, the commands being off for
    the call. *)
Lemma no_process_started_when_commands_are_off_witness :
  launches_of (trace (snd (call_ai_api world_no_programs "open notepad" None (Some false)
                             None None (state_of (2 # 10) None))))
  = launches_of (trace (state_of (2 # 10) None)).
Proof.
  apply (no_process_started_when_commands_are_off world_no_programs "open notepad"
           None (Some false) None None (state_of (2 # 10) None)).
  reflexivity.
Defined.


(** X17 at the application's catalog, the primary model being paused
    and every other model ready to answer. *)
Lemma catalog_without_providers_has_no_alternates_witness :
  exists k,
    (k <= Z.to_nat (retry_attempts_of (settings_manager (state_of (2 # 10) (Some manager_app)))))%nat /\
    queries_of (trace (snd (call_ai_api world_alternates story None None None (Some primary_id)
                              (state_of (2 # 10) (Some manager_app)))))
    = (queries_of (trace (state_of (2 # 10) (Some manager_app))) ++ repeat primary_id k)%list.
Proof.
  apply (catalog_without_providers_has_no_alternates world_alternates story primary_id
           None None None (Some primary_id) (state_of (2 # 10) (Some manager_app)));
    try reflexivity.
  exact default_catalog_no_provider.
Defined.

(** X18 at a question that also mentions the weather. *)
Lemma identity_question_answered_from_the_catalog_witness :
  exists response,
    call_ai_api world_sunny "Who are you and what is the weather" None None None None
      state_with_weather_key
    = (inr (using_suffix response (model_name_of (resolve_model None state_with_weather_key))),
       after_delay state_with_weather_key) /\
    PyStr.str_in (model_name_of (resolve_model None state_with_weather_key)) response = true.
Proof.
  apply (identity_question_answered_from_the_catalog world_sunny
           "Who are you and what is the weather" None None None None state_with_weather_key).
  reflexivity.
Defined.

(** X20 at the first legacy id. *)
Lemma switch_puts_the_legacy_id_back_witness :
  fst (set_current_model legacy_id (state_of (7 # 10) None)) = inr true /\
  current_model (advanced_settings (snd (set_current_model legacy_id (state_of (7 # 10) None))))
  = primary_id /\
  current_model (advanced_settings (snd (sync_model legacy_id (state_of (7 # 10) None))))
  = legacy_id /\
  fst (get_current_model_info (snd (sync_model legacy_id (state_of (7 # 10) None))))
  = inr local_engine_info.
Proof.
  apply (switch_puts_the_legacy_id_back legacy_id primary_id (state_of (7 # 10) None)).
  reflexivity.
Defined.

(** X21 at the three remote models of the catalog. *)
Lemma status_check_reports_every_model_failed_witness :
  let sm' :=
    on_model_status_results (fun n => inject_Z (Z.of_nat n)) 0
      (status_worker_run checked_models) (manager_of []) in
  Settings.get_model_status sm' "openai/gpt-oss-20b:free" = "error" /\
  option_map er_error (Settings.get_model_error sm' "openai/gpt-oss-20b:free")
  = Some missing_probe_text /\
  Settings.check_model_availability sm' "openai/gpt-oss-20b:free" = false.
Proof.
  apply (status_check_reports_every_model_failed (fun n => inject_Z (Z.of_nat n)) 0
           checked_models (manager_of []) "openai/gpt-oss-20b:free").
  simpl. auto.
Defined.

(** X23 at a 400 whose error is a JSON object. *)
Lemma bad_request_reads_as_paused_witness :
  exists msg,
    check_openrouter_model_status probe_bad_request "openai/gpt-oss-20b:free"
    = mkStatusResult "paused" (Some (msg ++ ". " ++ paused_guidance)) /\
    PyStr.nonempty msg = true.
Proof.
  apply (bad_request_reads_as_paused probe_bad_request "openai/gpt-oss-20b:free"
           (Some (JDict [("error", JDict [("message", JStr "Invalid model")])])));
    [discriminate | reflexivity].
Defined.

(** X24 at a status given in capitals and no error text. *)
Lemma set_model_status_is_consistent_witness :
  let sm' := Settings.set_model_status (manager_of []) primary_id (Some "Paused") None 1 2 in
  Settings.get_model_status sm' primary_id = PyStr.lower "Paused" /\
  (Settings.check_model_availability sm' primary_id = true /\
   Settings.get_model_error sm' primary_id = None
   \/
   Settings.check_model_availability sm' primary_id = false /\
   exists r, Settings.get_model_error sm' primary_id = Some r /\
             er_error r <> "" /\ er_timestamp r = 1%Q).
Proof.
  apply (set_model_status_is_consistent (manager_of []) primary_id (Some "Paused") None 1 2).
  unfold unique_keys. simpl. constructor.
Defined.

(** X25 at a rate-limit error. *)
Lemma cleared_error_leaves_no_trace_witness :
  let sm' :=
    snd (Settings.clear_model_error
           (snd (Settings.set_model_error (manager_of []) primary_id
                   "HF rate limit exceeded" 1 2))
           primary_id) in
  Settings.get_model_status sm' primary_id = "available" /\
  Settings.get_model_error sm' primary_id = None /\
  Settings.check_model_availability sm' primary_id = true.
Proof.
  apply (cleared_error_leaves_no_trace (manager_of []) primary_id "HF rate limit exceeded" 1 2).
  unfold unique_keys. simpl. constructor.
Defined.

(** X26 at two models of the catalog. *)
Lemma cache_setters_are_local_witness :
  let sm :=
    snd (Settings.set_model_error (manager_of []) "openai/gpt-oss-20b:free" "paused" 1 2) in
  let same (sm' : SettingsManager) :=
    Settings.get_model_status sm' "openai/gpt-oss-20b:free"
    = Settings.get_model_status sm "openai/gpt-oss-20b:free" /\
    Settings.get_model_error sm' "openai/gpt-oss-20b:free"
    = Settings.get_model_error sm "openai/gpt-oss-20b:free" in
  same (snd (Settings.set_model_error sm primary_id "HF rate limit exceeded" 3 4)) /\
  same (Settings.set_model_status sm primary_id (Some "available") None 3 4) /\
  same (snd (Settings.clear_model_error sm primary_id)).
Proof.
  apply (cache_setters_are_local
           (snd (Settings.set_model_error (manager_of []) "openai/gpt-oss-20b:free"
                   "paused" 1 2))
           primary_id "openai/gpt-oss-20b:free" (Some "available") None
           "HF rate limit exceeded" 3 4).
  discriminate.
Defined.

(** X27 at a message of thanks that contains ["hi"]. *)
Lemma greeting_words_come_first_witness :
  analyze_intent (engine_init (7 # 10)) "Thanks for this" = "greetings".
Proof.
  apply (greeting_words_come_first (engine_init (7 # 10)) "Thanks for this" "hi");
    [simpl; auto | reflexivity].
Defined.

(** C4 at a world whose replies read both ways: two reloads with the
    default of two attempts, five with five attempts. *)
Lemma auth_recovery_repeats_without_a_token_witness :
  reloads_of (trace (snd (call_ai_api world_upstream story None None None (Some primary_id)
                            (state_of (2 # 10) None))))
  = 2%nat /\
  reloads_of (trace (snd (call_ai_api world_upstream story None None None (Some primary_id)
                            (state_of (2 # 10) (Some manager_five_retries)))))
  = 5%nat.
Proof.
  split.
  - apply (auth_recovery_repeats_without_a_token world_upstream story primary_id
             None None None (Some primary_id) (state_of (2 # 10) None));
      try reflexivity.
    intros n tok. eexists. split; [reflexivity |]. split; reflexivity.
  - apply (auth_recovery_repeats_without_a_token world_upstream story primary_id
             None None None (Some primary_id)
             (state_of (2 # 10) (Some manager_five_retries)));
      try reflexivity.
    intros n tok. eexists. split; [reflexivity |]. split; reflexivity.
Defined.

(** C10 at a model id the catalog does not have, once the settings were
    reset to the defaults. *)
Lemma unknown_model_after_reset_gets_generic_text_witness :
  (exists local_response,
      fst (generate_response world_rate_limited story state_after_reset)
      = inr local_response) /\
  fst (call_ai_api world_rate_limited story None None None (Some "mystery/model")
         state_after_reset)
  = inr (using_suffix
           "I'm having trouble connecting to any AI models right now. Please try again later."
           "Local Conversation Engine") /\
  queries_of (trace (snd (call_ai_api world_rate_limited story None None None
                            (Some "mystery/model") state_after_reset)))
  = queries_of (trace state_after_reset).
Proof.
  apply (unknown_model_after_reset_gets_generic_text world_rate_limited story
           "mystery/model" None None None (Some "mystery/model") state_after_reset);
    reflexivity.
Defined.


End MoreSamples.
